(** * sysui frontend: authentication client, session pages and route guards

    A shallow embedding of the TypeScript sources

      - [frontend/src/services/authService.ts]   (axios instance, interceptors)
      - [frontend/src/context/AuthContext.tsx]   (AuthProvider)
      - [frontend/src/pages/auth/LoginPage.tsx], [VerifyTwoFactorPage.tsx],
        the two-factor setup page, [SessionsPage.tsx]
      - the role protected route component

    Asynchronous functions are modelled as computations in a state and
    exception monad over the browser state (localStorage, sessionStorage,
    console, navigation, the AuthProvider's React state).  The backend is an
    environment: every HTTP request consumes the next reply of a script held
    in the state, and every request is recorded in a trace. *)

From stdpp Require Import base strings gmap list.
From Stdlib Require Import ZArith Lia Ascii.

Open Scope string_scope.
Open Scope Z_scope.

(** ** Data model *)

(** [types/user.ts] *)
Inductive Role := admin | editor | viewer.

Record User := {
  user_id : string;
  email : string;
  username : string;
  role : option Role;            (* read as [user?.role]: may be missing *)
  isTwoFactorEnabled : bool;
}.

Record Session := {
  session_id : string;
  userAgent : string;
  ipAddress : string;
  isCurrent : bool;
}.

(** An entry of the [sessions] array answered by [GET /auth/sessions], as
    [authService.logout] reads it. *)
Record SessionInfo := { info_id : string; is_current : bool }.

(** The JSON object carried by a response ([response.data]); only the
    properties the client reads.  [None] is JavaScript's [undefined].
    Response bodies are taken to be objects: a [null] body is not
    modelled. *)
Record Body := {
  requiresTwoFactor : bool;      (* truthiness of [data.requiresTwoFactor] *)
  access_token : option string;
  refresh_token : option string;
  message : option string;
  sessions : option (list SessionInfo);
  profile : User;                (* the object read as a [User] *)
  qrCodeUrl : string;
  secret : string;
}.

Inductive Method := GET | POST | PUT | DELETE.

Definition toUpperCase (m : Method) : string :=
  match m with GET => "GET" | POST => "POST" | PUT => "PUT" | DELETE => "DELETE" end.

Inductive JsonValue := JStr (s : string) | JBool (b : bool).

(** Request payloads: [URLSearchParams] and JSON object literals. *)
Inductive Payload :=
| NoPayload
| URLSearchParams (fields : list (string * string))
| JsonObject (fields : list (string * JsonValue)).

(** An axios request configuration.  [_retry] is the custom flag the
    response interceptor sets on [error.config]. *)
Record Request := {
  method : Method;
  url : string;
  baseURL : string;
  contentType : string;
  Authorization : option string;
  payload : Payload;
  _retry : bool;
}.

Record Response := {
  status : Z;
  statusText : string;
  data : Body;
  config : Request;
}.

Inductive JsError :=
| AxiosError (cfg : Request) (response : option Response)
| Error (msg : string)
| TypeError (msg : string).

(** What the backend does with one request. *)
Inductive Reply :=
| HttpReply (st : Z) (txt : string) (b : Body)
| NetworkFailure.

(** Which axios object sent a request: the [api] instance of
    [authService.ts] (with interceptors) or the global [axios]. *)
Inductive Client := ApiInstance | GlobalAxios.

Inductive StoreEvent :=
| SetItem (key value : string)
| RemoveItem (key : string).

Inductive Level := LevelLog | LevelError.

(** Arguments of a console call after the message string. *)
Inductive LogArg :=
| LStr (s : string)
| LBool (b : bool)
| LNum (z : Z)
| LOptNum (o : option Z)
| LErr (e : JsError)
| LBody (b : Body)
| LUser (u : User)
| LResult (requiresTwoFactor : bool)
| LErrorInfo (st : option Z) (txt : option string) (d : option Body).

Record LogEntry := { level : Level; text : string; args : list LogArg }.

(** ** Browser and provider state *)

Record State := {
  localStorage : gmap string string;
  sessionStorage : gmap string string;
  storeLog : list StoreEvent;      (* history of localStorage writes *)
  console : list LogEntry;
  location : list string;          (* navigations, oldest first *)
  network : list Reply;            (* replies the backend will give *)
  sent : list (Client * Request);  (* requests sent, oldest first *)
  now : Z;                         (* [Date.now()], milliseconds *)
  user : option User;              (* AuthProvider: [useState<User | null>] *)
  isLoading : bool;                (* AuthProvider: [useState(true)] *)
}.

Definition with_localStorage (f : gmap string string → gmap string string)
    (ev : StoreEvent) (s : State) : State :=
  {| localStorage := f (localStorage s); sessionStorage := sessionStorage s;
     storeLog := storeLog s ++ [ev]; console := console s;
     location := location s; network := network s; sent := sent s;
     now := now s; user := user s; isLoading := isLoading s |}.

Definition with_sessionStorage (f : gmap string string → gmap string string)
    (s : State) : State :=
  {| localStorage := localStorage s; sessionStorage := f (sessionStorage s);
     storeLog := storeLog s; console := console s;
     location := location s; network := network s; sent := sent s;
     now := now s; user := user s; isLoading := isLoading s |}.

Definition with_console (e : LogEntry) (s : State) : State :=
  {| localStorage := localStorage s; sessionStorage := sessionStorage s;
     storeLog := storeLog s; console := console s ++ [e];
     location := location s; network := network s; sent := sent s;
     now := now s; user := user s; isLoading := isLoading s |}.

Definition with_location (to : string) (s : State) : State :=
  {| localStorage := localStorage s; sessionStorage := sessionStorage s;
     storeLog := storeLog s; console := console s;
     location := location s ++ [to]; network := network s; sent := sent s;
     now := now s; user := user s; isLoading := isLoading s |}.

Definition with_network (rest : list Reply) (c : Client) (r : Request)
    (s : State) : State :=
  {| localStorage := localStorage s; sessionStorage := sessionStorage s;
     storeLog := storeLog s; console := console s;
     location := location s; network := rest; sent := sent s ++ [(c, r)];
     now := now s; user := user s; isLoading := isLoading s |}.

Definition with_user (u : option User) (s : State) : State :=
  {| localStorage := localStorage s; sessionStorage := sessionStorage s;
     storeLog := storeLog s; console := console s;
     location := location s; network := network s; sent := sent s;
     now := now s; user := u; isLoading := isLoading s |}.

Definition with_isLoading (b : bool) (s : State) : State :=
  {| localStorage := localStorage s; sessionStorage := sessionStorage s;
     storeLog := storeLog s; console := console s;
     location := location s; network := network s; sent := sent s;
     now := now s; user := user s; isLoading := b |}.

(** ** The monad of asynchronous functions

    A promise settles as resolved or rejected.  [OutOfFuel] only marks a
    recursion cut off by its fuel bound; no handler catches it. *)

Inductive Outcome (A : Type) :=
| Resolved (a : A)
| Rejected (e : JsError)
| OutOfFuel.
Arguments Resolved {A} a.
Arguments Rejected {A} e.
Arguments OutOfFuel {A}.

Definition Async (A : Type) : Type := State → Outcome A * State.

#[global] Instance Async_ret : MRet Async := λ A a s, (Resolved a, s).

#[global] Instance Async_bind : MBind Async := λ A B f m s,
  match m s with
  | (Resolved a, s') => f a s'
  | (Rejected e, s') => (Rejected e, s')
  | (OutOfFuel, s') => (OutOfFuel, s')
  end.

Definition throw {A} (e : JsError) : Async A := λ s, (Rejected e, s).

Definition out_of_fuel {A} : Async A := λ s, (OutOfFuel, s).

(** [try { m } catch (e) { h e }] *)
Definition try_catch {A} (m : Async A) (h : JsError → Async A) : Async A := λ s,
  match m s with
  | (Rejected e, s') => h e s'
  | r => r
  end.

(** [try { m } finally { fin }] *)
Definition try_finally {A} (m : Async A) (fin : Async unit) : Async A := λ s,
  match m s with
  | (OutOfFuel, s') => (OutOfFuel, s')
  | (r, s') =>
      match fin s' with
      | (Resolved _, s'') => (r, s'')
      | (Rejected e, s'') => (Rejected e, s'')
      | (OutOfFuel, s'') => (OutOfFuel, s'')
      end
  end.

(** The two arguments of [promise.then(onFulfilled, onRejected)]. *)
Definition settle {A} (m : Async A) : Async (A + JsError) := λ s,
  match m s with
  | (Resolved a, s') => (Resolved (inl a), s')
  | (Rejected e, s') => (Resolved (inr e), s')
  | (OutOfFuel, s') => (OutOfFuel, s')
  end.

(** ** Browser primitives *)

(** JavaScript truthiness of [string | null | undefined]. *)
Definition truthy (v : option string) : bool :=
  match v with
  | Some s => negb (String.eqb s "")
  | None => false
  end.

(** [String(v)] for [string | undefined], as [setItem] and template
    literals coerce their argument. *)
Definition js_string (v : option string) : string := default "undefined" v.

Definition localStorage_getItem (key : string) : Async (option string) :=
  λ s, (Resolved (localStorage s !! key), s).

Definition localStorage_setItem (key : string) (v : option string) : Async unit :=
  λ s, (Resolved tt,
        with_localStorage (insert key (js_string v)) (SetItem key (js_string v)) s).

Definition localStorage_removeItem (key : string) : Async unit :=
  λ s, (Resolved tt, with_localStorage (delete key) (RemoveItem key) s).

Definition sessionStorage_getItem (key : string) : Async (option string) :=
  λ s, (Resolved (sessionStorage s !! key), s).

Definition sessionStorage_setItem (key v : string) : Async unit :=
  λ s, (Resolved tt, with_sessionStorage (insert key v) s).

Definition sessionStorage_removeItem (key : string) : Async unit :=
  λ s, (Resolved tt, with_sessionStorage (delete key) s).

Definition console_log (msg : string) (a : list LogArg) : Async unit :=
  λ s, (Resolved tt, with_console {| level := LevelLog; text := msg; args := a |} s).

Definition console_error (msg : string) (a : list LogArg) : Async unit :=
  λ s, (Resolved tt, with_console {| level := LevelError; text := msg; args := a |} s).

(** [navigate(to)] and [window.location.href = to] *)
Definition navigate (to : string) : Async unit :=
  λ s, (Resolved tt, with_location to s).

Definition Date_now : Async Z := λ s, (Resolved (now s), s).

Definition setUser (u : option User) : Async unit :=
  λ s, (Resolved tt, with_user u s).

Definition setIsLoading (b : bool) : Async unit :=
  λ s, (Resolved tt, with_isLoading b s).

(** One HTTP exchange: the request is recorded and the next scripted reply
    consumed.  axios resolves on a 2xx status and rejects with an
    [AxiosError] carrying the request configuration otherwise; a missing
    reply is a network failure. *)
Definition axios (c : Client) (r : Request) : Async Response := λ s,
  match network s with
  | HttpReply st txt b :: rest =>
      let resp := {| status := st; statusText := txt; data := b; config := r |} in
      if (200 <=? st) && (st <? 300)
      then (Resolved resp, with_network rest c r s)
      else (Rejected (AxiosError r (Some resp)), with_network rest c r s)
  | NetworkFailure :: rest => (Rejected (AxiosError r None), with_network rest c r s)
  | [] => (Rejected (AxiosError r None), with_network [] c r s)
  end.

(** ** [services/authService.ts] *)

Module authService.

Definition API_URL : string := "/api".

(** [api.interceptors.request.use] *)
Definition request_interceptor (config : Request) : Async Request :=
  console_log ("API Request: " +:+ toUpperCase (method config) +:+ " " +:+ url config) [];;
  token ← localStorage_getItem "accessToken";
  if truthy token then
    console_log "Adding Authorization header with token" [];;
    mret {| method := method config; url := url config; baseURL := baseURL config;
            contentType := contentType config;
            Authorization := Some ("Bearer " +:+ default "null" token);
            payload := payload config; _retry := _retry config |}
  else
    console_log "No token available for request" [];;
    mret config.

Definition error_config (error : JsError) : option Request :=
  match error with AxiosError cfg _ => Some cfg | _ => None end.

Definition error_response (error : JsError) : option Response :=
  match error with AxiosError _ r => r | _ => None end.

(** [err.response?.data?.message || fallback] *)
Definition message_or (error : JsError) (fallback : string) : string :=
  match error_response error with
  | Some r => if truthy (message (data r)) then default fallback (message (data r)) else fallback
  | None => fallback
  end.

Definition mark_retry (r : Request) : Request :=
  {| method := method r; url := url r; baseURL := baseURL r;
     contentType := contentType r; Authorization := Authorization r;
     payload := payload r; _retry := true |}.

Definition set_config (c : Request) (r : Response) : Response :=
  {| status := status r; statusText := statusText r; data := data r; config := c |}.

Definition set_Authorization (v : string) (r : Request) : Request :=
  {| method := method r; url := url r; baseURL := baseURL r;
     contentType := contentType r; Authorization := Some v;
     payload := payload r; _retry := _retry r |}.

(** The refresh call of the response interceptor: global [axios], so that
    no interceptor runs on it. *)
Definition refresh_request (refreshToken : string) : Request :=
  {| method := POST; url := "/api/v1/auth/refresh"; baseURL := "";
     contentType := "application/x-www-form-urlencoded"; Authorization := None;
     payload := URLSearchParams [("refresh_token", refreshToken)]; _retry := false |}.

(** How the [try] block of the interceptor is left: both are
    [return <promise>] statements, whose promise is not awaited inside the
    [try], so its rejection is not seen by the [catch] clauses. *)
Inductive Continue :=
| RejectWith (error : JsError)       (* [return Promise.reject(error)] *)
| Retry (originalRequest : Request). (* [return api(originalRequest)] *)

(** [api.interceptors.response.use(_, async (error) => ...)]; [api] is the
    instance itself, called again for the retry. *)
Definition response_error (api : Request → Async Response) (error : JsError)
    : Async Response :=
  console_error
    ("API Response Error: "
       +:+ from_option (λ c, toUpperCase (method c)) "undefined" (error_config error)
       +:+ " " +:+ from_option url "undefined" (error_config error))
    [LErrorInfo (status <$> error_response error)
                (statusText <$> error_response error)
                (data <$> error_response error)];;
  match error with
  | AxiosError originalRequest (Some response) =>
      if (status response =? 401) && negb (_retry originalRequest) then
        console_log "Received 401 error, attempting token refresh" [];;
        (* [originalRequest._retry = true] writes to the one object that
           [error.config] and [error.response.config] both refer to *)
        let originalRequest := mark_retry originalRequest in
        let error := AxiosError originalRequest (Some (set_config originalRequest response)) in
        next ← try_catch
          (refreshToken ← localStorage_getItem "refreshToken";
           console_log "Refresh token exists:" [LBool (truthy refreshToken)];;
           if negb (truthy refreshToken) then
             console_error "No refresh token available, redirecting to login" [];;
             navigate "/login";;
             mret (RejectWith error)
           else
             console_log "Calling refresh token endpoint" [];;
             try_catch
               (response ← axios GlobalAxios (refresh_request (default "" refreshToken));
                console_log "Token refresh successful" [];;
                let access_token := access_token (data response) in
                let refresh_token := refresh_token (data response) in
                localStorage_setItem "accessToken" access_token;;
                localStorage_setItem "refreshToken" refresh_token;;
                console_log "Updated tokens in localStorage" [];;
                let originalRequest :=
                  set_Authorization ("Bearer " +:+ js_string access_token) originalRequest in
                console_log "Retrying original request with new token" [];;
                mret (Retry originalRequest))
               (λ refreshApiError,
                console_error "Token refresh API call failed:" [LErr refreshApiError];;
                throw refreshApiError))
          (λ refreshError,
           console_error "Token refresh process failed:" [LErr refreshError];;
           localStorage_removeItem "accessToken";;
           localStorage_removeItem "refreshToken";;
           console_log "Cleared tokens from localStorage, redirecting to login" [];;
           navigate "/login";;
           mret (RejectWith refreshError));
        match next with
        | RejectWith e => throw e
        | Retry originalRequest => api originalRequest
        end
      else throw error
  | _ => throw error
  end.

(** The axios instance [api] with both interceptors installed.  The source
    recursion ([api(originalRequest)] inside the instance's own interceptor)
    is cut by [fuel]. *)
Fixpoint api (fuel : nat) (request : Request) : Async Response :=
  match fuel with
  | O => out_of_fuel
  | S fuel =>
      request ← request_interceptor request;
      r ← settle (axios ApiInstance request);
      match r with
      | inl response =>
          console_log
            ("API Response Success: " +:+ toUpperCase (method (config response))
               +:+ " " +:+ url (config response))
            [LNum (status response)];;
          mret response
      | inr error => response_error (api fuel) error
      end
  end.

(** Fuel given to every call of the instance; [api_fuel_enough] below shows
    that no call needs more. *)
Definition api_budget : nat := 2.

Definition api_request (m : Method) (u : string) (ct : string) (p : Payload)
    : Async Response :=
  api api_budget {| method := m; url := u; baseURL := API_URL; contentType := ct;
                    Authorization := None; payload := p; _retry := false |}.

Definition json : string := "application/json".
Definition urlencoded : string := "application/x-www-form-urlencoded".

Definition register (email username password : string) : Async Body :=
  response ← api_request POST "/auth/register" json
    (JsonObject [("email", JStr email); ("username", JStr username);
                 ("password", JStr password)]);
  mret (data response).

Definition login (email password : string) : Async Body :=
  let username := email in
  response ← api_request POST "/auth/login" urlencoded
    (URLSearchParams [("username", username); ("password", password)]);
  mret (data response).

Definition getSessions : Async Body :=
  response ← api_request GET "/auth/sessions" json NoPayload;
  mret (data response).

Definition logout (refreshToken : string) : Async (option Body) :=
  try_catch
    (sessionsData ← getSessions;
     match sessions sessionsData with
     | None => throw (TypeError "Cannot read properties of undefined (reading 'find')")
     | Some l =>
         match List.find is_current l with
         | Some currentSession =>
             response ← api_request DELETE ("/auth/sessions/" +:+ info_id currentSession)
                          json NoPayload;
             mret (Some (data response))
         | None =>
             response ← api_request DELETE "/auth/sessions" json NoPayload;
             mret (Some (data response))
         end
     end)
    (λ error,
     console_error "Error during logout:" [LErr error];;
     mret None).

Definition getCurrentUser : Async User :=
  console_log "Calling getCurrentUser API" [];;
  try_catch
    (response ← api_request GET "/auth/me" json NoPayload;
     console_log "getCurrentUser response:" [LBody (data response)];;
     mret (profile (data response)))
    (λ error,
     console_error "getCurrentUser error:" [LErr error];;
     throw error).

Definition updateProfile (name email : string) : Async User :=
  response ← api_request PUT "/profile/update" json
    (JsonObject [("email", JStr email); ("full_name", JStr name)]);
  mret (profile (data response)).

Definition updatePassword (currentPassword newPassword : string) : Async Body :=
  response ← api_request PUT "/profile/update-password" json
    (JsonObject [("current_password", JStr currentPassword);
                 ("new_password", JStr newPassword)]);
  mret (data response).

Definition refreshToken (refreshToken : string) : Async Body :=
  response ← api_request POST "/auth/refresh" urlencoded
    (URLSearchParams [("refresh_token", refreshToken)]);
  mret (data response).

Definition setupTwoFactor : Async Body :=
  response ← api_request POST "/auth/2fa/setup" json NoPayload;
  mret (data response).

Definition verifyTwoFactor (token : string) (remember : bool) : Async Body :=
  response ← api_request POST "/auth/2fa/verify" json
    (JsonObject [("token", JStr token); ("remember", JBool remember)]);
  mret (data response).

Definition verifyTwoFactorLogin (email token : string) : Async Body :=
  response ← api_request POST "/auth/2fa/login" json
    (JsonObject [("email", JStr email); ("token", JStr token)]);
  mret (data response).

Definition forgotPassword (email : string) : Async Body :=
  response ← api_request POST "/auth/forgot-password" json
    (JsonObject [("email", JStr email)]);
  mret (data response).

Definition resetPassword (token password : string) : Async Body :=
  response ← api_request POST "/auth/reset-password" json
    (JsonObject [("token", JStr token); ("password", JStr password)]);
  mret (data response).

Definition verifyEmail (token : string) : Async Body :=
  response ← api_request POST "/auth/verify-email" json
    (JsonObject [("token", JStr token)]);
  mret (data response).

Definition revokeSession (sessionId : string) : Async Body :=
  response ← api_request DELETE ("/auth/sessions/" +:+ sessionId) json NoPayload;
  mret (data response).

Definition revokeAllSessions : Async Body :=
  response ← api_request DELETE "/auth/sessions" json NoPayload;
  mret (data response).

End authService.

(** ** [context/AuthContext.tsx] *)

Module AuthContext.

(** The claims of a decoded token the provider reads.  [exp] is a
    NumericDate in seconds. *)
Record JwtPayload := { exp : option Z }.

(** [{ requiresTwoFactor: boolean }] *)
Inductive LoginResult := MkLoginResult (requiresTwoFactor : bool).

(** [decoded.exp && decoded.exp < currentTime] with
    [currentTime = Date.now() / 1000]; the clock is kept in milliseconds, so
    the comparison reads [exp * 1000 < Date.now()]. *)
Definition is_expired (exp : option Z) (now_ms : Z) : bool :=
  match exp with
  | Some e => negb (e =? 0) && (e * 1000 <? now_ms)
  | None => false
  end.

(** The object logged by [login]:
    [{ ...response, access_token: response.access_token ? '[REDACTED]' : undefined, ... }] *)
Definition redacted (response : Body) : Body :=
  {| requiresTwoFactor := requiresTwoFactor response;
     access_token := if truthy (access_token response) then Some "[REDACTED]" else None;
     refresh_token := if truthy (refresh_token response) then Some "[REDACTED]" else None;
     message := message response; sessions := sessions response;
     profile := profile response; qrCodeUrl := qrCodeUrl response;
     secret := secret response |}.

Definition refreshToken : Async bool :=
  console_log "Starting token refresh process" [];;
  try_catch
    (refreshToken ← localStorage_getItem "refreshToken";
     console_log "Refresh token exists:" [LBool (truthy refreshToken)];;
     if negb (truthy refreshToken) then
       console_error "No refresh token available" [];;
       throw (Error "No refresh token available")
     else
       console_log "Calling authService.refreshToken" [];;
       try_catch
         (response ← authService.refreshToken (default "" refreshToken);
          console_log "Token refresh successful, new tokens received" [];;
          localStorage_setItem "accessToken" (access_token response);;
          localStorage_setItem "refreshToken" (refresh_token response);;
          console_log "Tokens stored in localStorage, fetching user data" [];;
          userData ← authService.getCurrentUser;
          console_log "User data after refresh:" [LUser userData];;
          setUser (Some userData);;
          mret true)
         (λ refreshError,
          console_error "Token refresh API call failed:" [LErr refreshError];;
          throw refreshError))
    (λ error,
     console_error "Token refresh process failed:" [LErr error];;
     localStorage_removeItem "accessToken";;
     localStorage_removeItem "refreshToken";;
     setUser None;;
     mret false).

Section Provider.

(** [jwtDecode] of the jwt-decode package; [None] stands for the
    [InvalidTokenError] it throws. *)
Variable jwtDecode : string → option JwtPayload.

(** The effect run once when the provider mounts.  The [user] read in the
    [finally] block is the one captured by the first render, [null]. *)
Definition checkAuthStatus : Async unit :=
  let user : option User := None in
  try_finally
    (try_catch
       (token ← localStorage_getItem "accessToken";
        console_log "Checking auth status, token exists:" [LBool (truthy token)];;
        if negb (truthy token) then
          console_log "No token found, not authenticated" [];;
          setIsLoading false
        else
          try_catch
            (match jwtDecode (default "" token) with
             | None => throw (Error "Invalid token specified")
             | Some decoded =>
                 currentTime ← Date_now;
                 console_log "Token expiry check:"
                   [LOptNum (exp decoded); LStr "Current time:"; LNum currentTime];;
                 if is_expired (exp decoded) currentTime then
                   console_log "Token expired, attempting refresh" [];;
                   refreshToken;;
                   mret tt
                 else
                   console_log "Token valid, getting user info" [];;
                   try_catch
                     (userData ← authService.getCurrentUser;
                      console_log "User data received:" [LUser userData];;
                      setUser (Some userData))
                     (λ error,
                      console_error "Error getting user data:" [LErr error];;
                      console_log "Attempting token refresh after getCurrentUser failure" [];;
                      refreshToken;;
                      mret tt)
             end)
            (λ error,
             console_error "Token validation error:" [LErr error];;
             refreshToken;;
             mret tt))
       (λ error,
        console_error "Auth check failed:" [LErr error];;
        localStorage_removeItem "accessToken";;
        localStorage_removeItem "refreshToken";;
        setUser None))
    (setIsLoading false;;
     console_log "Auth loading complete, isAuthenticated:" [LBool (bool_decide (is_Some user))]).

End Provider.

Definition login (email password : string) : Async LoginResult :=
  console_log "Login attempt for email:" [LStr email];;
  try_catch
    (console_log "Calling authService.login" [];;
     response ← authService.login email password;
     console_log "Login response received:" [LBody (redacted response)];;
     if requiresTwoFactor response then
       console_log "2FA required, storing email in sessionStorage" [];;
       sessionStorage_setItem "twoFactorEmail" email;;
       mret (MkLoginResult true)
     else
       console_log "Storing tokens in localStorage" [];;
       localStorage_setItem "accessToken" (access_token response);;
       localStorage_setItem "refreshToken" (refresh_token response);;
       console_log "Fetching user data after login" [];;
       try_catch
         (userData ← authService.getCurrentUser;
          console_log "User data received after login:" [LUser userData];;
          setUser (Some userData);;
          console_log "User state updated, authentication complete" [];;
          mret (MkLoginResult false))
         (λ userDataError,
          console_error "Failed to fetch user data after login:" [LErr userDataError];;
          throw userDataError))
    (λ error,
     console_error "Login failed:" [LErr error];;
     throw error).

Definition register (email username password : string) : Async unit :=
  try_catch (authService.register email username password;; mret tt) throw.

Definition logout : Async unit :=
  try_finally
    (try_catch
       (refreshToken ← localStorage_getItem "refreshToken";
        if truthy refreshToken then
          authService.logout (default "" refreshToken);;
          mret tt
        else mret tt)
       (λ error, console_error "Logout error:" [LErr error]))
    (localStorage_removeItem "accessToken";;
     localStorage_removeItem "refreshToken";;
     setUser None;;
     navigate "/login").

Definition setupTwoFactor : Async Body :=
  try_catch (response ← authService.setupTwoFactor; mret response) throw.

Definition verifyTwoFactor (token : string) (remember : bool) : Async unit :=
  try_catch (authService.verifyTwoFactor token remember;; mret tt) throw.

Definition verifyTwoFactorLogin (token : string) : Async unit :=
  try_catch
    (email ← sessionStorage_getItem "twoFactorEmail";
     if negb (truthy email) then
       throw (Error "Email not found for 2FA verification")
     else
       response ← authService.verifyTwoFactorLogin (default "" email) token;
       localStorage_setItem "accessToken" (access_token response);;
       localStorage_setItem "refreshToken" (refresh_token response);;
       userData ← authService.getCurrentUser;
       setUser (Some userData);;
       sessionStorage_removeItem "twoFactorEmail")
    throw.

Definition forgotPassword (email : string) : Async unit :=
  try_catch (authService.forgotPassword email;; mret tt) throw.

Definition resetPassword (token password : string) : Async unit :=
  try_catch (authService.resetPassword token password;; mret tt) throw.

Definition verifyEmail (token : string) : Async unit :=
  try_catch (authService.verifyEmail token;; mret tt) throw.

Definition updateProfile (name email : string) : Async unit :=
  try_catch
    (updatedUser ← authService.updateProfile name email;
     setUser (Some updatedUser))
    throw.

Definition updatePassword (currentPassword newPassword : string) : Async unit :=
  try_catch (authService.updatePassword currentPassword newPassword;; mret tt) throw.

(** *** The context value

    [value] is a JavaScript object: a page reads its members by name, and a
    name the object literal does not list reads as [undefined]. *)

Inductive JsValue :=
| VUndefined
| VString (s : string)
| VBool (b : bool)
| VUser (u : option User)
| VLoginResult (r : LoginResult)
| VBody (b : Body).

Inductive Member :=
| Property (v : JsValue)
| Function (f : list JsValue → Async JsValue).

(** Arguments of a call, coerced as the callee uses them; a missing
    argument is [undefined]. *)
Definition arg_string (i : nat) (a : list JsValue) : string :=
  match a !! i with
  | Some (VString s) => s
  | Some (VBool true) => "true"
  | Some (VBool false) => "false"
  | _ => "undefined"
  end.

Definition arg_bool (i : nat) (a : list JsValue) : bool :=
  match a !! i with
  | Some (VBool b) => b
  | Some (VString s) => negb (String.eqb s "")
  | Some VUndefined | None => false
  | Some _ => true
  end.

Definition returning_undefined (m : Async unit) : Async JsValue := m;; mret VUndefined.

Definition value (s : State) : gmap string Member :=
  list_to_map
    [ ("user", Property (VUser (user s)));
      ("isAuthenticated", Property (VBool (bool_decide (is_Some (user s)))));
      ("isLoading", Property (VBool (isLoading s)));
      ("login", Function (λ a, r ← login (arg_string 0 a) (arg_string 1 a);
                               mret (VLoginResult r)));
      ("register", Function (λ a, returning_undefined
                               (register (arg_string 0 a) (arg_string 1 a) (arg_string 2 a))));
      ("logout", Function (λ a, returning_undefined logout));
      ("setupTwoFactor", Function (λ a, r ← setupTwoFactor; mret (VBody r)));
      ("verifyTwoFactor", Function (λ a, returning_undefined
                               (verifyTwoFactor (arg_string 0 a) (arg_bool 1 a))));
      ("verifyTwoFactorLogin", Function (λ a, returning_undefined
                               (verifyTwoFactorLogin (arg_string 0 a))));
      ("forgotPassword", Function (λ a, returning_undefined (forgotPassword (arg_string 0 a))));
      ("resetPassword", Function (λ a, returning_undefined
                               (resetPassword (arg_string 0 a) (arg_string 1 a))));
      ("verifyEmail", Function (λ a, returning_undefined (verifyEmail (arg_string 0 a))));
      ("updateProfile", Function (λ a, returning_undefined
                               (updateProfile (arg_string 0 a) (arg_string 1 a))));
      ("updatePassword", Function (λ a, returning_undefined
                               (updatePassword (arg_string 0 a) (arg_string 1 a)))) ].

(** [useAuth()] inside the provider, followed by the read of one member. *)
Definition useAuth (name : string) : Async (option Member) :=
  λ s, (Resolved (value s !! name), s).

(** A call [f(args)] of a value read from the context. *)
Definition call (name : string) (f : option Member) (a : list JsValue) : Async JsValue :=
  match f with
  | Some (Function f) => f a
  | _ => throw (TypeError (name +:+ " is not a function"))
  end.

End AuthContext.

(** ** Forms: Formik and Yup *)

(** A Yup string test: [None] when the value passes, the message otherwise. *)
Definition Test := string → option string.

(** [.required(message)]: fails on the empty string. *)
Definition required (msg : string) : Test :=
  λ v, if String.eqb v "" then Some msg else None.

Definition is_digit (c : ascii) : bool :=
  (48 <=? nat_of_ascii c)%nat && (nat_of_ascii c <=? 57)%nat.

(** The matcher of the regular expression [/^\d{n}$/]: the whole input is
    [n] characters, each of them one of 0-9. *)
Fixpoint digits_exactly (n : nat) (v : string) : bool :=
  match n, v with
  | O, EmptyString => true
  | S n, String c v => is_digit c && digits_exactly n v
  | _, _ => false
  end.

(** [.matches(/^\d{6}$/, message)] *)
Definition matches_six_digits (msg : string) : Test :=
  λ v, if digits_exactly 6 v then None else Some msg.

(** The messages of the tests a value fails. *)
Definition validate (tests : list Test) (v : string) : list string :=
  omap (λ t : Test, t v) tests.

(** [<Formik validationSchema={...} onSubmit={...}>]: submitting validates
    the values and calls [onSubmit] only when no test failed. *)
Definition Formik_submit {V P} (errors : V → list string)
    (onSubmit : V → P → Async P) (values : V) (p : P) : Async P :=
  match errors values with
  | [] => onSubmit values p
  | _ :: _ => mret p
  end.

(** ** [pages/auth/LoginPage.tsx] *)

Module LoginPage.

Record LoginFormValues := { email : string; password : string; rememberMe : bool }.

Record PageState := { error : string; isLoading : bool }.

Definition LoginSchema (values : LoginFormValues) : list string :=
  validate [required "Email or username is required"] (email values)
  ++ validate [required "Password is required"] (password values).

Definition handleSubmit (returnUrl : string) (values : LoginFormValues)
    (p : PageState) : Async PageState :=
  console_log "LoginPage - Login attempt started for:" [LStr (email values)];;
  console_log "LoginPage - Return URL is:" [LStr returnUrl];;
  let p := {| error := ""; isLoading := true |} in
  p ← try_catch
        (console_log "LoginPage - Calling login function" [];;
         result ← AuthContext.login (email values) (password values);
         let 'AuthContext.MkLoginResult requiresTwoFactor := result in
         console_log "LoginPage - Login result:" [LResult requiresTwoFactor];;
         (if requiresTwoFactor then
            console_log "LoginPage - 2FA required, navigating to verification page" [];;
            navigate "/verify-2fa"
          else
            console_log "LoginPage - Login successful, navigating to:" [LStr returnUrl];;
            navigate returnUrl);;
         mret p)
        (λ err,
         console_error "LoginPage - Login error:" [LErr err];;
         mret {| error := authService.message_or err
                            "Failed to login. Please check your credentials.";
                 isLoading := isLoading p |});
  (* finally *)
  mret {| error := error p; isLoading := false |}.

Definition submit (returnUrl : string) : LoginFormValues → PageState → Async PageState :=
  Formik_submit LoginSchema (handleSubmit returnUrl).

End LoginPage.

(** ** [pages/auth/VerifyTwoFactorPage.tsx] *)

Module VerifyTwoFactorPage.

Record TwoFactorVerifyFormValues := { token : string }.

Record PageState := { error : string; isLoading : bool }.

Definition TwoFactorVerifySchema (values : TwoFactorVerifyFormValues) : list string :=
  validate [required "Verification code is required";
            matches_six_digits "Verification code must be 6 digits"] (token values).

Definition handleSubmit (values : TwoFactorVerifyFormValues) (p : PageState)
    : Async PageState :=
  let p := {| error := ""; isLoading := true |} in
  p ← try_catch
        (AuthContext.verifyTwoFactorLogin (token values);;
         navigate "/dashboard";;
         mret p)
        (λ err,
         mret {| error := authService.message_or err
                            "Invalid verification code. Please try again.";
                 isLoading := isLoading p |});
  (* finally *)
  mret {| error := error p; isLoading := false |}.

Definition submit : TwoFactorVerifyFormValues → PageState → Async PageState :=
  Formik_submit TwoFactorVerifySchema handleSubmit.

End VerifyTwoFactorPage.

(** ** The two-factor setup page ([SetupTwoFactorPage]) *)

Module SetupTwoFactorPage.

Record TwoFactorSetupFormValues := { token : string; rememberDevice : bool }.

(** [response.qrCodeUrl] and [response.secret], named apart from the page's
    own state of the same names. *)
Definition response_qrCodeUrl (response : Body) : string := qrCodeUrl response.
Definition response_secret (response : Body) : string := secret response.

Record PageState := {
  isLoading : bool;
  qrCodeUrl : string;
  secret : string;
  error : string;
  verificationError : string;
}.

Definition TwoFactorSetupSchema (values : TwoFactorSetupFormValues) : list string :=
  validate [required "Verification code is required";
            matches_six_digits "Verification code must be 6 digits"] (token values).

Definition generateTwoFactorSetup (p : PageState) : Async PageState :=
  p ← try_catch
        (response ← AuthContext.setupTwoFactor;
         mret {| isLoading := isLoading p; qrCodeUrl := response_qrCodeUrl response;
                 secret := response_secret response; error := error p;
                 verificationError := verificationError p |})
        (λ err,
         mret {| isLoading := isLoading p; qrCodeUrl := qrCodeUrl p; secret := secret p;
                 error := authService.message_or err
                            "Failed to setup two-factor authentication.";
                 verificationError := verificationError p |});
  (* finally *)
  mret {| isLoading := false; qrCodeUrl := qrCodeUrl p; secret := secret p;
          error := error p; verificationError := verificationError p |}.

(** The body of [useEffect(..., [user, navigate])], run with the context's
    current [user]. *)
Definition effect (p : PageState) : Async PageState :=
  λ s,
    match user s with
    | None => (navigate "/login";; mret p) s
    | Some u =>
        if isTwoFactorEnabled u then (navigate "/profile";; mret p) s
        else generateTwoFactorSetup p s
    end.

Definition handleSubmit (values : TwoFactorSetupFormValues) (p : PageState)
    : Async PageState :=
  let p := {| isLoading := isLoading p; qrCodeUrl := qrCodeUrl p; secret := secret p;
              error := error p; verificationError := "" |} in
  try_catch
    (AuthContext.verifyTwoFactor (token values) (rememberDevice values);;
     navigate "/profile";;
     mret p)
    (λ err,
     mret {| isLoading := isLoading p; qrCodeUrl := qrCodeUrl p; secret := secret p;
             error := error p;
             verificationError := authService.message_or err
                                    "Invalid verification code. Please try again." |}).

Definition submit : TwoFactorSetupFormValues → PageState → Async PageState :=
  Formik_submit TwoFactorSetupSchema handleSubmit.

End SetupTwoFactorPage.

(** ** [pages/SessionsPage.tsx] *)

Module SessionsPage.

(** [data.sessions] of a response, named apart from the page's own state. *)
Definition response_sessions (b : Body) : option (list SessionInfo) := sessions b.

Record PageState := {
  sessions : list Session;
  isLoading : bool;
  error : string;
  success : string;
  revokingSessionId : option string;
  isRevokingAll : bool;
}.

Definition setSessions (l : list Session) (p : PageState) : PageState :=
  {| sessions := l; isLoading := isLoading p; error := error p; success := success p;
     revokingSessionId := revokingSessionId p; isRevokingAll := isRevokingAll p |}.
Definition setIsLoading (b : bool) (p : PageState) : PageState :=
  {| sessions := sessions p; isLoading := b; error := error p; success := success p;
     revokingSessionId := revokingSessionId p; isRevokingAll := isRevokingAll p |}.
Definition setError (e : string) (p : PageState) : PageState :=
  {| sessions := sessions p; isLoading := isLoading p; error := e; success := success p;
     revokingSessionId := revokingSessionId p; isRevokingAll := isRevokingAll p |}.
Definition setSuccess (m : string) (p : PageState) : PageState :=
  {| sessions := sessions p; isLoading := isLoading p; error := error p; success := m;
     revokingSessionId := revokingSessionId p; isRevokingAll := isRevokingAll p |}.
Definition setRevokingSessionId (i : option string) (p : PageState) : PageState :=
  {| sessions := sessions p; isLoading := isLoading p; error := error p;
     success := success p; revokingSessionId := i; isRevokingAll := isRevokingAll p |}.
Definition setIsRevokingAll (b : bool) (p : PageState) : PageState :=
  {| sessions := sessions p; isLoading := isLoading p; error := error p;
     success := success p; revokingSessionId := revokingSessionId p; isRevokingAll := b |}.

(** The value a resolved [getSessions()] hands to [setSessions], read as a
    list of [Session]. *)
Definition as_sessions (v : AuthContext.JsValue) : list Session :=
  match v with
  | AuthContext.VBody b =>
      (λ i, {| session_id := info_id i; userAgent := ""; ipAddress := "";
               isCurrent := is_current i |}) <$> default [] (response_sessions b)
  | _ => []
  end.

(** [const { user, getSessions, revokeSession, revokeAllOtherSessions } = useAuth()] *)

Definition fetchSessions (p : PageState) : Async PageState :=
  getSessions ← AuthContext.useAuth "getSessions";
  let p := setError "" (setIsLoading true p) in
  p ← try_catch
        (sessionsData ← AuthContext.call "getSessions" getSessions [];
         mret (setSessions (as_sessions sessionsData) p))
        (λ err, mret (setError (authService.message_or err "Failed to fetch sessions") p));
  (* finally *)
  mret (setIsLoading false p).

Definition handleRevokeSession (sessionId : string) (p : PageState) : Async PageState :=
  revokeSession ← AuthContext.useAuth "revokeSession";
  let p := setSuccess "" (setError "" (setRevokingSessionId (Some sessionId) p)) in
  p ← try_catch
        (AuthContext.call "revokeSession" revokeSession [AuthContext.VString sessionId];;
         mret (setSuccess "Session revoked successfully"
                 (setSessions
                    (filter (λ session, session_id session ≠ sessionId) (sessions p)) p)))
        (λ err, mret (setError (authService.message_or err "Failed to revoke session") p));
  (* finally *)
  mret (setRevokingSessionId None p).

Definition handleRevokeAllOtherSessions (p : PageState) : Async PageState :=
  revokeAllOtherSessions ← AuthContext.useAuth "revokeAllOtherSessions";
  let p := setSuccess "" (setError "" (setIsRevokingAll true p)) in
  p ← try_catch
        (AuthContext.call "revokeAllOtherSessions" revokeAllOtherSessions [];;
         p ← fetchSessions p;
         mret (setSuccess "All other sessions revoked successfully" p))
        (λ err,
         mret (setError (authService.message_or err "Failed to revoke all other sessions") p));
  (* finally *)
  mret (setIsRevokingAll false p).

End SessionsPage.

(** ** The role protected route ([RoleProtectedRoute]) *)

Module RoleProtectedRoute.

Inductive Element :=
| LoadingSpinner
| Navigate (to : string)
| Children.

(** [const roleHierarchy: Record<Role, number>] *)
Definition roleHierarchy (r : Role) : Z :=
  match r with
  | admin => 3
  | editor => 2
  | viewer => 1
  end.

(** [user?.role ? roleHierarchy[user.role] : 0] *)
Definition userRoleLevel (user : option User) : Z :=
  match user with
  | Some u => match role u with Some r => roleHierarchy r | None => 0 end
  | None => 0
  end.

(** The component, rendered with the context's [user], [isAuthenticated]
    (which the provider computes as [!!user]) and [isLoading]. *)
Definition RoleProtectedRoute (requiredRole : Role) (s : State) : Element :=
  let isAuthenticated := bool_decide (is_Some (user s)) in
  if isLoading s then LoadingSpinner
  else if negb isAuthenticated then Navigate "/login"
  else
    let requiredRoleLevel := roleHierarchy requiredRole in
    if userRoleLevel (user s) <? requiredRoleLevel then Navigate "/dashboard"
    else Children.

End RoleProtectedRoute.

(** * Specification vocabulary *)

Open Scope list_scope.

(** The status of the reply the backend gives to the next request. *)
Definition first_status (s : State) : option Z :=
  match network s with
  | HttpReply st _ _ :: _ => Some st
  | _ => None
  end.

Definition is_success (st : Z) : bool := (200 <=? st) && (st <? 300).

(** A call of the interceptor's refresh endpoint through the global axios. *)
Definition is_refresh_call (cr : Client * Request) : bool :=
  match cr.1 with
  | GlobalAxios => String.eqb (url cr.2) "/api/v1/auth/refresh"
  | ApiInstance => false
  end.

(** A transmission of a request by the [api] instance. *)
Definition is_transmission (cr : Client * Request) : bool :=
  match cr.1 with
  | ApiInstance => true
  | GlobalAxios => false
  end.

Definition count {A} (p : A → bool) (l : list A) : nat := length (List.filter p l).

(** localStorage holds an access token exactly when it holds a refresh token. *)
Definition paired (m : gmap string string) : Prop :=
  is_Some (m !! "accessToken") ↔ is_Some (m !! "refreshToken").

(** Histories of localStorage writes in which the two token entries are
    always written together: both set, or both removed. *)
Inductive paired_writes : list StoreEvent → Prop :=
| paired_nil : paired_writes []
| paired_set a r l :
    paired_writes l →
    paired_writes (SetItem "accessToken" a :: SetItem "refreshToken" r :: l)
| paired_remove l :
    paired_writes l →
    paired_writes (RemoveItem "accessToken" :: RemoveItem "refreshToken" :: l).

Definition replay_event (ev : StoreEvent) (m : gmap string string) : gmap string string :=
  match ev with
  | SetItem k v => <[k:=v]> m
  | RemoveItem k => delete k m
  end.

Definition replay (d : list StoreEvent) (m : gmap string string) : gmap string string :=
  foldl (λ m ev, replay_event ev m) m d.

(** [s'] is reached from [s] by paired token writes only. *)
Definition tracks (s s' : State) : Prop :=
  ∃ d, storeLog s' = storeLog s ++ d ∧ paired_writes d
       ∧ localStorage s' = replay d (localStorage s).

(** [tracks], and nothing of the provider or of sessionStorage changes:
    what a call of the [api] instance may do. *)
Definition client_step (s s' : State) : Prop :=
  tracks s s' ∧ sessionStorage s' = sessionStorage s ∧ user s' = user s
  ∧ isLoading s' = isLoading s ∧ now s' = now s.

(** A computation whose final state is always related to its initial one. *)
Definition respects {A} (R : State → State → Prop) (m : Async A) : Prop :=
  ∀ s, R s (m s).2.

(** What a relation must allow for the [authService] functions to respect
    it ... *)
Record ClientInvariant (R : State → State → Prop) : Prop := {
  inv_refl : ∀ s, R s s;
  inv_trans : ∀ s1 s2 s3, R s1 s2 → R s2 s3 → R s1 s3;
  inv_console : ∀ e s, R s (with_console e s);
  inv_location : ∀ to s, R s (with_location to s);
  inv_network : ∀ rest c r s, R s (with_network rest c r s);
  inv_set_pair : ∀ a r s,
    R s (with_localStorage (insert "refreshToken" r) (SetItem "refreshToken" r)
           (with_localStorage (insert "accessToken" a) (SetItem "accessToken" a) s));
  inv_remove_pair : ∀ s,
    R s (with_localStorage (delete "refreshToken") (RemoveItem "refreshToken")
           (with_localStorage (delete "accessToken") (RemoveItem "accessToken") s));
}.

(** ... and for the functions of the provider. *)
Record ProviderInvariant (R : State → State → Prop) : Prop := {
  inv_client :> ClientInvariant R;
  inv_user : ∀ u s, R s (with_user u s);
  inv_isLoading : ∀ b s, R s (with_isLoading b s);
  inv_sessionStorage : ∀ f s, R s (with_sessionStorage f s);
}.

(** The operations of the provider and of the client that touch the
    stored tokens. *)
Inductive Operation :=
| OpCheckAuthStatus
| OpRefreshToken
| OpLogin (email password : string)
| OpVerifyTwoFactorLogin (token : string)
| OpLogout
| OpRegister (email username password : string)
| OpSetupTwoFactor
| OpVerifyTwoFactor (token : string) (remember : bool)
| OpForgotPassword (email : string)
| OpResetPassword (token password : string)
| OpVerifyEmail (token : string)
| OpUpdateProfile (name email : string)
| OpUpdatePassword (currentPassword newPassword : string)
| OpRequest (request : Request).

Definition perform (jwtDecode : string → option AuthContext.JwtPayload)
    (op : Operation) : Async unit :=
  match op with
  | OpCheckAuthStatus => AuthContext.checkAuthStatus jwtDecode
  | OpRefreshToken => AuthContext.refreshToken;; mret tt
  | OpLogin e p => AuthContext.login e p;; mret tt
  | OpVerifyTwoFactorLogin t => AuthContext.verifyTwoFactorLogin t
  | OpLogout => AuthContext.logout
  | OpRegister e u p => AuthContext.register e u p
  | OpSetupTwoFactor => AuthContext.setupTwoFactor;; mret tt
  | OpVerifyTwoFactor t r => AuthContext.verifyTwoFactor t r
  | OpForgotPassword e => AuthContext.forgotPassword e
  | OpResetPassword t p => AuthContext.resetPassword t p
  | OpVerifyEmail t => AuthContext.verifyEmail t
  | OpUpdateProfile n e => AuthContext.updateProfile n e
  | OpUpdatePassword c n => AuthContext.updatePassword c n
  | OpRequest r => authService.api authService.api_budget r;; mret tt
  end.

(** The state after a sequence of operations. *)
Definition perform_all (jwtDecode : string → option AuthContext.JwtPayload)
    (ops : list Operation) (s : State) : State :=
  foldl (λ s op, (perform jwtDecode op s).2) s ops.

(** Only the console, the network script and the request trace differ. *)
Definition io_only (s s' : State) : Prop :=
  localStorage s' = localStorage s ∧ sessionStorage s' = sessionStorage s
  ∧ storeLog s' = storeLog s ∧ location s' = location s ∧ now s' = now s
  ∧ user s' = user s ∧ isLoading s' = isLoading s.

(** The request trace only grows. *)
Definition sent_grows (s s' : State) : Prop := ∃ more, sent s' = sent s ++ more.

(** A computation that never runs out of fuel. *)
Definition total {A} (m : Async A) : Prop := ∀ s, (m s).1 ≠ OutOfFuel.

(** The body of the next reply when it is a success (2xx) ... *)
Definition answers_success (l : list Reply) : option Body :=
  match l with
  | HttpReply st _ b :: _ => if is_success st then Some b else None
  | _ => None
  end.

(** ... and whether the next request fails without a 401: an error status
    other than 401, or no response at all. *)
Definition answers_failure (l : list Reply) : bool :=
  match l with
  | HttpReply st _ _ :: _ => negb (is_success st) && negb (st =? 401)
  | _ => true
  end.

(** The backend declines the next request and the interceptor has nothing
    to refresh with: any failure but 401, or 401 with no stored refresh
    token. *)
Definition declined (s : State) : Prop :=
  answers_failure (network s) = true
  ∨ (first_status s = Some 401 ∧ truthy (localStorage s !! "refreshToken") = false).

(** The request the [api] instance transmits for a call made in state [s]:
    the request interceptor adds the stored access token. *)
Definition transmitted (m : Method) (u ct : string) (p : Payload) (s : State) : Request :=
  {| method := m; url := u; baseURL := authService.API_URL; contentType := ct;
     Authorization :=
       if truthy (localStorage s !! "accessToken")
       then Some ("Bearer " +:+ default "null" (localStorage s !! "accessToken"))
       else None;
     payload := p; _retry := false |}.

Definition login_request (email password : string) (s : State) : Request :=
  transmitted POST "/auth/login" authService.urlencoded
    (URLSearchParams [("username", email); ("password", password)]) s.

Definition me_request (s : State) : Request :=
  transmitted GET "/auth/me" authService.json NoPayload s.

Definition context_refresh_request (refreshToken : string) (s : State) : Request :=
  transmitted POST "/auth/refresh" authService.urlencoded
    (URLSearchParams [("refresh_token", refreshToken)]) s.

Definition twoFactorLogin_request (email token : string) (s : State) : Request :=
  transmitted POST "/auth/2fa/login" authService.json
    (JsonObject [("email", JStr email); ("token", JStr token)]) s.

Definition setup_request (s : State) : Request :=
  transmitted POST "/auth/2fa/setup" authService.json NoPayload s.

(** localStorage once the two tokens of a response body are stored. *)
Definition stored (b : Body) (m : gmap string string) : gmap string string :=
  <["refreshToken" := js_string (refresh_token b)]>
    (<["accessToken" := js_string (access_token b)]> m).

Definition error_entry (msg : string) (e : JsError) : LogEntry :=
  {| level := LevelError; text := msg; args := [LErr e] |}.

Definition decimal_digits : list ascii :=
  ["0"; "1"; "2"; "3"; "4"; "5"; "6"; "7"; "8"; "9"]%char.

(** ** Concrete browsers and replies, for the examples *)

Definition alice : User :=
  {| user_id := "7"; email := "alice@example.com"; username := "alice";
     role := Some admin; isTwoFactorEnabled := false |}.

(** A user who has two-factor authentication enabled. *)
Definition bob : User :=
  {| user_id := "8"; email := "bob@example.com"; username := "bob";
     role := Some viewer; isTwoFactorEnabled := true |}.

Definition setup_page : SetupTwoFactorPage.PageState :=
  {| SetupTwoFactorPage.isLoading := true; SetupTwoFactorPage.qrCodeUrl := "";
     SetupTwoFactorPage.secret := ""; SetupTwoFactorPage.error := "";
     SetupTwoFactorPage.verificationError := "" |}.

Definition verify_page : VerifyTwoFactorPage.PageState :=
  {| VerifyTwoFactorPage.error := ""; VerifyTwoFactorPage.isLoading := false |}.

Definition plain_body : Body :=
  {| requiresTwoFactor := false; access_token := None; refresh_token := None;
     message := None; sessions := None; profile := alice; qrCodeUrl := ""; secret := "" |}.

Definition token_body (a r : string) : Body :=
  {| requiresTwoFactor := false; access_token := Some a; refresh_token := Some r;
     message := None; sessions := None; profile := alice; qrCodeUrl := ""; secret := "" |}.

(** A browser with nothing stored, before the provider finished loading. *)
Definition fresh_browser (replies : list Reply) : State :=
  {| localStorage := ∅; sessionStorage := ∅; storeLog := []; console := [];
     location := []; network := replies; sent := []; now := 1700000000000;
     user := None; isLoading := true |}.

(** A browser holding a token pair. *)
Definition returning_browser (a r : string) (replies : list Reply) : State :=
  {| localStorage := {[ "accessToken" := a; "refreshToken" := r ]};
     sessionStorage := ∅; storeLog := []; console := [];
     location := []; network := replies; sent := []; now := 1700000000000;
     user := None; isLoading := true |}.

(** A browser in which [login] left a pending two-factor email. *)
Definition pending_browser (replies : list Reply) : State :=
  {| localStorage := ∅; sessionStorage := {[ "twoFactorEmail" := "alice@example.com" ]};
     storeLog := []; console := [];
     location := []; network := replies; sent := []; now := 1700000000000;
     user := None; isLoading := false |}.

(** The provider still loading although a user is already set. *)
Definition loading_browser : State :=
  {| localStorage := ∅; sessionStorage := ∅; storeLog := []; console := [];
     location := []; network := []; sent := []; now := 1700000000000;
     user := Some alice; isLoading := true |}.

Definition signed_in_browser (u : User) (replies : list Reply) : State :=
  {| localStorage := {[ "accessToken" := "access-1"; "refreshToken" := "refresh-1" ]};
     sessionStorage := ∅; storeLog := []; console := [];
     location := []; network := replies; sent := []; now := 1700000000000;
     user := Some u; isLoading := false |}.

(** A decoder that knows one token, whose [exp] claim is 0. *)
Definition epoch_decoder (token : string) : option AuthContext.JwtPayload :=
  if String.eqb token "expired-at-epoch"
  then Some {| AuthContext.exp := Some 0 |}
  else None.

Definition wrong_password : Reply :=
  HttpReply 401 "Unauthorized" plain_body.

Definition server_error : Reply :=
  HttpReply 500 "Internal Server Error" plain_body.

Definition login_values (password : string) : LoginPage.LoginFormValues :=
  {| LoginPage.email := "alice@example.com"; LoginPage.password := password;
     LoginPage.rememberMe := false |}.

Definition login_page : LoginPage.PageState :=
  {| LoginPage.error := ""; LoginPage.isLoading := false |}.

(** A state with its request trace erased, and a run observed without the
    trace: what remains is what the page, the provider and the console
    can depend on. *)
Definition forget_sent (s : State) : State :=
  {| localStorage := localStorage s; sessionStorage := sessionStorage s;
     storeLog := storeLog s; console := console s;
     location := location s; network := network s; sent := [];
     now := now s; user := user s; isLoading := isLoading s |}.

Definition observe {A} (rs : Outcome A * State) : Outcome A * State :=
  (rs.1, forget_sent rs.2).

(** A computation that never reads the request trace. *)
Definition blind {A} (m : Async A) : Prop :=
  ∀ s, observe (m s) = observe (m (forget_sent s)).

(** What the interceptors log around an accepted request. *)
Definition accepted_log (m : Method) (u : string) (st : Z) (s : State) : list LogEntry :=
  [ {| level := LevelLog; text := "API Request: " +:+ toUpperCase m +:+ " " +:+ u;
       args := [] |};
    {| level := LevelLog;
       text := if truthy (localStorage s !! "accessToken")
               then "Adding Authorization header with token"
               else "No token available for request";
       args := [] |};
    {| level := LevelLog;
       text := "API Response Success: " +:+ toUpperCase m +:+ " " +:+ u;
       args := [LNum st] |} ].

(** * Further pages and components *)

(** ** The password pattern

    A string of the model holds the UTF-8 encoding of the JavaScript
    string; the definitions below read it as JavaScript does, in UTF-16
    code units.  The pattern is
    [/^(?=.*[a-z])(?=.*[A-Z])(?=.*\d)[a-zA-Z\d\W]{8,}$/] on the register and
    reset pages and [/^(?=.*[a-z])(?=.*[A-Z])(?=.*\d)[a-zA-Z\d\w\W]{8,}$/]
    on the profile page. *)

(** The number of code units a byte of the encoding stands for: a
    continuation byte none, the first byte of a four-byte sequence two (a
    surrogate pair), any other first byte one. *)
Definition code_units (c : ascii) : nat :=
  if (nat_of_ascii c <? 128)%nat then 1
  else if (nat_of_ascii c <? 192)%nat then 0
  else if (nat_of_ascii c <? 240)%nat then 1
  else 2.

(** [value.length] *)
Fixpoint js_length (v : string) : nat :=
  match v with
  | EmptyString => 0
  | String c v => code_units c + js_length v
  end.

Definition is_lower (c : ascii) : bool :=
  (97 <=? nat_of_ascii c)%nat && (nat_of_ascii c <=? 122)%nat.

Definition is_upper (c : ascii) : bool :=
  (65 <=? nat_of_ascii c)%nat && (nat_of_ascii c <=? 90)%nat.

(** [\w]: a letter, a digit or the underscore; [\W] is its complement,
    which holds every code unit of a character outside ASCII. *)
Definition is_word (c : ascii) : bool :=
  is_lower c || is_upper c || is_digit c || (nat_of_ascii c =? 95)%nat.

(** A character that [.] does not match starts here: line feed, carriage
    return, U+2028 or U+2029 (encoded E2 80 A8 and E2 80 A9). *)
Definition at_line_terminator (v : string) : bool :=
  match v with
  | EmptyString => false
  | String c rest =>
      (nat_of_ascii c =? 10)%nat || (nat_of_ascii c =? 13)%nat
      || ((nat_of_ascii c =? 226)%nat
          && match rest with
             | String c1 (String c2 _) =>
                 (nat_of_ascii c1 =? 128)%nat
                 && ((nat_of_ascii c2 =? 168)%nat || (nat_of_ascii c2 =? 169)%nat)
             | _ => false
             end)
  end.

(** The lookahead [(?=.*[cls])] at the start of [v], for a class of ASCII
    characters: some character of the class, with only characters matched
    by [.] before it. *)
Fixpoint lookahead (cls : ascii → bool) (v : string) : bool :=
  match v with
  | EmptyString => false
  | String c rest =>
      cls c || (negb (at_line_terminator (String c rest)) && lookahead cls rest)
  end.

(** [[cls]{n,}$] from the start of [v]: every character in the class, and
    at least [n] code units. *)
Fixpoint all_of (cls : ascii → bool) (v : string) : bool :=
  match v with
  | EmptyString => true
  | String c v => cls c && all_of cls v
  end.

Definition at_least (n : nat) (cls : ascii → bool) (v : string) : bool :=
  (n <=? js_length v)%nat && all_of cls v.

(** [[a-zA-Z\d\W]] *)
Definition register_class (c : ascii) : bool :=
  is_lower c || is_upper c || is_digit c || negb (is_word c).

(** [[a-zA-Z\d\w\W]] *)
Definition profile_class (c : ascii) : bool :=
  is_lower c || is_upper c || is_digit c || is_word c || negb (is_word c).

Definition password_pattern (cls : ascii → bool) (v : string) : bool :=
  lookahead is_lower v && lookahead is_upper v && lookahead is_digit v
  && at_least 8 cls v.

(** ** Yup tests of the other forms *)

Module Yup.

(** [.min(n, message)] and [.max(n, message)] on [value.length]. *)
Definition min (n : nat) (msg : string) : Test :=
  λ v, if (n <=? js_length v)%nat then None else Some msg.

Definition max (n : nat) (msg : string) : Test :=
  λ v, if (js_length v <=? n)%nat then None else Some msg.

End Yup.

(** [.matches(pattern, message)] for the password pattern. *)
Definition matches_password (cls : ascii → bool) (msg : string) : Test :=
  λ v, if password_pattern cls v then None else Some msg.

(** [.oneOf([Yup.ref(field)], message)], given the value of the field. *)
Definition oneOf_ref (other : string) (msg : string) : Test :=
  λ v, if String.eqb v other then None else Some msg.

(** ** [pages/auth/RegisterPage.tsx] *)

Module RegisterPage.

Record RegisterFormValues := {
  username : string;
  email : string;
  password : string;
  confirmPassword : string;
}.

Record PageState := { error : string; success : bool; isLoading : bool }.

Section Schema.
(** The test behind [Yup.string().email(message)], which Yup defines. *)
Variable is_email : string → bool.

Definition email_test (msg : string) : Test :=
  λ v, if is_email v then None else Some msg.

Definition RegisterSchema (values : RegisterFormValues) : list string :=
  validate [Yup.min 3 "Username must be at least 3 characters";
            Yup.max 50 "Username must be less than 50 characters";
            required "Username is required"] (username values)
  ++ validate [email_test "Invalid email"; required "Email is required"] (email values)
  ++ validate [Yup.min 8 "Password must be at least 8 characters";
               matches_password register_class
                 "Password must contain at least one uppercase letter, one lowercase letter, and one number";
               required "Password is required"] (password values)
  ++ validate [oneOf_ref (password values) "Passwords must match";
               required "Confirm password is required"] (confirmPassword values).

End Schema.

Definition handleSubmit (values : RegisterFormValues) (p : PageState) : Async PageState :=
  let p := {| error := ""; success := success p; isLoading := true |} in
  p ← try_catch
        (AuthContext.register (email values) (username values) (password values);;
         mret {| error := error p; success := true; isLoading := isLoading p |})
        (λ err,
         mret {| error := authService.message_or err
                            "Registration failed. Please try again.";
                 success := success p; isLoading := isLoading p |});
  (* finally *)
  mret {| error := error p; success := success p; isLoading := false |}.

Definition submit (is_email : string → bool)
    : RegisterFormValues → PageState → Async PageState :=
  Formik_submit (RegisterSchema is_email) handleSubmit.

End RegisterPage.

(** ** The reset password page ([ResetPasswordPage]) *)

Module ResetPasswordPage.

Record ResetPasswordFormValues := { password : string; confirmPassword : string }.

Record PageState := {
  token : string;
  error : string;
  success : bool;
  isLoading : bool;
}.

Definition ResetPasswordSchema (values : ResetPasswordFormValues) : list string :=
  validate [Yup.min 8 "Password must be at least 8 characters";
            matches_password register_class
              "Password must contain at least one uppercase letter, one lowercase letter, and one number";
            required "Password is required"] (password values)
  ++ validate [oneOf_ref (password values) "Passwords must match";
               required "Confirm password is required"] (confirmPassword values).

Definition missing_token : string :=
  "Invalid or missing reset token. Please request a new password reset link.".

(** The body of [useEffect(..., [location])]; [tokenParam] is
    [searchParams.get('token')], [null] when the URL has no such
    parameter. *)
Definition effect (tokenParam : option string) (p : PageState) : PageState :=
  if negb (truthy tokenParam) then
    {| token := token p; error := missing_token; success := success p;
       isLoading := isLoading p |}
  else
    {| token := default "" tokenParam; error := error p; success := success p;
       isLoading := isLoading p |}.

Definition handleSubmit (values : ResetPasswordFormValues) (p : PageState)
    : Async PageState :=
  if String.eqb (token p) "" then
    mret {| token := token p; error := missing_token; success := success p;
            isLoading := isLoading p |}
  else
    let p := {| token := token p; error := ""; success := success p; isLoading := true |} in
    p ← try_catch
          (AuthContext.resetPassword (token p) (password values);;
           mret {| token := token p; error := error p; success := true;
                   isLoading := isLoading p |})
          (λ err,
           mret {| token := token p;
                   error := authService.message_or err
                              "Failed to reset password. Please try again.";
                   success := success p; isLoading := isLoading p |});
    (* finally *)
    mret {| token := token p; error := error p; success := success p; isLoading := false |}.

Definition submit : ResetPasswordFormValues → PageState → Async PageState :=
  Formik_submit ResetPasswordSchema handleSubmit.

(** [useState] initial values. *)
Definition initial : PageState :=
  {| token := ""; error := ""; success := false; isLoading := false |}.

End ResetPasswordPage.

(** ** The email verification page ([VerifyEmailPage]) *)

Module VerifyEmailPage.

Record PageState := {
  token : string;
  isLoading : bool;
  error : string;
  success : bool;
}.

Definition initial : PageState :=
  {| token := ""; isLoading := true; error := ""; success := false |}.

Definition verifyEmailToken (token' : string) (p : PageState) : Async PageState :=
  p ← try_catch
        (AuthContext.verifyEmail token';;
         mret {| token := token p; isLoading := isLoading p; error := error p;
                 success := true |})
        (λ err,
         mret {| token := token p; isLoading := isLoading p;
                 error := authService.message_or err
                            "Email verification failed. Please try again.";
                 success := success p |});
  (* finally *)
  mret {| token := token p; isLoading := false; error := error p; success := success p |}.

(** The body of [useEffect(..., [location])]; [tokenParam] is
    [searchParams.get('token')]. *)
Definition effect (tokenParam : option string) (p : PageState) : Async PageState :=
  if negb (truthy tokenParam) then
    mret {| token := token p; isLoading := false;
            error := "Invalid or missing verification token."; success := success p |}
  else
    verifyEmailToken (default "" tokenParam)
      {| token := default "" tokenParam; isLoading := isLoading p; error := error p;
         success := success p |}.

(** What the component returns. *)
Inductive View :=
| Verifying
| VerificationFailed (message : string)
| EmailVerified.

Definition render (p : PageState) : View :=
  if isLoading p then Verifying
  else if negb (String.eqb (error p) "") then VerificationFailed (error p)
  else EmailVerified.

End VerifyEmailPage.

(** ** [pages/ProfilePage.tsx] *)

Module ProfilePage.

Record ProfileFormValues := {
  name : string;
  email : string;
  currentPassword : string;
  newPassword : string;
  confirmPassword : string;
}.

Record PageState := {
  profileSuccess : string;
  profileError : string;
  passwordSuccess : string;
  passwordError : string;
  form : ProfileFormValues;  (* the values Formik holds *)
}.

(** [values.name !== user.name]; [user.name] is optional. *)
Definition differs (v : string) (field : option string) : bool :=
  match field with
  | Some x => negb (String.eqb v x)
  | None => true
  end.

(** [handleSubmit], with [user.name] and [user.email] of the user the
    render read from the context. *)
Definition handleSubmit (user_name : option string) (user_email : string)
    (values : ProfileFormValues) (p : PageState) : Async PageState :=
  let p := {| profileSuccess := ""; profileError := ""; passwordSuccess := "";
              passwordError := ""; form := form p |} in
  p ← (if differs (name values) user_name || differs (email values) (Some user_email) then
         try_catch
           (AuthContext.updateProfile (name values) (email values);;
            mret {| profileSuccess := "Profile updated successfully";
                    profileError := profileError p; passwordSuccess := passwordSuccess p;
                    passwordError := passwordError p; form := form p |})
           (λ err,
            mret {| profileSuccess := profileSuccess p;
                    profileError := authService.message_or err "Failed to update profile";
                    passwordSuccess := passwordSuccess p;
                    passwordError := passwordError p; form := form p |})
       else mret p);
  if negb (String.eqb (newPassword values) "") then
    try_catch
      (AuthContext.updatePassword (currentPassword values) (newPassword values);;
       mret {| profileSuccess := profileSuccess p; profileError := profileError p;
               passwordSuccess := "Password updated successfully";
               passwordError := passwordError p;
               form := {| name := name values; email := email values;
                          currentPassword := ""; newPassword := "";
                          confirmPassword := "" |} |})
      (λ err,
       mret {| profileSuccess := profileSuccess p; profileError := profileError p;
               passwordSuccess := passwordSuccess p;
               passwordError := authService.message_or err "Failed to update password";
               form := form p |})
  else mret p.

End ProfilePage.

(** ** [components/auth/ProtectedRoute.tsx] *)

Module ProtectedRoute.

(** The component at [location.pathname], rendered with the context's
    [isAuthenticated] and [isLoading]; [encodeURIComponent] is the
    JavaScript built-in. *)
Definition ProtectedRoute (encodeURIComponent : string → string) (pathname : string)
    (s : State) : RoleProtectedRoute.Element :=
  let isAuthenticated := bool_decide (is_Some (user s)) in
  if isLoading s then RoleProtectedRoute.LoadingSpinner
  else if negb isAuthenticated then
    RoleProtectedRoute.Navigate ("/login?returnUrl=" +:+ encodeURIComponent pathname)
  else RoleProtectedRoute.Children.

End ProtectedRoute.

(** ** Vocabulary of the further properties *)

(** The request the [api] instance puts on the wire for [request] in state
    [s]: the request interceptor overwrites the Authorization header when
    an access token is stored. *)
Definition with_bearer (request : Request) (s : State) : Request :=
  if truthy (localStorage s !! "accessToken")
  then authService.set_Authorization
         ("Bearer " +:+ default "null" (localStorage s !! "accessToken")) request
  else request.

(** Two requests that differ at most in the Authorization header and the
    [_retry] mark. *)
Definition same_call (r1 r2 : Request) : Prop :=
  method r1 = method r2 ∧ url r1 = url r2 ∧ baseURL r1 = baseURL r2
  ∧ contentType r1 = contentType r2 ∧ payload r1 = payload r2.

(** The endpoint [authService.logout] deletes, given the session list it
    fetched. *)
Definition logout_target (l : list SessionInfo) : string :=
  match List.find is_current l with
  | Some currentSession => "/auth/sessions/" +:+ info_id currentSession
  | None => "/auth/sessions"
  end.

Definition sessions_request (s : State) : Request :=
  transmitted GET "/auth/sessions" authService.json NoPayload s.

Definition delete_request (u : string) (s : State) : Request :=
  transmitted DELETE u authService.json NoPayload s.

(** A session list as the backend returns it. *)
Definition sessions_body (l : list SessionInfo) : Body :=
  {| requiresTwoFactor := false; access_token := None; refresh_token := None;
     message := None; sessions := Some l; profile := alice; qrCodeUrl := ""; secret := "" |}.

Definition two_sessions : list SessionInfo :=
  [ {| info_id := "session-1"; is_current := false |};
    {| info_id := "session-2"; is_current := true |} ].

(** The characters of a string. *)
Definition chars (v : string) : list ascii := String.list_ascii_of_string v.

(** Some character of the class occurs in [v], and no line terminator
    starts before it. *)
Definition visible (cls : ascii → bool) (v : string) : Prop :=
  ∃ pre c post,
    v = pre +:+ String c post ∧ cls c = true
    ∧ ∀ a x b, pre = a +:+ String x b →
               at_line_terminator (String x b +:+ String c post) = false.

Definition underscore : ascii := "_"%char.

Definition register_request (email username password : string) (s : State) : Request :=
  transmitted POST "/auth/register" authService.json
    (JsonObject [("email", JStr email); ("username", JStr username);
                 ("password", JStr password)]) s.

Definition resetPassword_request (token password : string) (s : State) : Request :=
  transmitted POST "/auth/reset-password" authService.json
    (JsonObject [("token", JStr token); ("password", JStr password)]) s.

Definition verifyEmail_request (token : string) (s : State) : Request :=
  transmitted POST "/auth/verify-email" authService.json
    (JsonObject [("token", JStr token)]) s.

Definition updateProfile_request (name email : string) (s : State) : Request :=
  transmitted PUT "/profile/update" authService.json
    (JsonObject [("email", JStr email); ("full_name", JStr name)]) s.

Definition updatePassword_request (currentPassword newPassword : string) (s : State)
    : Request :=
  transmitted PUT "/profile/update-password" authService.json
    (JsonObject [("current_password", JStr currentPassword);
                 ("new_password", JStr newPassword)]) s.

(** The values the register form lets through. *)
Definition valid_registration (is_email : string → bool)
    (values : RegisterPage.RegisterFormValues) : Prop :=
  (3 ≤ js_length (RegisterPage.username values) ≤ 50)%nat
  ∧ RegisterPage.email values ≠ "" ∧ is_email (RegisterPage.email values) = true
  ∧ password_pattern register_class (RegisterPage.password values) = true
  ∧ RegisterPage.confirmPassword values = RegisterPage.password values.

(** The profile page with its four messages cleared. *)
Definition cleared (p : ProfilePage.PageState) : ProfilePage.PageState :=
  {| ProfilePage.profileSuccess := ""; ProfilePage.profileError := "";
     ProfilePage.passwordSuccess := ""; ProfilePage.passwordError := "";
     ProfilePage.form := ProfilePage.form p |}.


Definition both_absent (m : gmap string string) : Prop :=
  m !! "accessToken" = None ∧ m !! "refreshToken" = None.

(** localStorage once both token entries are removed. *)
Definition cleared_tokens (m : gmap string string) : gmap string string :=
  delete "refreshToken" (delete "accessToken" m).
(** * Proofs *)

(** ** Computations that respect a relation on states *)

Section Respects.
Context {R : State → State → Prop}.

Section Client.
Hypothesis HR : ClientInvariant R.

Lemma respects_ret {A} (a : A) : respects R (mret a).
Proof. intros s. apply (inv_refl R HR). Qed.

Lemma respects_throw {A} e : respects R (@throw A e).
Proof. intros s. apply (inv_refl R HR). Qed.

Lemma respects_out_of_fuel {A} : respects R (@out_of_fuel A).
Proof. intros s. apply (inv_refl R HR). Qed.

Lemma respects_bind {A B} (m : Async A) (f : A → Async B) :
  respects R m → (∀ a, respects R (f a)) → respects R (m ≫= f).
Proof.
  intros Hm Hf s. specialize (Hm s). unfold mbind, Async_bind.
  destruct (m s) as [[a|e|] s1]; simpl in *; try assumption.
  eapply (inv_trans R HR); [eassumption | apply Hf].
Qed.

Lemma respects_try_catch {A} (m : Async A) h :
  respects R m → (∀ e, respects R (h e)) → respects R (try_catch m h).
Proof.
  intros Hm Hh s. specialize (Hm s). unfold try_catch.
  destruct (m s) as [[a|e|] s1]; simpl in *; try assumption.
  eapply (inv_trans R HR); [eassumption | apply Hh].
Qed.

Lemma respects_try_finally {A} (m : Async A) fin :
  respects R m → respects R fin → respects R (try_finally m fin).
Proof.
  intros Hm Hf s. specialize (Hm s). unfold try_finally.
  destruct (m s) as [[a|e|] s1]; simpl in *; try assumption.
  all: specialize (Hf s1); destruct (fin s1) as [[[]|e'|] s2]; simpl in *.
  all: eapply (inv_trans R HR); eassumption.
Qed.

Lemma respects_settle {A} (m : Async A) : respects R m → respects R (settle m).
Proof.
  intros Hm s. specialize (Hm s). unfold settle.
  destruct (m s) as [[a|e|] s1]; assumption.
Qed.

Lemma respects_console_log msg a : respects R (console_log msg a).
Proof. intros s. apply (inv_console R HR). Qed.

Lemma respects_console_error msg a : respects R (console_error msg a).
Proof. intros s. apply (inv_console R HR). Qed.

Lemma respects_navigate to : respects R (navigate to).
Proof. intros s. apply (inv_location R HR). Qed.

Lemma respects_localStorage_getItem k : respects R (localStorage_getItem k).
Proof. intros s. apply (inv_refl R HR). Qed.

Lemma respects_sessionStorage_getItem k : respects R (sessionStorage_getItem k).
Proof. intros s. apply (inv_refl R HR). Qed.

Lemma respects_Date_now : respects R Date_now.
Proof. intros s. apply (inv_refl R HR). Qed.

Lemma respects_axios c r : respects R (axios c r).
Proof.
  intros s. unfold axios.
  destruct (network s) as [|[st txt b|] rest]; [|destruct (_ && _)|]; apply (inv_network R HR).
Qed.

(** The two token entries are only ever written one right after the other. *)
Lemma respects_set_pair {A} a r (k : Async A) :
  respects R k →
  respects R (localStorage_setItem "accessToken" a;;
              localStorage_setItem "refreshToken" r;; k).
Proof.
  intros Hk s. unfold mbind, Async_bind, localStorage_setItem. simpl.
  eapply (inv_trans R HR); [apply (inv_set_pair R HR) | apply Hk].
Qed.

Lemma respects_remove_pair {A} (k : Async A) :
  respects R k →
  respects R (localStorage_removeItem "accessToken";;
              localStorage_removeItem "refreshToken";; k).
Proof.
  intros Hk s. unfold mbind, Async_bind, localStorage_removeItem. simpl.
  eapply (inv_trans R HR); [apply (inv_remove_pair R HR) | apply Hk].
Qed.

End Client.
End Respects.

Ltac respects_step HR :=
  lazymatch goal with
  | |- respects _ (localStorage_setItem "accessToken" _ ≫= _) =>
      apply (respects_set_pair HR)
  | |- respects _ (localStorage_removeItem "accessToken" ≫= _) =>
      apply (respects_remove_pair HR)
  | |- respects _ (_ ≫= _) => apply (respects_bind HR); [|intros ?]
  | |- respects _ (mret _) => apply (respects_ret HR)
  | |- respects _ (throw _) => apply (respects_throw HR)
  | |- respects _ out_of_fuel => apply (respects_out_of_fuel HR)
  | |- respects _ (try_catch _ _) => apply (respects_try_catch HR); [|intros ?]
  | |- respects _ (try_finally _ _) => apply (respects_try_finally HR)
  | |- respects _ (settle _) => apply respects_settle
  | |- respects _ (console_log _ _) => apply (respects_console_log HR)
  | |- respects _ (console_error _ _) => apply (respects_console_error HR)
  | |- respects _ (navigate _) => apply (respects_navigate HR)
  | |- respects _ (localStorage_getItem _) => apply (respects_localStorage_getItem HR)
  | |- respects _ (sessionStorage_getItem _) => apply (respects_sessionStorage_getItem HR)
  | |- respects _ Date_now => apply (respects_Date_now HR)
  | |- respects _ (axios _ _) => apply (respects_axios HR)
  | |- respects _ (if ?b then _ else _) => destruct b
  | |- respects _ (match ?x with _ => _ end) => destruct x
  end.

Section ClientFunctions.
Context {R : State → State → Prop} (HR : ClientInvariant R).

Lemma respects_request_interceptor request :
  respects R (authService.request_interceptor request).
Proof. unfold authService.request_interceptor. repeat respects_step HR. Qed.

Lemma respects_response_error api error :
  (∀ r, respects R (api r)) → respects R (authService.response_error api error).
Proof.
  intros Hapi. unfold authService.response_error.
  repeat first [respects_step HR | apply Hapi].
Qed.

Lemma respects_api fuel request : respects R (authService.api fuel request).
Proof.
  revert request. induction fuel as [|fuel IH]; intros request; simpl.
  - apply (respects_out_of_fuel HR).
  - apply (respects_bind HR); [apply respects_request_interceptor | intros request'].
    apply (respects_bind HR); [apply respects_settle, (respects_axios HR) | intros [response|error]].
    + repeat respects_step HR.
    + apply respects_response_error, IH.
Qed.

Lemma respects_api_request m u ct p : respects R (authService.api_request m u ct p).
Proof. apply respects_api. Qed.

End ClientFunctions.

Ltac service_step HR :=
  lazymatch goal with
  | |- respects _ (authService.api_request _ _ _ _) => apply (respects_api_request HR)
  | |- respects _ (authService.api _ _) => apply (respects_api HR)
  | _ => respects_step HR
  end.

Section ServiceFunctions.
Context {R : State → State → Prop} (HR : ClientInvariant R).

Lemma respects_service_login e p : respects R (authService.login e p).
Proof. unfold authService.login. repeat service_step HR. Qed.

Lemma respects_getSessions : respects R authService.getSessions.
Proof. unfold authService.getSessions. repeat service_step HR. Qed.

Lemma respects_service_logout t : respects R (authService.logout t).
Proof.
  unfold authService.logout.
  apply (respects_try_catch HR); [|intros ?; repeat service_step HR].
  apply (respects_bind HR); [apply respects_getSessions | intros ?].
  repeat service_step HR.
Qed.

Lemma respects_getCurrentUser : respects R authService.getCurrentUser.
Proof. unfold authService.getCurrentUser. repeat service_step HR. Qed.

Lemma respects_service_refreshToken t : respects R (authService.refreshToken t).
Proof. unfold authService.refreshToken. repeat service_step HR. Qed.

Lemma respects_service_verifyTwoFactorLogin e t :
  respects R (authService.verifyTwoFactorLogin e t).
Proof. unfold authService.verifyTwoFactorLogin. repeat service_step HR. Qed.

End ServiceFunctions.

Ltac provider_step HR HC :=
  lazymatch goal with
  | |- respects _ (setUser _) => intros ?; apply (inv_user _ HR)
  | |- respects _ (setIsLoading _) => intros ?; apply (inv_isLoading _ HR)
  | |- respects _ (sessionStorage_setItem _ _) => intros ?; apply (inv_sessionStorage _ HR)
  | |- respects _ (sessionStorage_removeItem _) => intros ?; apply (inv_sessionStorage _ HR)
  | |- respects _ (authService.login _ _) => apply (respects_service_login HC)
  | |- respects _ (authService.logout _) => apply (respects_service_logout HC)
  | |- respects _ authService.getCurrentUser => apply (respects_getCurrentUser HC)
  | |- respects _ (authService.refreshToken _) => apply (respects_service_refreshToken HC)
  | |- respects _ (authService.verifyTwoFactorLogin _ _) =>
      apply (respects_service_verifyTwoFactorLogin HC)
  | _ => service_step HC
  end.

Section ProviderFunctions.
Context {R : State → State → Prop} (HR : ProviderInvariant R).

Lemma respects_refreshToken : respects R AuthContext.refreshToken.
Proof. unfold AuthContext.refreshToken. repeat provider_step HR (inv_client R HR). Qed.

Lemma respects_checkAuthStatus jwtDecode : respects R (AuthContext.checkAuthStatus jwtDecode).
Proof.
  unfold AuthContext.checkAuthStatus.
  repeat lazymatch goal with
         | |- respects _ AuthContext.refreshToken => apply respects_refreshToken
         | _ => provider_step HR (inv_client R HR)
         end.
Qed.

Lemma respects_login e p : respects R (AuthContext.login e p).
Proof. unfold AuthContext.login. repeat provider_step HR (inv_client R HR). Qed.

Lemma respects_logout : respects R AuthContext.logout.
Proof. unfold AuthContext.logout. repeat provider_step HR (inv_client R HR). Qed.

Lemma respects_verifyTwoFactorLogin t : respects R (AuthContext.verifyTwoFactorLogin t).
Proof. unfold AuthContext.verifyTwoFactorLogin. repeat provider_step HR (inv_client R HR). Qed.

Lemma respects_perform jwtDecode op : respects R (perform jwtDecode op).
Proof.
  destruct op; cbn [perform].
  1: apply respects_checkAuthStatus.
  1: apply (respects_bind (inv_client R HR)); [apply respects_refreshToken | intros ?; apply (respects_ret (inv_client R HR))].
  1: apply (respects_bind (inv_client R HR)); [apply respects_login | intros ?; apply (respects_ret (inv_client R HR))].
  1: apply respects_verifyTwoFactorLogin.
  1: apply respects_logout.
  all: unfold AuthContext.register, AuthContext.setupTwoFactor, AuthContext.verifyTwoFactor,
         AuthContext.forgotPassword, AuthContext.resetPassword, AuthContext.verifyEmail,
         AuthContext.updateProfile, AuthContext.updatePassword,
         authService.register, authService.setupTwoFactor, authService.verifyTwoFactor,
         authService.forgotPassword, authService.resetPassword, authService.verifyEmail,
         authService.updateProfile, authService.updatePassword.
  all: repeat provider_step HR (inv_client R HR).
Qed.

End ProviderFunctions.

(** ** The token pair invariant *)

Lemma replay_app d1 d2 m : replay (d1 ++ d2) m = replay d2 (replay d1 m).
Proof. unfold replay. apply foldl_app. Qed.

Lemma paired_writes_app d1 d2 :
  paired_writes d1 → paired_writes d2 → paired_writes (d1 ++ d2).
Proof. induction 1; simpl; auto using paired_writes. Qed.

Lemma paired_replay d m : paired_writes d → paired m → paired (replay d m).
Proof.
  intros Hd. revert m. induction Hd as [|a r l _ IH|l _ IH]; intros m Hm; [exact Hm| |].
  - apply IH. unfold paired. cbn. rewrite lookup_insert_ne by done.
    rewrite !lookup_insert_eq. split; eauto.
  - apply IH. unfold paired. cbn. rewrite lookup_delete_eq.
    rewrite lookup_delete_ne by done. rewrite lookup_delete_eq.
    split; intros [? ?]; discriminate.
Qed.

Lemma tracks_provider : ProviderInvariant tracks.
Proof.
  split; [split|..].
  - intros s. exists []. rewrite app_nil_r. repeat split. constructor.
  - intros s1 s2 s3 (d1 & H1 & P1 & L1) (d2 & H2 & P2 & L2).
    exists (d1 ++ d2). rewrite H2, H1, L2, L1, replay_app, app_assoc.
    auto using paired_writes_app.
  - intros e s. exists []. cbn. rewrite app_nil_r. repeat split. constructor.
  - intros to s. exists []. cbn. rewrite app_nil_r. repeat split. constructor.
  - intros rest c r s. exists []. cbn. rewrite app_nil_r. repeat split. constructor.
  - intros a r s. exists [SetItem "accessToken" a; SetItem "refreshToken" r]. cbn.
    rewrite <- app_assoc. repeat split. repeat constructor.
  - intros s. exists [RemoveItem "accessToken"; RemoveItem "refreshToken"]. cbn.
    rewrite <- app_assoc. repeat split. repeat constructor.
  - intros u s. exists []. cbn. rewrite app_nil_r. repeat split. constructor.
  - intros b s. exists []. cbn. rewrite app_nil_r. repeat split. constructor.
  - intros f s. exists []. cbn. rewrite app_nil_r. repeat split. constructor.
Qed.

Lemma client_step_invariant : ClientInvariant client_step.
Proof.
  pose proof (inv_client _ tracks_provider) as HT.
  split.
  - intros s. split; [apply (inv_refl _ HT) | auto].
  - intros s1 s2 s3 (T1 & A1 & B1 & C1 & D1) (T2 & A2 & B2 & C2 & D2).
    split; [eapply (inv_trans _ HT); eassumption | repeat split; congruence].
  - intros e s. split; [apply (inv_console _ HT) | auto].
  - intros to s. split; [apply (inv_location _ HT) | auto].
  - intros rest c r s. split; [apply (inv_network _ HT) | auto].
  - intros a r s. split; [apply (inv_set_pair _ HT) | auto].
  - intros s. split; [apply (inv_remove_pair _ HT) | auto].
Qed.

Lemma tracks_paired s s' : tracks s s' → paired (localStorage s) → paired (localStorage s').
Proof. intros (d & _ & Hd & ->). by apply paired_replay. Qed.

(** ** The [api] instance *)

Ltac unfold_async :=
  unfold mbind, mret, Async_bind, Async_ret, settle, try_catch, try_finally, throw,
    console_log, console_error, localStorage_getItem, localStorage_setItem,
    localStorage_removeItem, sessionStorage_getItem, sessionStorage_setItem,
    sessionStorage_removeItem, setUser, setIsLoading, Date_now, navigate, axios in *.

Lemma api_unfold fuel request :
  authService.api (S fuel) request =
  (request ← authService.request_interceptor request;
   r ← settle (axios ApiInstance request);
   match r with
   | inl response =>
       console_log
         ("API Response Success: " +:+ toUpperCase (method (config response))
            +:+ " " +:+ url (config response))
         [LNum (status response)];;
       mret response
   | inr error => authService.response_error (authService.api fuel) error
   end).
Proof. reflexivity. Qed.

Ltac api_cases s :=
  unfold authService.request_interceptor, authService.response_error;
  unfold_async; cbn -[authService.api];
  destruct (truthy (localStorage s !! "accessToken")); cbn -[authService.api];
  destruct (network s) as [|[?st ?txt ?b|] ?rest]; cbn -[authService.api].

(** A request already marked [_retry] is transmitted once, whatever the
    fuel. *)
Lemma api_marked fuel request s :
  _retry request = true →
  authService.api (S fuel) request s = authService.api 1 request s.
Proof.
  intros Hm. rewrite !api_unfold. api_cases s; try reflexivity.
  all: destruct ((200 <=? st) && (st <? 300)); cbn -[authService.api]; try reflexivity.
  all: rewrite Hm; cbn -[authService.api]; rewrite andb_false_r; reflexivity.
Qed.

Lemma api_marked_once request s :
  _retry request = true →
  ∃ r s' request',
    authService.api 1 request s = (r, s') ∧ r ≠ OutOfFuel
    ∧ sent s' = sent s ++ [(ApiInstance, request')].
Proof.
  intros Hm. rewrite api_unfold. api_cases s.
  all: try destruct ((200 <=? st) && (st <? 300)); cbn.
  all: rewrite ?Hm, ?andb_false_r; cbn.
  all: do 3 eexists; split; [reflexivity|]; split; [discriminate|]; reflexivity.
Qed.

Lemma api_fuel_enough fuel request s :
  authService.api (S (S fuel)) request s = authService.api authService.api_budget request s.
Proof.
  unfold authService.api_budget. rewrite (api_unfold (S fuel)), (api_unfold 1).
  api_cases s; try reflexivity.
  all: destruct ((200 <=? st) && (st <? 300)); cbn -[authService.api]; try reflexivity.
  all: destruct ((st =? 401) && negb (_retry request)); cbn -[authService.api]; try reflexivity.
  all: destruct (truthy (localStorage s !! "refreshToken")); cbn -[authService.api]; try reflexivity.
  all: destruct rest as [|[st2 txt2 b2|] rest]; cbn -[authService.api]; try reflexivity.
  all: destruct ((200 <=? st2) && (st2 <? 300)); cbn -[authService.api]; try reflexivity.
  all: apply api_marked; reflexivity.
Qed.

(** Everything one call of the instance can put on the wire. *)
Lemma api_exchange request s :
  ∃ r s' delta,
    authService.api authService.api_budget request s = (r, s')
    ∧ r ≠ OutOfFuel
    ∧ sent s' = sent s ++ delta
    ∧ (count is_refresh_call delta ≤ 1)%nat
    ∧ (1 ≤ count is_transmission delta ≤ 2)%nat
    ∧ (count is_refresh_call delta = 1%nat ∨ count is_transmission delta = 2%nat →
       first_status s = Some 401 ∧ _retry request = false)
    ∧ (_retry request = true ∨ first_status s ≠ Some 401 →
       ∃ request', delta = [(ApiInstance, request')]).
Proof.
  unfold authService.api_budget, first_status.
  rewrite (api_unfold 1). api_cases s.
  all: try destruct ((200 <=? st) && (st <? 300)) eqn:Hok; cbn -[authService.api].
  all: try (destruct (st =? 401) eqn:H401;
            [apply Z.eqb_eq in H401; subst st | apply Z.eqb_neq in H401];
            cbn -[authService.api]).
  all: try (destruct (_retry request) eqn:Hm; cbn -[authService.api]).
  all: try (destruct (truthy (localStorage s !! "refreshToken")); cbn -[authService.api]).
  all: try (destruct rest as [|[st2 txt2 b2|] rest]; cbn -[authService.api]).
  all: try (destruct ((200 <=? st2) && (st2 <? 300)); cbn -[authService.api]).
  all: try match goal with
       | |- context [authService.api 1 ?x ?st] =>
           destruct (api_marked_once x st eq_refl) as (r1 & s1 & req1 & -> & Hr1 & Hs1);
           cbn in Hs1
       end.
  all: do 3 eexists; (split; [reflexivity|]); cbn.
  all: split; [first [assumption | discriminate]|].
  all: split; [rewrite ?Hs1, <- ?app_assoc; reflexivity|].
  all: cbn; repeat split; try lia; try (intros [?|?]; congruence);
       try (intros [?|?]; try discriminate; try congruence; eauto).
Qed.

(** ** Termination: no call runs out of fuel *)

Lemma total_ret {A} (a : A) : total (mret a).
Proof. intros s. discriminate. Qed.

Lemma total_throw {A} e : total (@throw A e).
Proof. intros s. discriminate. Qed.

Lemma total_bind {A B} (m : Async A) (f : A → Async B) :
  total m → (∀ a, total (f a)) → total (m ≫= f).
Proof.
  intros Hm Hf s. specialize (Hm s). unfold mbind, Async_bind.
  destruct (m s) as [[a|e|] s1]; simpl in *; [apply Hf | discriminate | congruence].
Qed.

Lemma total_try_catch {A} (m : Async A) h :
  total m → (∀ e, total (h e)) → total (try_catch m h).
Proof.
  intros Hm Hh s. specialize (Hm s). unfold try_catch.
  destruct (m s) as [[a|e|] s1]; simpl in *; [discriminate | apply Hh | congruence].
Qed.

Lemma total_try_finally {A} (m : Async A) fin :
  total m → total fin → total (try_finally m fin).
Proof.
  intros Hm Hf s. specialize (Hm s). unfold try_finally.
  destruct (m s) as [[a|e|] s1]; simpl in *; [| |congruence].
  all: specialize (Hf s1); destruct (fin s1) as [[[]|e'|] s2]; simpl in *;
    first [discriminate | congruence].
Qed.

Lemma total_primitive {A} (m : Async A) :
  (∀ s, ∃ a s', m s = (Resolved a, s')) → total m.
Proof. intros H s. destruct (H s) as (a & s' & ->). discriminate. Qed.

Lemma total_api request : total (authService.api authService.api_budget request).
Proof.
  intros s. destruct (api_exchange request s) as (r & s' & d & -> & Hr & _). exact Hr.
Qed.

Lemma total_api_request m u ct p : total (authService.api_request m u ct p).
Proof. apply total_api. Qed.

Ltac total_step :=
  lazymatch goal with
  | |- total (authService.api_request _ _ _ _) => apply total_api_request
  | |- total (authService.api authService.api_budget _) => apply total_api
  | |- total (_ ≫= _) => apply total_bind; [|intros ?]
  | |- total (mret _) => apply total_ret
  | |- total (throw _) => apply total_throw
  | |- total (try_catch _ _) => apply total_try_catch; [|intros ?]
  | |- total (try_finally _ _) => apply total_try_finally
  | |- total (if ?b then _ else _) => destruct b
  | |- total (match ?x with _ => _ end) => destruct x
  | |- total (console_log _ _) => apply total_primitive; intros ?; by eauto
  | |- total (console_error _ _) => apply total_primitive; intros ?; by eauto
  | |- total (navigate _) => apply total_primitive; intros ?; by eauto
  | |- total (localStorage_getItem _) => apply total_primitive; intros ?; by eauto
  | |- total (localStorage_setItem _ _) => apply total_primitive; intros ?; by eauto
  | |- total (localStorage_removeItem _) => apply total_primitive; intros ?; by eauto
  | |- total (sessionStorage_getItem _) => apply total_primitive; intros ?; by eauto
  | |- total (sessionStorage_setItem _ _) => apply total_primitive; intros ?; by eauto
  | |- total (sessionStorage_removeItem _) => apply total_primitive; intros ?; by eauto
  | |- total Date_now => apply total_primitive; intros ?; by eauto
  | |- total (setUser _) => apply total_primitive; intros ?; by eauto
  | |- total (setIsLoading _) => apply total_primitive; intros ?; by eauto
  end.

Lemma total_getCurrentUser : total authService.getCurrentUser.
Proof. unfold authService.getCurrentUser. repeat total_step. Qed.

Lemma total_service_logout t : total (authService.logout t).
Proof. unfold authService.logout, authService.getSessions. repeat total_step. Qed.

Lemma total_refreshToken : total AuthContext.refreshToken.
Proof.
  unfold AuthContext.refreshToken, authService.refreshToken.
  repeat lazymatch goal with
         | |- total authService.getCurrentUser => apply total_getCurrentUser
         | _ => total_step
         end.
Qed.

Ltac provider_total :=
  repeat lazymatch goal with
         | |- total authService.getCurrentUser => apply total_getCurrentUser
         | |- total (authService.logout _) => apply total_service_logout
         | |- total AuthContext.refreshToken => apply total_refreshToken
         | _ => total_step
         end.

Lemma total_login e p : total (AuthContext.login e p).
Proof. unfold AuthContext.login, authService.login. provider_total. Qed.



(** ** Single requests *)

Lemma sent_grows_provider : ProviderInvariant sent_grows.
Proof.
  split; [split|..].
  - intros s. exists []. by rewrite app_nil_r.
  - intros s1 s2 s3 [t1 H1] [t2 H2]. exists (t1 ++ t2). by rewrite H2, H1, app_assoc.
  - intros e s. exists []. cbn. by rewrite app_nil_r.
  - intros to s. exists []. cbn. by rewrite app_nil_r.
  - intros rest c r s. by exists [(c, r)].
  - intros a r s. exists []. cbn. by rewrite app_nil_r.
  - intros s. exists []. cbn. by rewrite app_nil_r.
  - intros u s. exists []. cbn. by rewrite app_nil_r.
  - intros b s. exists []. cbn. by rewrite app_nil_r.
  - intros f s. exists []. cbn. by rewrite app_nil_r.
Qed.

Ltac api_cases_eq s Htok :=
  unfold authService.request_interceptor, authService.response_error;
  unfold_async; cbn -[authService.api];
  destruct (truthy (localStorage s !! "accessToken")) eqn:Htok; cbn -[authService.api].

Lemma api_request_success m u ct p s b :
  answers_success (network s) = Some b →
  ∃ st txt s',
    authService.api_request m u ct p s
    = (Resolved {| status := st; statusText := txt; data := b;
                   config := transmitted m u ct p s |}, s')
    ∧ io_only s s' ∧ network s' = tail (network s)
    ∧ sent s' = sent s ++ [(ApiInstance, transmitted m u ct p s)].
Proof.
  unfold answers_success, is_success, authService.api_request, authService.api_budget,
    transmitted, io_only.
  intros Hb. rewrite api_unfold. api_cases_eq s Htok.
  all: destruct (network s) as [|[st txt b'|] rest]; try discriminate.
  all: cbn -[authService.api].
  all: destruct ((200 <=? st) && (st <? 300)); [|discriminate].
  all: injection Hb as ->. 
  all: do 3 eexists; split; [reflexivity|]; cbn; auto 10.
Qed.

Lemma api_request_failure m u ct p s :
  answers_failure (network s) = true →
  ∃ response s',
    authService.api_request m u ct p s
    = (Rejected (AxiosError (transmitted m u ct p s) response), s')
    ∧ io_only s s' ∧ network s' = tail (network s)
    ∧ sent s' = sent s ++ [(ApiInstance, transmitted m u ct p s)].
Proof.
  unfold answers_failure, is_success, authService.api_request, authService.api_budget,
    transmitted, io_only.
  intros Hb. rewrite api_unfold. api_cases_eq s Htok.
  all: destruct (network s) as [|[st txt b'|] rest]; cbn -[authService.api].
  all: try (destruct ((200 <=? st) && (st <? 300)); [discriminate|];
            cbn -[authService.api];
            destruct (st =? 401); [discriminate|]; cbn -[authService.api]).
  all: do 2 eexists; split; [reflexivity|]; cbn; auto 10.
Qed.

(** The first thing a call of the instance does on the wire is to transmit
    the request, with the stored access token as bearer. *)
Lemma api_request_sends m u ct p s :
  ∃ tail, sent (authService.api_request m u ct p s).2
          = sent s ++ (ApiInstance, transmitted m u ct p s) :: tail.
Proof.
  unfold authService.api_request, authService.api_budget, transmitted.
  rewrite (api_unfold 1). api_cases_eq s Htok.
  all: destruct (network s) as [|[st txt b|] rest]; cbn -[authService.api].
  all: try (destruct ((200 <=? st) && (st <? 300)); cbn -[authService.api]).
  all: try (destruct (st =? 401); cbn -[authService.api]).
  all: try (destruct (truthy (localStorage s !! "refreshToken")); cbn -[authService.api]).
  all: try (destruct rest as [|[st2 txt2 b2|] rest]; cbn -[authService.api]).
  all: try (destruct ((200 <=? st2) && (st2 <? 300)); cbn -[authService.api]).
  all: try match goal with
       | |- context [authService.api 1 ?x ?st] =>
           destruct (api_marked_once x st eq_refl) as (r1 & s1 & req1 & -> & Hr1 & Hs1);
           cbn in Hs1; cbn; rewrite Hs1
       end.
  all: rewrite <- ?app_assoc; cbn; eexists; reflexivity.
Qed.

Lemma getCurrentUser_success s b :
  answers_success (network s) = Some b →
  ∃ s', authService.getCurrentUser s = (Resolved (profile b), s')
        ∧ io_only s s' ∧ network s' = tail (network s)
        ∧ sent s' = sent s ++ [(ApiInstance,
                                transmitted GET "/auth/me" authService.json NoPayload s)].
Proof.
  intros Hb. unfold authService.getCurrentUser. unfold_async.
  cbn -[authService.api_request].
  edestruct (api_request_success GET "/auth/me" authService.json NoPayload) as
    (st & txt & s1 & -> & Hio & Hnet & Hsent); [exact Hb|].
  cbn. eexists; split; [reflexivity|]. cbn. auto.
Qed.

Lemma getCurrentUser_failure s :
  answers_failure (network s) = true →
  ∃ e s', authService.getCurrentUser s = (Rejected e, s')
        ∧ io_only s s' ∧ network s' = tail (network s)
        ∧ sent s' = sent s ++ [(ApiInstance,
                                transmitted GET "/auth/me" authService.json NoPayload s)].
Proof.
  intros Hb. unfold authService.getCurrentUser. unfold_async.
  cbn -[authService.api_request].
  edestruct (api_request_failure GET "/auth/me" authService.json NoPayload) as
    (resp & s1 & -> & Hio & Hnet & Hsent); [exact Hb|].
  cbn. do 2 eexists; split; [reflexivity|]. cbn. auto.
Qed.

Lemma getCurrentUser_sends s :
  ∃ tail, sent (authService.getCurrentUser s).2
          = sent s ++ (ApiInstance,
                       transmitted GET "/auth/me" authService.json NoPayload s) :: tail.
Proof.
  unfold authService.getCurrentUser. unfold_async. cbn -[authService.api_request].
  match goal with |- context [authService.api_request ?m ?u ?ct ?p ?st] =>
    destruct (api_request_sends m u ct p st) as [t Ht];
    destruct (authService.api_request m u ct p st) as [[r|e|] s1] end.
  all: cbn in *; rewrite Ht; eauto.
Qed.

(** ** The interceptor's refresh *)

Lemma truthy_Some v : v ≠ "" → truthy (Some v) = true.
Proof. intros H. cbn. by destruct (String.eqb_spec v ""). Qed.


Lemma cleared_both m : both_absent (cleared_tokens m).
Proof.
  unfold both_absent, cleared_tokens. rewrite lookup_delete_ne by done.
  rewrite !lookup_delete_eq. done.
Qed.

(** A request marked [_retry] is one exchange, whatever the reply. *)
Lemma api_marked_run request s :
  _retry request = true →
  ∃ r s',
    authService.api 1 request s = (r, s')
    ∧ io_only s s' ∧ network s' = tail (network s)
    ∧ sent s' = sent s ++ [(ApiInstance, with_bearer request s)]
    ∧ (∀ b, answers_success (network s) = Some b →
         ∃ st txt, r = Resolved {| status := st; statusText := txt; data := b;
                                   config := with_bearer request s |})
    ∧ (answers_success (network s) = None →
         ∃ response, r = Rejected (AxiosError (with_bearer request s) response)).
Proof.
  intros Hm. unfold answers_success, is_success, with_bearer, io_only,
    authService.set_Authorization.
  rewrite api_unfold. api_cases_eq s Htok.
  all: destruct (network s) as [|[st txt b|] rest]; cbn -[authService.api].
  all: try (destruct ((200 <=? st) && (st <? 300)) eqn:Hok; cbn -[authService.api]).
  all: rewrite ?Hm, ?andb_false_r; cbn.
  all: do 2 eexists; split; [reflexivity|]; cbn.
  all: split; [repeat split|].
  all: do 2 (split; [reflexivity|]).
  all: split; [intros b0 [=]; subst; eauto | intros [=]; eauto].
Qed.


(** A 401 with a refresh token stored, when the refresh call fails. *)
Lemma api_refresh_failed request s t :
  first_status s = Some 401 → _retry request = false →
  localStorage s !! "refreshToken" = Some t → t ≠ "" →
  answers_success (tail (network s)) = None →
  ∃ response s',
    authService.api authService.api_budget request s
    = (Rejected (AxiosError (authService.refresh_request t) response), s')
    ∧ localStorage s' = cleared_tokens (localStorage s)
    ∧ sessionStorage s' = sessionStorage s ∧ user s' = user s.
Proof.
  intros H401 Hm Ht Hne Hfail. unfold first_status, answers_success, is_success,
    authService.api_budget, cleared_tokens in *.
  rewrite api_unfold. api_cases_eq s Htok.
  all: destruct (network s) as [|[st txt b|] rest]; try discriminate.
  all: injection H401 as ->; cbn -[authService.api] in *.
  all: rewrite Hm; cbn -[authService.api]; rewrite Ht, (truthy_Some t Hne);
    cbn -[authService.api].
  all: destruct rest as [|[st2 txt2 b2|] rest]; cbn -[authService.api] in *.
  all: try (destruct ((200 <=? st2) && (st2 <? 300)); [discriminate|]; cbn).
  all: do 2 eexists; split; [reflexivity|]; cbn; auto.
Qed.

(** ... and when it succeeds: the new pair is stored and the outcome is
    that of the retried request. *)
Lemma api_refreshed request s t b2 :
  first_status s = Some 401 → _retry request = false →
  localStorage s !! "refreshToken" = Some t → t ≠ "" →
  answers_success (tail (network s)) = Some b2 →
  ∃ r s',
    authService.api authService.api_budget request s = (r, s')
    ∧ localStorage s' = stored b2 (localStorage s)
    ∧ sessionStorage s' = sessionStorage s ∧ user s' = user s
    ∧ (∀ b3, answers_success (tail (tail (network s))) = Some b3 →
         ∃ response, r = Resolved response ∧ data response = b3)
    ∧ (answers_success (tail (tail (network s))) = None → ∃ e, r = Rejected e).
Proof.
  intros H401 Hm Ht Hne Hok. unfold first_status, authService.api_budget in *.
  rewrite api_unfold. api_cases_eq s Htok.
  all: destruct (network s) as [|[st txt b|] rest]; try discriminate.
  all: injection H401 as ->; cbn -[authService.api] in *.
  all: rewrite Hm; cbn -[authService.api]; rewrite Ht, (truthy_Some t Hne);
    cbn -[authService.api].
  all: destruct rest as [|[st2 txt2 b2'|] rest]; cbn -[authService.api] in Hok |- *;
    try discriminate.
  all: unfold is_success in Hok; destruct ((200 <=? st2) && (st2 <? 300));
    [|discriminate]; injection Hok as ->; cbn -[authService.api].
  all: match goal with |- context [authService.api 1 ?rq ?st] =>
         destruct (api_marked_run rq st eq_refl)
           as (r & s' & -> & Hio & _ & _ & Hs & Hf); exists r, s'
       end.
  all: destruct Hio as (Hl & Hss & _ & _ & _ & Hu & _); cbn in Hl, Hss, Hu, Hs, Hf.
  all: split; [reflexivity|]. all: split; [exact Hl|].
  all: split; [exact Hss|]. all: split; [exact Hu|].
  all: split; [intros b3 H3; destruct (Hs b3 H3) as (? & ? & ->);
               eexists; split; reflexivity
              |intros H3; destruct (Hf H3) as (? & ->); eauto].
Qed.


Lemma getCurrentUser_refresh_failed s t :
  first_status s = Some 401 →
  localStorage s !! "refreshToken" = Some t → t ≠ "" →
  answers_success (tail (network s)) = None →
  ∃ response s',
    authService.getCurrentUser s
    = (Rejected (AxiosError (authService.refresh_request t) response), s')
    ∧ localStorage s' = cleared_tokens (localStorage s)
    ∧ sessionStorage s' = sessionStorage s ∧ user s' = user s.
Proof.
  intros H401 Ht Hne Hfail.
  unfold authService.getCurrentUser, authService.api_request. unfold_async.
  cbn -[authService.api].
  match goal with |- context [authService.api _ ?rq ?st] =>
    destruct (api_refresh_failed rq st t H401 eq_refl Ht Hne Hfail)
      as (response & s1 & -> & Hl & Hss & Hu) end.
  cbn in *. do 2 eexists. split; [reflexivity|]. cbn. auto.
Qed.

Lemma getCurrentUser_refreshed s t b2 :
  first_status s = Some 401 →
  localStorage s !! "refreshToken" = Some t → t ≠ "" →
  answers_success (tail (network s)) = Some b2 →
  ∃ r s',
    authService.getCurrentUser s = (r, s')
    ∧ localStorage s' = stored b2 (localStorage s)
    ∧ sessionStorage s' = sessionStorage s ∧ user s' = user s
    ∧ (∀ b3, answers_success (tail (tail (network s))) = Some b3 →
         r = Resolved (profile b3))
    ∧ (answers_success (tail (tail (network s))) = None → ∃ e, r = Rejected e).
Proof.
  intros H401 Ht Hne Hok.
  unfold authService.getCurrentUser, authService.api_request. unfold_async.
  cbn -[authService.api].
  match goal with |- context [authService.api _ ?rq ?st] =>
    destruct (api_refreshed rq st t b2 H401 eq_refl Ht Hne Hok)
      as (r & s1 & -> & Hl & Hss & Hu & Hs & Hf) end.
  cbn in Hl, Hss, Hu, Hs, Hf.
  destruct r as [response|e|]; do 2 eexists; (split; [reflexivity|]); cbn.
  all: do 3 (split; [assumption|]).
  - split; [intros b3 H3; destruct (Hs b3 H3) as (? & [= <-] & <-); reflexivity|].
    intros H3. destruct (Hf H3) as (? & [=]).
  - split; [intros b3 H3; destruct (Hs b3 H3) as (? & [=] & _) | eauto].
  - split; [intros b3 H3; destruct (Hs b3 H3) as (? & [=] & _)|].
    intros H3. destruct (Hf H3) as (? & [=]).
Qed.

Lemma getCurrentUser_failure_error s :
  answers_failure (network s) = true →
  ∃ response s',
    authService.getCurrentUser s = (Rejected (AxiosError (me_request s) response), s')
    ∧ localStorage s' = localStorage s.
Proof.
  intros Hf. unfold authService.getCurrentUser. unfold_async.
  cbn -[authService.api_request].
  match goal with |- context [authService.api_request ?m ?u ?ct ?p ?st] =>
    destruct (api_request_failure m u ct p st Hf) as (response & s1 & -> & (Hl & _) & _) end.
  cbn in *. do 2 eexists. split; [reflexivity|]. exact Hl.
Qed.
(** ** [login] *)

(** C1 (amended). When the login request is answered with a success: if
    the response marks two-factor as required, [login] returns
    [{ requiresTwoFactor: true }], leaves localStorage as it is and records
    the email in sessionStorage; otherwise it stores [access_token] and
    [refresh_token] and then fetches the current user in that state.  Its
    outcome is the fetch's: [{ requiresTwoFactor: false }] with the fetched
    user set when [getCurrentUser] resolves, a rejection with the same
    error when it rejects.  By the reply to GET /auth/me: after a success
    the user is set and the stored tokens are the response's; after a
    failure other than 401 [login] rejects with the error of that request
    and the tokens stay stored; after a 401 the interceptor refreshes with
    the refresh token just stored, and either the refresh fails, [login]
    rejects with the error of the refresh call and both tokens are
    removed, or it succeeds, the refreshed pair replaces the stored one and
    the outcome is that of the fetch sent again. *)
Theorem login_outcome email password s b :
  answers_success (network s) = Some b →
  ∃ r s',
    AuthContext.login email password s = (r, s')
    ∧ if requiresTwoFactor b then
        r = Resolved (AuthContext.MkLoginResult true)
        ∧ localStorage s' = localStorage s
        ∧ storeLog s' = storeLog s
        ∧ sessionStorage s' = <["twoFactorEmail" := email]> (sessionStorage s)
        ∧ network s' = tail (network s)
      else
        (∃ writes, storeLog s' = storeLog s
                     ++ SetItem "accessToken" (js_string (access_token b))
                     :: SetItem "refreshToken" (js_string (refresh_token b)) :: writes
                   ∧ paired_writes writes)
        ∧ (r = Resolved (AuthContext.MkLoginResult false) ∧ is_Some (user s')
           ∨ ∃ e, r = Rejected e ∧ user s' = user s)
        ∧ ∃ s2,
            localStorage s2 = stored b (localStorage s)
            ∧ network s2 = tail (network s) ∧ user s2 = user s
            ∧ sent s2 = sent s ++ [(ApiInstance, login_request email password s)]
            ∧ (∀ u s3, authService.getCurrentUser s2 = (Resolved u, s3) →
                 r = Resolved (AuthContext.MkLoginResult false) ∧ user s' = Some u
                 ∧ localStorage s' = localStorage s3 ∧ sent s' = sent s3)
            ∧ (∀ e s3, authService.getCurrentUser s2 = (Rejected e, s3) →
                 r = Rejected e ∧ user s' = user s
                 ∧ localStorage s' = localStorage s3 ∧ sent s' = sent s3)
            ∧ (authService.getCurrentUser s2).1 ≠ OutOfFuel
            ∧ (∀ b2, answers_success (tail (network s)) = Some b2 →
                 r = Resolved (AuthContext.MkLoginResult false)
                 ∧ user s' = Some (profile b2)
                 ∧ localStorage s' = stored b (localStorage s))
            ∧ (answers_failure (tail (network s)) = true →
                 (∃ response, r = Rejected (AxiosError (me_request s2) response))
                 ∧ localStorage s' = stored b (localStorage s))
            ∧ (first_status s2 = Some 401 → js_string (refresh_token b) ≠ "" →
               (answers_success (tail (tail (network s))) = None →
                  (∃ response,
                     r = Rejected (AxiosError
                                     (authService.refresh_request
                                        (js_string (refresh_token b))) response))
                  ∧ both_absent (localStorage s'))
               ∧ (∀ b3, answers_success (tail (tail (network s))) = Some b3 →
                    localStorage s' = stored b3 (stored b (localStorage s))
                    ∧ (∀ b4, answers_success (tail (tail (tail (network s)))) = Some b4 →
                         r = Resolved (AuthContext.MkLoginResult false)
                         ∧ user s' = Some (profile b4))
                    ∧ (answers_success (tail (tail (tail (network s)))) = None →
                         ∃ e, r = Rejected e))).
Proof.
  intros Hb. unfold AuthContext.login, authService.login. unfold_async.
  cbn -[authService.api_request authService.getCurrentUser].
  edestruct (api_request_success POST "/auth/login") as
    (st & txt & s1 & -> & Hio & Hnet & Hsent); [exact Hb|].
  destruct Hio as (Hls & Hss & Hlog & Hloc & Hnow & Huser & Hload).
  cbn -[authService.getCurrentUser]. cbn in Hnet, Hsent.
  destruct (requiresTwoFactor b); cbn -[authService.getCurrentUser].
  { do 2 eexists; split; [reflexivity|]. cbn. rewrite Hls, Hss, Hlog, Hnet. auto. }
  match goal with |- context [authService.getCurrentUser ?st] => set (s2 := st) end.
  assert (Hnet2 : network s2 = tail (network s)) by (subst s2; cbn; exact Hnet).
  assert (Hls2 : localStorage s2 = stored b (localStorage s))
    by (subst s2; cbn; rewrite Hls; reflexivity).
  assert (Hu2 : user s2 = user s) by (subst s2; cbn; exact Huser).
  assert (Hsent2 : sent s2 = sent s ++ [(ApiInstance, login_request email password s)])
    by (subst s2; cbn; exact Hsent).
  assert (Hrt : localStorage s2 !! "refreshToken" = Some (js_string (refresh_token b)))
    by (rewrite Hls2; unfold stored; apply lookup_insert_eq).
  pose proof (respects_getCurrentUser client_step_invariant s2) as Hstep.
  pose proof (total_getCurrentUser s2) as Htot.
  assert (Hsucc : ∀ b2, answers_success (tail (network s)) = Some b2 →
            ∃ s3, authService.getCurrentUser s2 = (Resolved (profile b2), s3)
                  ∧ localStorage s3 = localStorage s2).
  { intros b2 H2. rewrite <- Hnet2 in H2.
    destruct (getCurrentUser_success s2 b2 H2) as (s3 & E & (L & _) & _). eauto. }
  assert (Hfail : answers_failure (tail (network s)) = true →
            ∃ response s3,
              authService.getCurrentUser s2
              = (Rejected (AxiosError (me_request s2) response), s3)
              ∧ localStorage s3 = localStorage s2).
  { intros H2. rewrite <- Hnet2 in H2. by apply getCurrentUser_failure_error. }
  assert (Hrf : first_status s2 = Some 401 → js_string (refresh_token b) ≠ "" →
            answers_success (tail (tail (network s))) = None →
            ∃ response s3,
              authService.getCurrentUser s2
              = (Rejected (AxiosError (authService.refresh_request
                                         (js_string (refresh_token b))) response), s3)
              ∧ localStorage s3 = cleared_tokens (localStorage s2)).
  { intros H401 Hne H3. rewrite <- Hnet2 in H3.
    destruct (getCurrentUser_refresh_failed s2 _ H401 Hrt Hne H3)
      as (response & s3 & E & L & _). eauto. }
  assert (Hrs : first_status s2 = Some 401 → js_string (refresh_token b) ≠ "" →
            ∀ b3, answers_success (tail (tail (network s))) = Some b3 →
            ∃ r3 s3,
              authService.getCurrentUser s2 = (r3, s3)
              ∧ localStorage s3 = stored b3 (localStorage s2)
              ∧ (∀ b4, answers_success (tail (tail (tail (network s)))) = Some b4 →
                   r3 = Resolved (profile b4))
              ∧ (answers_success (tail (tail (tail (network s)))) = None →
                   ∃ e, r3 = Rejected e)).
  { intros H401 Hne b3 H3. rewrite <- Hnet2 in H3 |- *.
    destruct (getCurrentUser_refreshed s2 _ b3 H401 Hrt Hne H3)
      as (r3 & s3 & E & L & _ & _ & Hs3 & Hf3). eauto 10. }
  destruct (authService.getCurrentUser s2) as [[u|e|] s3] eqn:E; [| |done].
  all: destruct Hstep as ((d & Hd & Hp & _) & _ & Hu & _); cbn in Hd, Hu.
  all: do 2 eexists; (split; [reflexivity|]); cbn.
  all: split; [exists d; split; [|exact Hp]; rewrite Hd; subst s2; cbn;
               rewrite Hlog, <- !app_assoc; reflexivity|].
  - split; [left; eauto|]. exists s2.
    do 4 (split; [assumption|]).
    split; [intros u' s3'; rewrite E; by intros [= <- <-]|].
    split; [intros e' s3'; rewrite E; by intros [=]|].
    split; [rewrite E; discriminate|]. split.
    { intros b2 H2. destruct (Hsucc b2 H2) as (s3' & [= -> ->] & L). rewrite L, Hls2. auto. }
    split.
    { intros H2. destruct (Hfail H2) as (? & s3' & [=] & _). }
    intros H401 Hne. split.
    { intros H3. destruct (Hrf H401 Hne H3) as (? & s3' & [=] & _). }
    intros b3 H3. destruct (Hrs H401 Hne b3 H3) as (r3 & s3' & [= <- <-] & L & Hs3 & Hf3).
    split; [by rewrite L, Hls2|]. split.
    + intros b4 H4. by injection (Hs3 b4 H4) as ->.
    + intros H4. destruct (Hf3 H4) as (? & [=]).
  - assert (Hu3 : user s3 = user s) by (transitivity (user s2); [exact Hu | exact Hu2]).
    split; [right; exists e; split; [done | exact Hu3]|]. exists s2.
    do 4 (split; [assumption|]).
    split; [intros u' s3'; rewrite E; by intros [=]|].
    split; [intros e' s3'; rewrite E; by intros [= <- <-]|].
    split; [rewrite E; discriminate|]. split.
    { intros b2 H2. destruct (Hsucc b2 H2) as (s3' & [=] & _). }
    split.
    { intros H2. destruct (Hfail H2) as (response & s3' & [= -> ->] & L).
      rewrite L, Hls2. eauto. }
    intros H401 Hne. split.
    { intros H3. destruct (Hrf H401 Hne H3) as (response & s3' & [= -> ->] & L).
      split; [eauto|]. rewrite L. apply cleared_both. }
    intros b3 H3. destruct (Hrs H401 Hne b3 H3) as (r3 & s3' & [= <- <-] & L & Hs3 & Hf3).
    split; [by rewrite L, Hls2|]. split.
    + intros b4 H4. discriminate (Hs3 b4 H4).
    + eauto.
Qed.

(** ** [verifyTwoFactorLogin] *)

(** C5 (amended). Without a pending email [verifyTwoFactorLogin] rejects
    and changes nothing: no request, no token.  With a pending email and a
    code the backend accepts, it stores both tokens and fetches the current
    user; the pending email is removed when that fetch succeeds, and stays
    in sessionStorage when the fetch fails and the call rejects. *)
Theorem verifyTwoFactorLogin_outcome token s :
  ∃ r s',
    AuthContext.verifyTwoFactorLogin token s = (r, s')
    ∧ (truthy (sessionStorage s !! "twoFactorEmail") = false →
       r = Rejected (Error "Email not found for 2FA verification") ∧ s' = s)
    ∧ (∀ email b,
         sessionStorage s !! "twoFactorEmail" = Some email → email ≠ "" →
         answers_success (network s) = Some b →
         (∃ more, sent s' = sent s ++ (ApiInstance, twoFactorLogin_request email token s) :: more)
         ∧ (∃ writes, storeLog s' = storeLog s
                        ++ SetItem "accessToken" (js_string (access_token b))
                        :: SetItem "refreshToken" (js_string (refresh_token b)) :: writes
                      ∧ paired_writes writes)
         ∧ (r = Resolved tt ∧ sessionStorage s' = delete "twoFactorEmail" (sessionStorage s)
              ∧ is_Some (user s')
            ∨ ∃ e, r = Rejected e ∧ sessionStorage s' = sessionStorage s)
         ∧ (∀ b2, answers_success (tail (network s)) = Some b2 →
              r = Resolved tt ∧ user s' = Some (profile b2)
              ∧ localStorage s' = stored b (localStorage s))
         ∧ (answers_failure (tail (network s)) = true →
              (∃ e, r = Rejected e) ∧ localStorage s' = stored b (localStorage s))).
Proof.
  unfold AuthContext.verifyTwoFactorLogin, authService.verifyTwoFactorLogin. unfold_async.
  cbn -[authService.api_request authService.getCurrentUser].
  destruct (sessionStorage s !! "twoFactorEmail") as [email|] eqn:Hemail;
    cbn -[authService.api_request authService.getCurrentUser].
  2: { do 2 eexists; split; [reflexivity|]. split; [auto | intros ? ? [=]]. }
  destruct (String.eqb email "") eqn:Hne; cbn -[authService.api_request authService.getCurrentUser].
  { apply String.eqb_eq in Hne. subst email.
    do 2 eexists; split; [reflexivity|]. split; [auto | intros ? ? [= <-] ?; done]. }
  destruct (answers_success (network s)) as [b|] eqn:Hb.
  2: { match goal with |- context [authService.api_request ?m ?u ?ct ?p ?st] =>
         destruct (authService.api_request m u ct p st) as [[r1|e1|] s1] end.
       2,3: do 2 eexists; (split; [reflexivity|]); split; [intros [=] | intros ? ? _ _ [=]].
       cbn -[authService.getCurrentUser].
       destruct (authService.getCurrentUser _) as [[u|e|] s3];
         do 2 eexists; (split; [reflexivity|]); split;
         first [intros [=] | intros ? ? _ _ [=]]. }
  edestruct (api_request_success POST "/auth/2fa/login") as
    (st & txt & s1 & -> & Hio & Hnet & Hsent); [exact Hb|].
  destruct Hio as (Hls & Hss & Hlog & Hloc & Hnow & Huser & Hload).
  cbn -[authService.getCurrentUser].
  match goal with |- context [authService.getCurrentUser ?st] => set (s2 := st) end.
  assert (Hnet2 : network s2 = tail (network s)) by (subst s2; cbn; exact Hnet).
  assert (Hls2 : localStorage s2 = stored b (localStorage s))
    by (subst s2; cbn; rewrite Hls; reflexivity).
  pose proof (respects_getCurrentUser client_step_invariant s2) as Hstep.
  pose proof (respects_getCurrentUser (inv_client _ sent_grows_provider) s2) as [more Hmore].
  pose proof (total_getCurrentUser s2) as Htot.
  assert (Hsucc : ∀ b2, answers_success (tail (network s)) = Some b2 →
            ∃ s3, authService.getCurrentUser s2 = (Resolved (profile b2), s3)
                  ∧ localStorage s3 = localStorage s2).
  { intros b2 H2. rewrite <- Hnet2 in H2.
    destruct (getCurrentUser_success s2 b2 H2) as (s3 & E & (L & _) & _). eauto. }
  assert (Hfail : answers_failure (tail (network s)) = true →
            ∃ e s3, authService.getCurrentUser s2 = (Rejected e, s3)
                  ∧ localStorage s3 = localStorage s2).
  { intros H2. rewrite <- Hnet2 in H2.
    destruct (getCurrentUser_failure s2 H2) as (e & s3 & E & (L & _) & _). eauto. }
  destruct (authService.getCurrentUser s2) as [[u|e|] s3]; [| |done].
  all: destruct Hstep as ((d & Hd & Hp & _) & Hss3 & Hu & _); cbn in Hd, Hu, Hss3, Hmore.
  all: do 2 eexists; (split; [reflexivity|]); cbn.
  all: split; [intros [=]|].
  all: intros email' b' [= <-] _ [= <-].
  all: split; [exists more; rewrite Hmore; subst s2; cbn; rewrite Hsent, <- app_assoc;
               reflexivity|].
  all: split; [exists d; split; [|exact Hp]; rewrite Hd; subst s2; cbn;
               rewrite Hlog, <- !app_assoc; reflexivity|].
  - split; [left; rewrite Hss3; subst s2; cbn; rewrite Hss; eauto|]. split.
    + intros b2 H2. destruct (Hsucc b2 H2) as (s3' & [= -> ->] & L). rewrite L, Hls2. auto.
    + intros H2. destruct (Hfail H2) as (e & s3' & [=] & _).
  - split; [right; exists e; split; [done|]; rewrite Hss3; subst s2; cbn; exact Hss|]. split.
    + intros b2 H2. destruct (Hsucc b2 H2) as (s3' & [=] & _).
    + intros H2. destruct (Hfail H2) as (e' & s3' & [= -> ->] & L). rewrite L, Hls2. eauto.
Qed.

(** ** The startup check *)

(** [refreshToken] without a stored refresh token sends nothing and clears
    the stored pair; with one, its first request is the refresh. *)
Lemma refreshToken_sends s :
  (truthy (localStorage s !! "refreshToken") = false →
   sent (AuthContext.refreshToken s).2 = sent s)
  ∧ (∀ t, localStorage s !! "refreshToken" = Some t → t ≠ "" →
     ∃ more, sent (AuthContext.refreshToken s).2
             = sent s ++ (ApiInstance, context_refresh_request t s) :: more).
Proof.
  unfold AuthContext.refreshToken, authService.refreshToken. unfold_async.
  cbn -[authService.api_request authService.getCurrentUser].
  split.
  - intros ->. reflexivity.
  - intros t -> Ht. rewrite (truthy_Some t Ht).
    cbn -[authService.api_request authService.getCurrentUser].
    match goal with |- context [authService.api_request ?m ?u ?ct ?p ?st] =>
      destruct (api_request_sends m u ct p st) as [more Hmore];
      destruct (authService.api_request m u ct p st) as [[r|e|] s1] end.
    all: cbn -[authService.getCurrentUser] in *.
    2,3: exists more; rewrite Hmore; reflexivity.
    match goal with |- context [authService.getCurrentUser ?st] =>
      destruct (respects_getCurrentUser (inv_client _ sent_grows_provider) st) as [more2 H2];
      destruct (authService.getCurrentUser st) as [[u|e|] s2] end.
    all: cbn in *; exists (more ++ more2); rewrite H2, Hmore, <- app_assoc; reflexivity.
Qed.

Lemma try_catch_resolves {A} (m : Async A) h s :
  (∀ e s1, ∃ a s', h e s1 = (Resolved a, s')) →
  (try_catch m h s).1 ≠ OutOfFuel →
  ∃ a s', try_catch m h s = (Resolved a, s').
Proof.
  intros Hh. unfold try_catch. destruct (m s) as [[a|e|] s1]; cbn; [eauto | | done].
  intros _. apply Hh.
Qed.

(** [refreshToken] never rejects: its [catch] clause returns [false]. *)
Lemma refreshToken_resolves s :
  ∃ ok s', AuthContext.refreshToken s = (Resolved ok, s').
Proof.
  pose proof (total_refreshToken s) as Htot. revert Htot.
  unfold AuthContext.refreshToken.
  unfold mbind at 1, Async_bind at 1, console_log at 1. cbn -[try_catch].
  apply try_catch_resolves. intros e s1. unfold_async. cbn. eauto.
Qed.

Section StartupCheck.
Variable jwtDecode : string → option AuthContext.JwtPayload.

(** A stored token the check does not consider expired is used to fetch
    the current user: that request is the first one sent. *)
Lemma checkAuthStatus_fetches_user s token decoded :
  localStorage s !! "accessToken" = Some token → token ≠ "" →
  jwtDecode token = Some decoded →
  AuthContext.is_expired (AuthContext.exp decoded) (now s) = false →
  Authorization (me_request s) = Some ("Bearer " +:+ token)
  ∧ ∃ more, sent (AuthContext.checkAuthStatus jwtDecode s).2
            = sent s ++ (ApiInstance, me_request s) :: more.
Proof.
  intros Htok Hne Hdec Hexp. split.
  { unfold me_request, transmitted. cbn. rewrite Htok, (truthy_Some _ Hne). reflexivity. }
  unfold AuthContext.checkAuthStatus. unfold_async.
  cbn -[AuthContext.refreshToken authService.getCurrentUser].
  rewrite Htok, (truthy_Some _ Hne).
  cbn -[AuthContext.refreshToken authService.getCurrentUser].
  rewrite Hdec. cbn -[AuthContext.refreshToken authService.getCurrentUser].
  rewrite Hexp. cbn -[AuthContext.refreshToken authService.getCurrentUser].
  match goal with |- context [authService.getCurrentUser ?st] =>
    destruct (getCurrentUser_sends st) as [more Hmore];
    destruct (authService.getCurrentUser st) as [[u|e|] s1] end.
  all: cbn -[AuthContext.refreshToken] in *.
  1,3: exists more; rewrite Hmore; reflexivity.
  match goal with |- context [AuthContext.refreshToken ?st] =>
    destruct (respects_refreshToken sent_grows_provider st) as [more2 H2];
    destruct (refreshToken_resolves st) as (ok & s2 & E); rewrite E in * end.
  cbn in *. exists (more ++ more2). rewrite H2, Hmore, <- app_assoc. reflexivity.
Qed.

(** A stored token the check considers expired is not used: the check
    goes straight to [refreshToken]. *)
Lemma checkAuthStatus_refreshes s token decoded :
  localStorage s !! "accessToken" = Some token → token ≠ "" →
  jwtDecode token = Some decoded →
  AuthContext.is_expired (AuthContext.exp decoded) (now s) = true →
  (truthy (localStorage s !! "refreshToken") = false →
   sent (AuthContext.checkAuthStatus jwtDecode s).2 = sent s)
  ∧ (∀ t, localStorage s !! "refreshToken" = Some t → t ≠ "" →
     ∃ more, sent (AuthContext.checkAuthStatus jwtDecode s).2
             = sent s ++ (ApiInstance, context_refresh_request t s) :: more).
Proof.
  intros Htok Hne Hdec Hexp.
  unfold AuthContext.checkAuthStatus. unfold_async.
  cbn -[AuthContext.refreshToken authService.getCurrentUser].
  rewrite Htok, (truthy_Some _ Hne).
  cbn -[AuthContext.refreshToken authService.getCurrentUser].
  rewrite Hdec. cbn -[AuthContext.refreshToken authService.getCurrentUser].
  rewrite Hexp. cbn -[AuthContext.refreshToken authService.getCurrentUser].
  match goal with |- context [AuthContext.refreshToken ?st] =>
    destruct (refreshToken_sends st) as [Hnone Hsome];
    destruct (refreshToken_resolves st) as (ok & s2 & E); rewrite E in * end.
  cbn in *. split; [exact Hnone | exact Hsome].
Qed.

End StartupCheck.

(** C4 (the code at the failing input). An [exp] claim equal to 0 is
    present and lies before the current time, yet the truthiness test
    [decoded.exp && ...] reads it as "no expiry": the startup check fetches
    the current user with that token instead of refreshing. *)
Theorem checkAuthStatus_epoch_expiry jwtDecode s token decoded :
  localStorage s !! "accessToken" = Some token → token ≠ "" →
  jwtDecode token = Some decoded →
  AuthContext.exp decoded = Some 0 → 0 * 1000 < now s →
  Authorization (me_request s) = Some ("Bearer " +:+ token)
  ∧ ∃ more, sent (AuthContext.checkAuthStatus jwtDecode s).2
            = sent s ++ (ApiInstance, me_request s) :: more.
Proof.
  intros Htok Hne Hdec Hexp Hnow.
  apply (checkAuthStatus_fetches_user jwtDecode s token decoded); try assumption.
  rewrite Hexp. reflexivity.
Qed.

(** ** Console output of a login *)

Lemma api_request_declined m u ct p s :
  declined s →
  ∃ cfg response s',
    authService.api_request m u ct p s = (Rejected (AxiosError cfg response), s')
    ∧ payload cfg = p
    ∧ localStorage s' = localStorage s ∧ sessionStorage s' = sessionStorage s
    ∧ user s' = user s ∧ sent s' = sent s ++ [(ApiInstance, transmitted m u ct p s)].
Proof.
  intros [Hf | [H401 Hno]].
  - destruct (api_request_failure m u ct p s Hf) as (r & s' & E & Hio & _ & Hs).
    destruct Hio as (? & ? & ? & ? & ? & ? & ?). eauto 10.
  - unfold first_status in H401.
    unfold authService.api_request, authService.api_budget, transmitted.
    rewrite api_unfold. api_cases_eq s Htok.
    all: destruct (network s) as [|[st txt b'|] rest]; try discriminate.
    all: injection H401 as ->; cbn -[authService.api].
    all: rewrite Hno; cbn.
    all: do 3 eexists; split; [reflexivity|]; cbn; auto.
Qed.

(** C7 (the code at the failing input). When the backend declines the
    login request, the error object written to the console by [login] and
    by the login page carries the request configuration, whose form body
    holds the plaintext password. *)
Theorem failed_login_logs_password returnUrl values p s :
  declined s →
  ∃ cfg response s' p',
    LoginPage.handleSubmit returnUrl values p s = (Resolved p', s')
    ∧ payload cfg = URLSearchParams [("username", LoginPage.email values);
                                     ("password", LoginPage.password values)]
    ∧ error_entry "Login failed:" (AxiosError cfg response) ∈ console s'
    ∧ error_entry "LoginPage - Login error:" (AxiosError cfg response) ∈ console s'.
Proof.
  intros Hd. unfold LoginPage.handleSubmit, AuthContext.login, authService.login.
  unfold_async. cbn -[authService.api_request].
  match goal with |- context [authService.api_request ?m ?u ?ct ?q ?st] =>
    destruct (api_request_declined m u ct q st) as (cfg & response & s1 & E & Hp & _)
  end.
  { destruct Hd as [Hf | [H401 Hno]];
      [left; exact Hf | right; split; [exact H401 | exact Hno]]. }
  rewrite E. cbn.
  exists cfg, response. do 2 eexists. split; [reflexivity|].
  split; [exact Hp|]. cbn. unfold error_entry.
  split; [apply elem_of_app; left|]; apply elem_of_app; right; apply list_elem_of_singleton;
    reflexivity.
Qed.

(** ** The sessions page *)

(** C3 (the code as it is). The context value has no member [getSessions],
    [revokeSession] or [revokeAllOtherSessions]: each handler of the
    sessions page calls [undefined], the [TypeError] is caught, and the
    page shows its failure message without any request being sent. *)
Theorem sessions_page_calls_undefined p s :
  AuthContext.value s !! "getSessions" = None
  ∧ AuthContext.value s !! "revokeSession" = None
  ∧ AuthContext.value s !! "revokeAllOtherSessions" = None
  ∧ SessionsPage.fetchSessions p s
    = (Resolved (SessionsPage.setIsLoading false
                   (SessionsPage.setError "Failed to fetch sessions"
                      (SessionsPage.setIsLoading true p))), s)
  ∧ (∀ sessionId, ∃ p', SessionsPage.handleRevokeSession sessionId p s = (Resolved p', s)
       ∧ SessionsPage.error p' = "Failed to revoke session"
       ∧ SessionsPage.sessions p' = SessionsPage.sessions p)
  ∧ (∃ p', SessionsPage.handleRevokeAllOtherSessions p s = (Resolved p', s)
       ∧ SessionsPage.error p' = "Failed to revoke all other sessions").
Proof.
  repeat split; try reflexivity.
  - intros sessionId. eexists. split; [reflexivity|]. split; reflexivity.
  - eexists. split; reflexivity.
Qed.

(** ** The role protected route *)

Import RoleProtectedRoute.

(** C10 (amended). Once the provider has finished loading, an
    authenticated user sees the protected content exactly when the level of
    the user's role is at least the level of the required role; otherwise
    the user is sent to the dashboard.  Access is monotone in both roles,
    and a user without a role never sees the content. *)
Theorem role_access_monotone requiredRole s u :
  isLoading s = false → user s = Some u →
  (RoleProtectedRoute requiredRole s = Children
     ↔ roleHierarchy requiredRole ≤ userRoleLevel (Some u))
  ∧ (RoleProtectedRoute requiredRole s ≠ Children →
       RoleProtectedRoute requiredRole s = Navigate "/dashboard")
  ∧ (∀ s' u' lower,
       isLoading s' = false → user s' = Some u' →
       userRoleLevel (Some u) ≤ userRoleLevel (Some u') →
       roleHierarchy lower ≤ roleHierarchy requiredRole →
       RoleProtectedRoute requiredRole s = Children →
       RoleProtectedRoute lower s' = Children)
  ∧ (role u = None → RoleProtectedRoute requiredRole s = Navigate "/dashboard").
Proof.
  intros Hl Hu.
  assert (Hrender : ∀ rq s0 u0, isLoading s0 = false → user s0 = Some u0 →
            RoleProtectedRoute rq s0
            = if userRoleLevel (Some u0) <? roleHierarchy rq
              then Navigate "/dashboard" else Children).
  { intros rq s0 u0 H1 H2. unfold RoleProtectedRoute. rewrite H1, H2. reflexivity. }
  rewrite (Hrender _ _ _ Hl Hu).
  repeat split.
  - destruct (Z.ltb_spec (userRoleLevel (Some u)) (roleHierarchy requiredRole)); [discriminate | lia].
  - destruct (Z.ltb_spec (userRoleLevel (Some u)) (roleHierarchy requiredRole)); [lia | reflexivity].
  - destruct (_ <? _); [reflexivity | congruence].
  - intros s' u' lower Hl' Hu' Hle Hreq. rewrite (Hrender _ _ _ Hl' Hu').
    destruct (Z.ltb_spec (userRoleLevel (Some u)) (roleHierarchy requiredRole)); [discriminate|].
    destruct (Z.ltb_spec (userRoleLevel (Some u')) (roleHierarchy lower)); [lia | reflexivity].
  - intros Hr. unfold userRoleLevel. rewrite Hr. by destruct requiredRole.
Qed.

(** ** Validation of two-factor codes *)

Lemma is_digit_spec c : is_digit c = true ↔ c ∈ decimal_digits.
Proof.
  unfold decimal_digits. split.
  - intros H. destruct c as [[] [] [] [] [] [] [] []]; try discriminate H.
    all: set_solver.
  - intros H. repeat (apply elem_of_cons in H as [->|H]; [reflexivity|]).
    by apply elem_of_nil in H.
Qed.

Lemma digits_exactly_spec n v :
  digits_exactly n v = true
  ↔ String.length v = n ∧ Forall (λ c, c ∈ decimal_digits) (String.list_ascii_of_string v).
Proof.
  revert v. induction n as [|n IH]; intros [|c v]; cbn.
  - split; [auto | reflexivity].
  - split; [discriminate | intros [[=] _]].
  - split; [discriminate | intros [[=] _]].
  - rewrite andb_true_iff, IH, is_digit_spec, Forall_cons.
    split; [intros (Hc & <- & Hv) | intros ([= <-] & Hc & Hv)]; auto.
Qed.

Lemma six_digit_schema msg1 msg2 v :
  validate [required msg1; matches_six_digits msg2] v = [] ↔ digits_exactly 6 v = true.
Proof.
  unfold validate, required, matches_six_digits. cbn [omap list_omap].
  destruct (digits_exactly 6 v) eqn:Hd; destruct (String.eqb_spec v "") as [->|Hne].
  all: try discriminate Hd; split; congruence.
Qed.

(** C8. Both forms accept a code exactly when it is six decimal digits;
    with any other code, submitting calls no handler and leaves the browser
    state untouched, so nothing is sent. *)
Theorem two_factor_codes_validated :
  (∀ values p s,
     (VerifyTwoFactorPage.TwoFactorVerifySchema values = []
        ↔ String.length (VerifyTwoFactorPage.token values) = 6%nat
          ∧ Forall (λ c, c ∈ decimal_digits)
              (String.list_ascii_of_string (VerifyTwoFactorPage.token values)))
     ∧ (VerifyTwoFactorPage.TwoFactorVerifySchema values ≠ [] →
          VerifyTwoFactorPage.submit values p s = (Resolved p, s))
     ∧ (VerifyTwoFactorPage.TwoFactorVerifySchema values = [] →
          VerifyTwoFactorPage.submit values p s = VerifyTwoFactorPage.handleSubmit values p s))
  ∧ (∀ values p s,
     (SetupTwoFactorPage.TwoFactorSetupSchema values = []
        ↔ String.length (SetupTwoFactorPage.token values) = 6%nat
          ∧ Forall (λ c, c ∈ decimal_digits)
              (String.list_ascii_of_string (SetupTwoFactorPage.token values)))
     ∧ (SetupTwoFactorPage.TwoFactorSetupSchema values ≠ [] →
          SetupTwoFactorPage.submit values p s = (Resolved p, s))
     ∧ (SetupTwoFactorPage.TwoFactorSetupSchema values = [] →
          SetupTwoFactorPage.submit values p s = SetupTwoFactorPage.handleSubmit values p s)).
Proof.
  split; intros values p s.
  - unfold VerifyTwoFactorPage.submit, Formik_submit.
    split; [|destruct (VerifyTwoFactorPage.TwoFactorVerifySchema values); split; intros; (reflexivity || congruence)].
    unfold VerifyTwoFactorPage.TwoFactorVerifySchema.
    rewrite six_digit_schema. apply digits_exactly_spec.
  - unfold SetupTwoFactorPage.submit, Formik_submit.
    split; [|destruct (SetupTwoFactorPage.TwoFactorSetupSchema values); split; intros; (reflexivity || congruence)].
    unfold SetupTwoFactorPage.TwoFactorSetupSchema.
    rewrite six_digit_schema. apply digits_exactly_spec.
Qed.

(** ** The retry policy of the response interceptor *)

(** C2. A call of the [api] instance refreshes the tokens at most once and
    transmits its request at most twice, whatever the fuel: a refresh or a
    second transmission happens only when the first reply is a 401 and the
    request is not yet marked [_retry]; a marked request, or any other
    failure, is transmitted exactly once.  No call runs out of fuel, so the
    interceptor cannot loop. *)
Theorem api_retries_at_most_once fuel request s :
  (2 ≤ fuel)%nat →
  ∃ r s' delta,
    authService.api fuel request s = (r, s')
    ∧ authService.api fuel request s = authService.api authService.api_budget request s
    ∧ r ≠ OutOfFuel
    ∧ sent s' = sent s ++ delta
    ∧ (count is_refresh_call delta ≤ 1)%nat
    ∧ (1 ≤ count is_transmission delta ≤ 2)%nat
    ∧ (count is_refresh_call delta = 1%nat ∨ count is_transmission delta = 2%nat →
       first_status s = Some 401 ∧ _retry request = false)
    ∧ (_retry request = true ∨ first_status s ≠ Some 401 →
       ∃ request', delta = [(ApiInstance, request')]).
Proof.
  intros Hfuel. destruct fuel as [|[|fuel]]; [lia | lia | clear Hfuel].
  destruct (api_exchange request s) as (r & s' & delta & E & H).
  exists r, s', delta. rewrite api_fuel_enough. auto.
Qed.

Lemma api_retries_at_most_once_witness :
  (2 ≤ 5)%nat
  ∧ ∃ r s' delta,
      authService.api 5 (me_request (fresh_browser [])) (fresh_browser [wrong_password])
      = (r, s')
      ∧ r ≠ OutOfFuel
      ∧ sent s' = sent (fresh_browser [wrong_password]) ++ delta
      ∧ (count is_refresh_call delta ≤ 1)%nat
      ∧ (1 ≤ count is_transmission delta ≤ 2)%nat.
Proof.
  split; [lia|].
  destruct (api_retries_at_most_once 5 (me_request (fresh_browser []))
              (fresh_browser [wrong_password]) ltac:(lia))
    as (r & s' & delta & E & _ & Hr & Hs & Hc & Ht & _).
  exists r, s', delta. auto.
Defined.

(** ** The stored token pair *)

Lemma perform_all_paired jwtDecode ops s :
  paired (localStorage s) → paired (localStorage (perform_all jwtDecode ops s)).
Proof.
  revert s. induction ops as [|op ops IH]; intros s Hs; [exact Hs|].
  apply IH. eapply tracks_paired; [|exact Hs].
  apply (respects_perform tracks_provider).
Qed.

(** Run the next call of the instance, keeping what it cannot change. *)
Ltac run_api_request :=
  match goal with
  | |- context [authService.api_request ?m ?u ?ct ?p ?st] =>
      let H := fresh "Hstep" in
      let T := fresh "Htot" in
      pose proof (respects_api_request client_step_invariant m u ct p st) as H;
      pose proof (total_api_request m u ct p st) as T;
      destruct (authService.api_request m u ct p st) as [[?response|?e|] ?s];
      [| |done]; clear T; destruct H as (_ & ?Hss & ?Hu & ?Hl & _);
      cbn -[authService.api_request authService.getCurrentUser] in *
  end.

Ltac run_getCurrentUser :=
  match goal with
  | |- context [authService.getCurrentUser ?st] =>
      let H := fresh "Hstep" in
      let T := fresh "Htot" in
      pose proof (respects_getCurrentUser client_step_invariant st) as H;
      pose proof (total_getCurrentUser st) as T;
      destruct (authService.getCurrentUser st) as [[?userData|?e|] ?s];
      [| |done]; clear T; destruct H as (_ & ?Hss & ?Hu & ?Hl & _);
      cbn -[authService.api_request authService.getCurrentUser] in *
  end.

(** What a run of the provider's [refreshToken] leaves behind. *)
Lemma refreshToken_run s :
  ∃ ok s',
    AuthContext.refreshToken s = (Resolved ok, s')
    ∧ sessionStorage s' = sessionStorage s ∧ isLoading s' = isLoading s
    ∧ (ok = false → localStorage s' !! "accessToken" = None
                    ∧ localStorage s' !! "refreshToken" = None ∧ user s' = None)
    ∧ (ok = true → is_Some (user s'))
    ∧ (truthy (localStorage s !! "refreshToken") = false → ok = false ∧ sent s' = sent s).
Proof.
  unfold AuthContext.refreshToken, authService.refreshToken. unfold_async.
  cbn -[authService.api_request authService.getCurrentUser].
  destruct (truthy (localStorage s !! "refreshToken")) eqn:Hrt;
    cbn -[authService.api_request authService.getCurrentUser].
  2: { do 2 eexists. split; [reflexivity|]. cbn.
       rewrite lookup_delete_ne by done. rewrite !lookup_delete_eq.
       repeat split; try done; congruence. }
  run_api_request.
  2: { do 2 eexists. split; [reflexivity|]. cbn.
       rewrite lookup_delete_ne by done. rewrite !lookup_delete_eq.
       repeat split; try done; congruence. }
  run_getCurrentUser.
  all: do 2 eexists; (split; [reflexivity|]); cbn.
  all: repeat split; try done; try congruence; eauto.
  all: rewrite ?lookup_delete_eq; try done.
  all: rewrite lookup_delete_ne by done; apply lookup_delete_eq.
Qed.

Ltac run_refreshToken :=
  match goal with
  | |- context [AuthContext.refreshToken ?st] =>
      let E := fresh "E" in
      destruct (refreshToken_run st) as (?ok & ?s & E & ?Hss & ?Hl & ?Hfalse & ?Htrue & ?Hq);
      rewrite E;
      cbn -[AuthContext.refreshToken authService.getCurrentUser] in *
  end.








(** ** The two-factor setup page *)

(** C6. For a user with two-factor already enabled the page sends nothing
    and navigates to the profile; the enrollment request is sent exactly
    for a user with two-factor disabled. *)
Theorem setup_page_guard p s :
  (∀ u, user s = Some u → isTwoFactorEnabled u = true →
     sent (SetupTwoFactorPage.effect p s).2 = sent s
     ∧ location (SetupTwoFactorPage.effect p s).2 = location s ++ ["/profile"])
  ∧ ((∃ more, sent (SetupTwoFactorPage.effect p s).2
              = sent s ++ (ApiInstance, setup_request s) :: more)
     ↔ ∃ u, user s = Some u ∧ isTwoFactorEnabled u = false)
  ∧ (sent (SetupTwoFactorPage.effect p s).2 ≠ sent s →
     ∃ u, user s = Some u ∧ isTwoFactorEnabled u = false).
Proof.
  assert (Hsetup : ∃ more, sent (SetupTwoFactorPage.generateTwoFactorSetup p s).2
                           = sent s ++ (ApiInstance, setup_request s) :: more).
  { unfold SetupTwoFactorPage.generateTwoFactorSetup, AuthContext.setupTwoFactor,
      authService.setupTwoFactor. unfold_async. cbn -[authService.api_request].
    destruct (api_request_sends POST "/auth/2fa/setup" authService.json NoPayload s)
      as [more Hmore].
    destruct (authService.api_request _ _ _ _ s) as [[r|e|] s1]; cbn in *; eauto. }
  assert (Hno : ∀ to more, sent (with_location to s) ≠ sent s ++ (ApiInstance, setup_request s) :: more).
  { intros to more H. cbn in H. apply (f_equal length) in H.
    rewrite length_app in H. cbn in H. lia. }
  unfold SetupTwoFactorPage.effect in *.
  destruct (user s) as [u|]; [destruct (isTwoFactorEnabled u) eqn:H2fa|]; cbn.
  - split; [auto|]. split; [split|].
    + intros [more H]. by apply Hno in H.
    + intros (u' & [= <-] & H'). congruence.
    + intros H. by destruct H.
  - split; [intros u' [= <-] H'; congruence|]. split; [split; eauto|eauto].
  - split; [intros u' [=]|]. split; [split|].
    + intros [more H]. by apply Hno in H.
    + intros (u' & [=] & _).
    + intros H. by destruct H.
Qed.

(** ** What the console can depend on *)

Lemma blind_eq {A} (m : Async A) s1 s2 :
  blind m → forget_sent s1 = forget_sent s2 → observe (m s1) = observe (m s2).
Proof. intros Hm H. rewrite (Hm s1), (Hm s2), H. reflexivity. Qed.

Lemma blind_ret {A} (a : A) : blind (mret a).
Proof. intros s. reflexivity. Qed.

Lemma blind_throw {A} e : blind (@throw A e).
Proof. intros s. reflexivity. Qed.

Lemma blind_out_of_fuel {A} : blind (@out_of_fuel A).
Proof. intros s. reflexivity. Qed.

Lemma blind_bind {A B} (m : Async A) (f : A → Async B) :
  blind m → (∀ a, blind (f a)) → blind (m ≫= f).
Proof.
  intros Hm Hf s. specialize (Hm s). unfold mbind, Async_bind.
  destruct (m s) as [[a|e|] s1], (m (forget_sent s)) as [[a'|e'|] s1'];
    unfold observe in Hm; cbn [fst snd] in Hm; try discriminate Hm.
  - assert (a = a') as -> by congruence.
    apply blind_eq; [apply Hf | congruence].
  - unfold observe; cbn [fst snd]; congruence.
  - unfold observe; cbn [fst snd]; congruence.
Qed.

Lemma blind_try_catch {A} (m : Async A) h :
  blind m → (∀ e, blind (h e)) → blind (try_catch m h).
Proof.
  intros Hm Hh s. specialize (Hm s). unfold try_catch.
  destruct (m s) as [[a|e|] s1], (m (forget_sent s)) as [[a'|e'|] s1'];
    unfold observe in Hm; cbn [fst snd] in Hm; try discriminate Hm.
  - unfold observe; cbn [fst snd]; congruence.
  - assert (e = e') as -> by congruence.
    apply blind_eq; [apply Hh | congruence].
  - unfold observe; cbn [fst snd]; congruence.
Qed.

Lemma blind_settle {A} (m : Async A) : blind m → blind (settle m).
Proof.
  intros Hm s. specialize (Hm s). unfold settle.
  destruct (m s) as [[a|e|] s1], (m (forget_sent s)) as [[a'|e'|] s1'];
    unfold observe in *; cbn [fst snd] in *; congruence.
Qed.

Lemma blind_axios c r : blind (axios c r).
Proof.
  intros s. unfold axios. cbn.
  destruct (network s) as [|[st txt b|] rest]; [|destruct (_ && _)|]; reflexivity.
Qed.

Ltac blind_step :=
  lazymatch goal with
  | |- blind (_ ≫= _) => apply blind_bind; [|intros ?]
  | |- blind (mret _) => apply blind_ret
  | |- blind (throw _) => apply blind_throw
  | |- blind out_of_fuel => apply blind_out_of_fuel
  | |- blind (try_catch _ _) => apply blind_try_catch; [|intros ?]
  | |- blind (settle _) => apply blind_settle
  | |- blind (axios _ _) => apply blind_axios
  | |- blind (if ?b then _ else _) => destruct b
  | |- blind (match ?x with _ => _ end) => destruct x
  | |- blind (console_log _ _) => intros ?; reflexivity
  | |- blind (console_error _ _) => intros ?; reflexivity
  | |- blind (navigate _) => intros ?; reflexivity
  | |- blind (localStorage_getItem _) => intros ?; reflexivity
  | |- blind (localStorage_setItem _ _) => intros ?; reflexivity
  | |- blind (localStorage_removeItem _) => intros ?; reflexivity
  end.

Lemma blind_response_error api error :
  (∀ r, blind (api r)) → blind (authService.response_error api error).
Proof.
  intros Hapi. unfold authService.response_error.
  repeat first [blind_step | apply Hapi].
Qed.

Lemma blind_api fuel request : blind (authService.api fuel request).
Proof.
  revert request. induction fuel as [|fuel IH]; intros request; simpl.
  - apply blind_out_of_fuel.
  - apply blind_bind; [unfold authService.request_interceptor; repeat blind_step | intros request'].
    apply blind_bind; [apply blind_settle, blind_axios | intros [response|error]].
    + repeat blind_step.
    + apply blind_response_error, IH.
Qed.

Lemma blind_getCurrentUser : blind authService.getCurrentUser.
Proof.
  unfold authService.getCurrentUser, authService.api_request.
  repeat lazymatch goal with
         | |- blind (authService.api _ _) => apply blind_api
         | _ => blind_step
         end.
Qed.

Lemma api_request_accepted_log m u ct p s b st :
  answers_success (network s) = Some b → first_status s = Some st →
  console (authService.api_request m u ct p s).2 = console s ++ accepted_log m u st s.
Proof.
  unfold answers_success, first_status, is_success, authService.api_request,
    authService.api_budget, accepted_log.
  intros Hb Hst. rewrite api_unfold. api_cases_eq s Htok.
  all: destruct (network s) as [|[st' txt b'|] rest]; try discriminate.
  all: injection Hst as ->; cbn -[authService.api].
  all: destruct ((200 <=? st) && (st <? 300)); [|discriminate].
  all: cbn; rewrite <- !app_assoc; reflexivity.
Qed.

Lemma forget_sent_eq s1 s2 :
  localStorage s1 = localStorage s2 → sessionStorage s1 = sessionStorage s2 →
  storeLog s1 = storeLog s2 → console s1 = console s2 → location s1 = location s2 →
  network s1 = network s2 → now s1 = now s2 → user s1 = user s2 →
  isLoading s1 = isLoading s2 →
  forget_sent s1 = forget_sent s2.
Proof. unfold forget_sent. by intros -> -> -> -> -> -> -> -> ->. Qed.

(** An accepted request leaves the same state, the trace apart, whatever
    its payload. *)
Lemma api_request_accepted_payload m u ct p1 p2 s b :
  answers_success (network s) = Some b →
  ∃ r1 r2 s1 s2,
    authService.api_request m u ct p1 s = (Resolved r1, s1)
    ∧ authService.api_request m u ct p2 s = (Resolved r2, s2)
    ∧ data r1 = b ∧ data r2 = b
    ∧ forget_sent s1 = forget_sent s2.
Proof.
  intros Hb.
  assert (Hst : ∃ st, first_status s = Some st).
  { unfold answers_success, first_status in *.
    destruct (network s) as [|[st txt b'|] rest]; try discriminate. eauto. }
  destruct Hst as [st Hst].
  pose proof (api_request_accepted_log m u ct p1 s b st Hb Hst) as Hc1.
  pose proof (api_request_accepted_log m u ct p2 s b st Hb Hst) as Hc2.
  destruct (api_request_success m u ct p1 s b Hb) as (st1' & txt1 & s1 & E1 & Hio1 & Hn1 & _).
  destruct (api_request_success m u ct p2 s b Hb) as (st2' & txt2 & s2 & E2 & Hio2 & Hn2 & _).
  rewrite E1 in Hc1. rewrite E2 in Hc2. cbn in Hc1, Hc2.
  do 2 eexists. exists s1, s2. split; [exact E1|]. split; [exact E2|].
  split; [reflexivity|]. split; [reflexivity|].
  destruct Hio1 as (? & ? & ? & ? & ? & ? & ?), Hio2 as (? & ? & ? & ? & ? & ? & ?).
  apply forget_sent_eq; congruence.
Qed.

(** The login response is logged with both tokens replaced. *)
Lemma redacted_hides_tokens b :
  access_token (AuthContext.redacted b) ∈ [None; Some "[REDACTED]"]
  ∧ refresh_token (AuthContext.redacted b) ∈ [None; Some "[REDACTED]"].
Proof.
  unfold AuthContext.redacted. cbn.
  destruct (truthy (access_token b)), (truthy (refresh_token b)); set_solver.
Qed.

(** X16. For a login the backend accepts, the console does not depend on the
    password. *)
Lemma accepted_login_console_independent returnUrl email password1 password2 rm p s b :
  answers_success (network s) = Some b →
  console (LoginPage.handleSubmit returnUrl
             {| LoginPage.email := email; LoginPage.password := password1;
                LoginPage.rememberMe := rm |} p s).2
  = console (LoginPage.handleSubmit returnUrl
               {| LoginPage.email := email; LoginPage.password := password2;
                  LoginPage.rememberMe := rm |} p s).2.
Proof.
  intros Hb. unfold LoginPage.handleSubmit, AuthContext.login, authService.login.
  unfold_async. cbn -[authService.api_request authService.getCurrentUser].
  match goal with
  | |- context [authService.api_request _ _ _ _ ?st] =>
      destruct (api_request_accepted_payload POST "/auth/login" authService.urlencoded
                  (URLSearchParams [("username", email); ("password", password1)])
                  (URLSearchParams [("username", email); ("password", password2)]) st b Hb)
        as (r1 & r2 & s1 & s2 & E1 & E2 & D1 & Hd & Hf)
  end.
  rewrite E1, E2.
  cbn -[authService.getCurrentUser]. rewrite D1, Hd.
  assert (Hfield : ∀ {T} (f : State → T), (∀ x, f (forget_sent x) = f x) → f s1 = f s2).
  { intros T f Hx. rewrite <- (Hx s1), <- (Hx s2), Hf. reflexivity. }
  assert (Hcons : console s1 = console s2) by (by apply (Hfield _ console)).
  destruct (requiresTwoFactor b); cbn -[authService.getCurrentUser].
  { rewrite Hcons. reflexivity. }
  match goal with
  | |- ?lhs = ?rhs =>
      match lhs with
      | context [authService.getCurrentUser ?st1] =>
          match rhs with
          | context [authService.getCurrentUser ?st2] =>
              assert (Hobs : observe (authService.getCurrentUser st1)
                             = observe (authService.getCurrentUser st2));
              [ apply (blind_eq _ _ _ blind_getCurrentUser), forget_sent_eq; cbn;
                rewrite ?Hcons, ?(Hfield _ localStorage (λ x, eq_refl)),
                  ?(Hfield _ storeLog (λ x, eq_refl));
                first [reflexivity | by apply (Hfield _ _)]
              | destruct (authService.getCurrentUser st1) as [[u1|e1|] s31],
                         (authService.getCurrentUser st2) as [[u2|e2|] s32] ]
          end
      end
  end.
  all: unfold observe in Hobs; cbn [fst snd] in Hobs; try discriminate Hobs.
  all: assert (Hs : forget_sent s31 = forget_sent s32) by congruence.
  all: apply (f_equal console) in Hs; cbn in Hs.
  all: try (assert (u1 = u2) as -> by congruence).
  all: try (assert (e1 = e2) as -> by congruence).
  all: cbn; rewrite Hs; reflexivity.
Qed.

(** ** Examples *)

Lemma login_outcome_witness :
  answers_success
    (network (fresh_browser [HttpReply 200 "OK" (token_body "access-1" "refresh-1");
                             HttpReply 200 "OK" plain_body]))
  = Some (token_body "access-1" "refresh-1")
  ∧ ∃ s', AuthContext.login "alice@example.com" "hunter2"
            (fresh_browser [HttpReply 200 "OK" (token_body "access-1" "refresh-1");
                            HttpReply 200 "OK" plain_body])
          = (Resolved (AuthContext.MkLoginResult false), s')
          ∧ user s' = Some alice.
Proof.
  split; [reflexivity|].
  destruct (login_outcome "alice@example.com" "hunter2"
              (fresh_browser [HttpReply 200 "OK" (token_body "access-1" "refresh-1");
                              HttpReply 200 "OK" plain_body])
              (token_body "access-1" "refresh-1") eq_refl)
    as (r & s' & E & H).
  cbn in H. destruct H as (_ & _ & s2 & _ & _ & _ & _ & _ & _ & _ & Hs & _).
  destruct (Hs plain_body eq_refl) as (-> & Hu & _). eauto.
Defined.

(** The login request succeeds without two-factor, the tokens are stored,
    but the fetch of the current user fails: [login] rejects instead of
    returning [{ requiresTwoFactor: false }]. *)
Lemma login_counterexample :
  answers_success
    (network (fresh_browser [HttpReply 200 "OK" (token_body "access-1" "refresh-1");
                             server_error]))
  = Some (token_body "access-1" "refresh-1")
  ∧ requiresTwoFactor (token_body "access-1" "refresh-1") = false
  ∧ (AuthContext.login "alice@example.com" "hunter2"
       (fresh_browser [HttpReply 200 "OK" (token_body "access-1" "refresh-1");
                       server_error])).1
    ≠ Resolved (AuthContext.MkLoginResult false)
  ∧ localStorage
      (AuthContext.login "alice@example.com" "hunter2"
         (fresh_browser [HttpReply 200 "OK" (token_body "access-1" "refresh-1");
                         server_error])).2 !! "accessToken"
    = Some "access-1".
Proof.
  split; [reflexivity|]. split; [reflexivity|].
  split; [vm_compute; discriminate | vm_compute; reflexivity].
Qed.

(** The backend accepts the code and the tokens are stored, but the fetch
    of the current user fails: the pending email stays in sessionStorage. *)
Lemma verifyTwoFactorLogin_counterexample :
  sessionStorage
    (pending_browser [HttpReply 200 "OK" (token_body "access-1" "refresh-1"); server_error])
    !! "twoFactorEmail" = Some "alice@example.com"
  ∧ answers_success
      (network (pending_browser [HttpReply 200 "OK" (token_body "access-1" "refresh-1");
                                 server_error]))
    = Some (token_body "access-1" "refresh-1")
  ∧ localStorage
      (AuthContext.verifyTwoFactorLogin "123456"
         (pending_browser [HttpReply 200 "OK" (token_body "access-1" "refresh-1");
                           server_error])).2 !! "accessToken"
    = Some "access-1"
  ∧ sessionStorage
      (AuthContext.verifyTwoFactorLogin "123456"
         (pending_browser [HttpReply 200 "OK" (token_body "access-1" "refresh-1");
                           server_error])).2 !! "twoFactorEmail"
    = Some "alice@example.com".
Proof. repeat split; vm_compute; reflexivity. Qed.

Lemma checkAuthStatus_epoch_expiry_witness :
  localStorage (returning_browser "expired-at-epoch" "refresh-0" [HttpReply 200 "OK" plain_body])
    !! "accessToken" = Some "expired-at-epoch"
  ∧ "expired-at-epoch" ≠ ""
  ∧ epoch_decoder "expired-at-epoch" = Some {| AuthContext.exp := Some 0 |}
  ∧ 0 * 1000 < now (returning_browser "expired-at-epoch" "refresh-0"
                      [HttpReply 200 "OK" plain_body])
  ∧ ∃ more,
      sent (AuthContext.checkAuthStatus epoch_decoder
              (returning_browser "expired-at-epoch" "refresh-0"
                 [HttpReply 200 "OK" plain_body])).2
      = sent (returning_browser "expired-at-epoch" "refresh-0" [HttpReply 200 "OK" plain_body])
        ++ (ApiInstance,
            me_request (returning_browser "expired-at-epoch" "refresh-0"
                          [HttpReply 200 "OK" plain_body])) :: more.
Proof.
  assert (H1 : localStorage (returning_browser "expired-at-epoch" "refresh-0"
                               [HttpReply 200 "OK" plain_body])
                 !! "accessToken" = Some "expired-at-epoch") by (vm_compute; reflexivity).
  assert (H2 : "expired-at-epoch" ≠ "") by discriminate.
  assert (H3 : 0 * 1000 < now (returning_browser "expired-at-epoch" "refresh-0"
                                 [HttpReply 200 "OK" plain_body])) by (cbn; lia).
  repeat (split; [first [exact H1 | exact H2 | exact H3 | reflexivity]|]).
  exact (proj2 (checkAuthStatus_epoch_expiry epoch_decoder _ "expired-at-epoch"
                  {| AuthContext.exp := Some 0 |} H1 H2 eq_refl eq_refl H3)).
Defined.

(** The epoch token is used as it is, and no refresh is attempted. *)
Lemma checkAuthStatus_epoch_expiry_run :
  sent (AuthContext.checkAuthStatus epoch_decoder
          (returning_browser "expired-at-epoch" "refresh-0"
             [HttpReply 200 "OK" plain_body])).2
  = [(ApiInstance,
      {| method := GET; url := "/auth/me"; baseURL := "/api";
         contentType := "application/json";
         Authorization := Some "Bearer expired-at-epoch";
         payload := NoPayload; _retry := false |})].
Proof. vm_compute. reflexivity. Qed.

Lemma failed_login_logs_password_witness :
  declined (fresh_browser [wrong_password])
  ∧ ∃ cfg response s' p',
      LoginPage.handleSubmit "/dashboard" (login_values "hunter2") login_page
        (fresh_browser [wrong_password]) = (Resolved p', s')
      ∧ payload cfg = URLSearchParams [("username", "alice@example.com");
                                       ("password", "hunter2")]
      ∧ error_entry "Login failed:" (AxiosError cfg response) ∈ console s'.
Proof.
  assert (Hd : declined (fresh_browser [wrong_password])).
  { right. split; reflexivity. }
  split; [exact Hd|].
  destruct (failed_login_logs_password "/dashboard" (login_values "hunter2") login_page
              (fresh_browser [wrong_password]) Hd)
    as (cfg & response & s' & p' & E & Hp & Hin & _).
  exists cfg, response, s', p'. auto.
Defined.

(** Two login attempts that differ only in the password, answered alike by
    the backend, leave different console output. *)
Lemma login_console_depends_on_password :
  console (LoginPage.handleSubmit "/dashboard" (login_values "hunter2") login_page
             (fresh_browser [wrong_password])).2
  ≠ console (LoginPage.handleSubmit "/dashboard" (login_values "letmein") login_page
               (fresh_browser [wrong_password])).2.
Proof. vm_compute. intros H. discriminate H. Qed.

(** While the provider is loading, an administrator does not get the
    content a viewer may see. *)
Lemma role_access_counterexample :
  is_Some (user loading_browser)
  ∧ RoleProtectedRoute.roleHierarchy viewer
    ≤ RoleProtectedRoute.userRoleLevel (user loading_browser)
  ∧ RoleProtectedRoute.RoleProtectedRoute viewer loading_browser
    = RoleProtectedRoute.LoadingSpinner
  ∧ ¬ (RoleProtectedRoute.RoleProtectedRoute viewer loading_browser
       = RoleProtectedRoute.Children
       ↔ RoleProtectedRoute.roleHierarchy viewer
         ≤ RoleProtectedRoute.userRoleLevel (user loading_browser)).
Proof.
  split; [by eexists|]. split; [cbn; lia|]. split; [reflexivity|].
  intros [_ H]. cbn in H. discriminate H. lia.
Qed.

Lemma role_access_monotone_witness :
  isLoading (signed_in_browser alice []) = false
  ∧ user (signed_in_browser alice []) = Some alice
  ∧ RoleProtectedRoute.RoleProtectedRoute editor (signed_in_browser alice [])
    = RoleProtectedRoute.Children.
Proof.
  split; [reflexivity|]. split; [reflexivity|].
  apply (proj1 (role_access_monotone editor (signed_in_browser alice []) alice
                  eq_refl eq_refl)).
  cbn. lia.
Defined.

Lemma verifyTwoFactorLogin_outcome_witness :
  ∃ s', AuthContext.verifyTwoFactorLogin "123456"
          (pending_browser [HttpReply 200 "OK" (token_body "access-1" "refresh-1");
                            HttpReply 200 "OK" plain_body])
        = (Resolved tt, s')
        ∧ user s' = Some alice
        ∧ localStorage s' = stored (token_body "access-1" "refresh-1") ∅.
Proof.
  destruct (verifyTwoFactorLogin_outcome "123456"
              (pending_browser [HttpReply 200 "OK" (token_body "access-1" "refresh-1");
                                HttpReply 200 "OK" plain_body]))
    as (r & s' & E & _ & H).
  destruct (H "alice@example.com" (token_body "access-1" "refresh-1")
              eq_refl ltac:(discriminate) eq_refl) as (_ & _ & _ & Hs & _).
  destruct (Hs plain_body eq_refl) as (-> & Hu & Hl). eauto.
Defined.

Lemma setup_page_guard_witness :
  sent (SetupTwoFactorPage.effect setup_page (signed_in_browser bob [])).2 = []
  ∧ location (SetupTwoFactorPage.effect setup_page (signed_in_browser bob [])).2
    = ["/profile"].
Proof.
  exact (proj1 (setup_page_guard setup_page (signed_in_browser bob [])) bob eq_refl eq_refl).
Defined.

Lemma two_factor_codes_validated_witness :
  VerifyTwoFactorPage.submit {| VerifyTwoFactorPage.token := "12345a" |} verify_page
    (pending_browser [HttpReply 200 "OK" (token_body "access-1" "refresh-1")])
  = (Resolved verify_page,
     pending_browser [HttpReply 200 "OK" (token_body "access-1" "refresh-1")]).
Proof.
  apply (proj1 two_factor_codes_validated). discriminate.
Defined.

(** * Further properties *)

(** ** The interceptors, case by case *)

(** X1. Unless the first reply is a 401, a call of the [api] instance is
    one exchange: the request goes out once with the stored access token as
    bearer, nothing is refreshed, stored or navigated, and the outcome is
    the reply's. *)
Theorem api_quiet_without_401 request s :
  first_status s ≠ Some 401 →
  ∃ r s',
    authService.api authService.api_budget request s = (r, s')
    ∧ io_only s s' ∧ network s' = tail (network s)
    ∧ sent s' = sent s ++ [(ApiInstance, with_bearer request s)]
    ∧ (∀ b, answers_success (network s) = Some b →
         ∃ st txt, r = Resolved {| status := st; statusText := txt; data := b;
                                   config := with_bearer request s |})
    ∧ (answers_success (network s) = None →
         ∃ response, r = Rejected (AxiosError (with_bearer request s) response)).
Proof.
  intros H401. unfold first_status, answers_success, is_success, with_bearer, io_only,
    authService.set_Authorization, authService.api_budget in *.
  rewrite api_unfold. api_cases_eq s Htok.
  all: destruct (network s) as [|[st txt b|] rest]; cbn -[authService.api].
  all: try (destruct ((200 <=? st) && (st <? 300)) eqn:Hok; cbn -[authService.api]).
  all: try (destruct (st =? 401) eqn:E401;
            [apply Z.eqb_eq in E401; subst st; by destruct H401 |]; cbn).
  all: do 2 eexists; split; [reflexivity|]; cbn.
  all: split; [repeat split|].
  all: do 2 (split; [reflexivity|]).
  all: split; [intros b0 [=]; subst; eauto | intros [=]; eauto].
Qed.

Lemma api_quiet_without_401_witness :
  first_status (fresh_browser [server_error]) ≠ Some 401
  ∧ ∃ r s',
      authService.api authService.api_budget (me_request (fresh_browser []))
        (fresh_browser [server_error]) = (r, s')
      ∧ io_only (fresh_browser [server_error]) s'.
Proof.
  assert (H : first_status (fresh_browser [server_error]) ≠ Some 401) by discriminate.
  split; [exact H|].
  destruct (api_quiet_without_401 (me_request (fresh_browser []))
              (fresh_browser [server_error]) H) as (r & s' & E & Hio & _).
  eauto.
Defined.

(** X2. A 401 with no refresh token stored: no refresh call is made and the
    request is not sent again; the stored tokens are left as they are, the
    browser is sent to /login, and the caller gets the original 401 error. *)
Theorem interceptor_without_refresh_token request s :
  first_status s = Some 401 → _retry request = false →
  truthy (localStorage s !! "refreshToken") = false →
  ∃ response s',
    authService.api authService.api_budget request s
    = (Rejected (AxiosError (authService.mark_retry (with_bearer request s))
                   (Some response)), s')
    ∧ status response = 401
    ∧ localStorage s' = localStorage s ∧ storeLog s' = storeLog s
    ∧ location s' = location s ++ ["/login"]
    ∧ sent s' = sent s ++ [(ApiInstance, with_bearer request s)].
Proof.
  intros H401 Hm Hno. unfold first_status, with_bearer,
    authService.set_Authorization, authService.api_budget in *.
  rewrite api_unfold. api_cases_eq s Htok.
  all: destruct (network s) as [|[st txt b|] rest]; try discriminate.
  all: injection H401 as ->; cbn -[authService.api].
  all: rewrite Hm; cbn -[authService.api]; rewrite Hno; cbn.
  all: do 2 eexists; split; [reflexivity|]; cbn; auto.
Qed.

Lemma interceptor_without_refresh_token_witness :
  first_status (fresh_browser [wrong_password]) = Some 401
  ∧ truthy (localStorage (fresh_browser [wrong_password]) !! "refreshToken") = false
  ∧ ∃ e s',
      authService.api authService.api_budget (me_request (fresh_browser []))
        (fresh_browser [wrong_password]) = (Rejected e, s')
      ∧ location s' = ["/login"]
      ∧ length (sent s') = 1%nat.
Proof.
  split; [reflexivity|]. split; [reflexivity|].
  destruct (interceptor_without_refresh_token (me_request (fresh_browser []))
              (fresh_browser [wrong_password]) eq_refl eq_refl eq_refl)
    as (response & s' & E & _ & _ & _ & Hloc & Hsent).
  eexists _, s'. split; [exact E|]. split; [exact Hloc|]. rewrite Hsent. reflexivity.
Defined.

(** X3. A 401 whose refresh call fails, in whatever way: both stored tokens
    are removed, the browser is sent to /login, the original request is not
    sent again, and the caller gets the error of the refresh call. *)
Theorem interceptor_refresh_failure request s t :
  first_status s = Some 401 → _retry request = false →
  localStorage s !! "refreshToken" = Some t → t ≠ "" →
  answers_success (tail (network s)) = None →
  ∃ response s',
    authService.api authService.api_budget request s
    = (Rejected (AxiosError (authService.refresh_request t) response), s')
    ∧ localStorage s' = delete "refreshToken" (delete "accessToken" (localStorage s))
    ∧ storeLog s' = storeLog s ++ [RemoveItem "accessToken"; RemoveItem "refreshToken"]
    ∧ location s' = location s ++ ["/login"]
    ∧ sent s' = sent s ++ [(ApiInstance, with_bearer request s);
                           (GlobalAxios, authService.refresh_request t)].
Proof.
  intros H401 Hm Ht Hne Hfail. unfold first_status, answers_success, is_success, with_bearer,
    authService.set_Authorization, authService.api_budget in *.
  rewrite api_unfold. api_cases_eq s Htok.
  all: destruct (network s) as [|[st txt b|] rest]; try discriminate.
  all: injection H401 as ->; cbn -[authService.api] in *.
  all: rewrite Hm; cbn -[authService.api]; rewrite Ht, (truthy_Some t Hne); cbn -[authService.api].
  all: destruct rest as [|[st2 txt2 b2|] rest]; cbn -[authService.api] in *.
  all: try (destruct ((200 <=? st2) && (st2 <? 300)); [discriminate|]; cbn).
  all: do 2 eexists; split; [reflexivity|]; cbn; rewrite <- ?app_assoc; auto.
Qed.

Lemma interceptor_refresh_failure_witness :
  ∃ e s',
    authService.api authService.api_budget (me_request (fresh_browser []))
      (returning_browser "access-0" "refresh-0" [wrong_password; wrong_password])
    = (Rejected e, s')
    ∧ localStorage s' = delete "refreshToken"
                          (delete "accessToken"
                             (localStorage (returning_browser "access-0" "refresh-0" [])))
    ∧ location s' = ["/login"].
Proof.
  destruct (interceptor_refresh_failure (me_request (fresh_browser []))
              (returning_browser "access-0" "refresh-0" [wrong_password; wrong_password])
              "refresh-0" eq_refl eq_refl eq_refl ltac:(discriminate) eq_refl)
    as (response & s' & E & Hl & _ & Hloc & _).
  eexists _, s'. split; [exact E|]. split; [exact Hl | exact Hloc].
Defined.

(** X4. A 401 followed by a successful refresh: the new token pair is
    stored, the same call is sent once more, marked [_retry] and carrying
    the new access token as bearer, and the caller gets the outcome of that
    second transmission. *)
Theorem interceptor_refresh_and_retry request s t b2 :
  first_status s = Some 401 → _retry request = false →
  localStorage s !! "refreshToken" = Some t → t ≠ "" →
  answers_success (tail (network s)) = Some b2 →
  ∃ r s' retry,
    authService.api authService.api_budget request s = (r, s')
    ∧ sent s' = sent s ++ [(ApiInstance, with_bearer request s);
                           (GlobalAxios, authService.refresh_request t);
                           (ApiInstance, retry)]
    ∧ same_call retry request ∧ _retry retry = true
    ∧ Authorization retry = Some ("Bearer " +:+ js_string (access_token b2))
    ∧ storeLog s' = storeLog s ++ [SetItem "accessToken" (js_string (access_token b2));
                                   SetItem "refreshToken" (js_string (refresh_token b2))]
    ∧ localStorage s' = stored b2 (localStorage s)
    ∧ location s' = location s
    ∧ (∀ b3, answers_success (tail (tail (network s))) = Some b3 →
         ∃ st txt, r = Resolved {| status := st; statusText := txt; data := b3;
                                   config := retry |})
    ∧ (answers_success (tail (tail (network s))) = None →
         ∃ response, r = Rejected (AxiosError retry response)).
Proof.
  intros H401 Hm Ht Hne Hok. unfold first_status, authService.api_budget in *.
  destruct request as [m u bu ct au p mark]; cbn in Hm; subst mark.
  rewrite api_unfold.
  unfold authService.request_interceptor, authService.response_error.
  unfold_async. cbn -[authService.api].
  unfold with_bearer at 1.
  destruct (truthy (localStorage s !! "accessToken")) eqn:Htok; cbn -[authService.api].
  all: destruct (network s) as [|[st txt b|] rest]; try discriminate.
  all: injection H401 as ->; cbn -[authService.api] in *.
  all: rewrite Ht, (truthy_Some t Hne); cbn -[authService.api].
  all: destruct rest as [|[st2 txt2 b2'|] rest]; cbn -[authService.api] in Hok |- *;
    try discriminate.
  all: unfold is_success in Hok; destruct ((200 <=? st2) && (st2 <? 300));
    [|discriminate]; injection Hok as ->; cbn -[authService.api].
  all: match goal with |- context [authService.api 1 ?rq ?st] =>
         destruct (api_marked_run rq st eq_refl)
           as (r & s' & E & Hio & Hnet & Hsent & Hs & Hf); rewrite E;
         exists r, s', (with_bearer rq st)
       end.
  all: destruct Hio as (Hl & _ & Hlog & Hloc & _).
  all: cbn -[with_bearer] in Hl, Hlog, Hloc, Hnet, Hsent, Hs, Hf.
  all: split; [reflexivity|].
  all: split; [rewrite Hsent, <- !app_assoc; reflexivity|].
  all: unfold with_bearer at 1 2 3; cbn.
  all: rewrite lookup_insert_ne by discriminate; rewrite lookup_insert_eq; cbn.
  all: split; [destruct (negb _); repeat split|].
  all: split; [destruct (negb _); reflexivity|].
  all: split; [destruct (negb _); reflexivity|].
  all: split; [rewrite Hlog, <- !app_assoc; reflexivity|].
  all: split; [exact Hl|].
  all: split; [exact Hloc|].
  all: split; [exact Hs | exact Hf].
Qed.

Lemma interceptor_refresh_and_retry_witness :
  ∃ st txt retry s',
    authService.api authService.api_budget (me_request (fresh_browser []))
      (returning_browser "access-0" "refresh-0"
         [wrong_password; HttpReply 200 "OK" (token_body "access-1" "refresh-1");
          HttpReply 200 "OK" plain_body])
    = (Resolved {| status := st; statusText := txt; data := plain_body; config := retry |}, s')
    ∧ Authorization retry = Some "Bearer access-1"
    ∧ localStorage s' !! "refreshToken" = Some "refresh-1".
Proof.
  destruct (interceptor_refresh_and_retry (me_request (fresh_browser []))
              (returning_browser "access-0" "refresh-0"
                 [wrong_password; HttpReply 200 "OK" (token_body "access-1" "refresh-1");
                  HttpReply 200 "OK" plain_body])
              "refresh-0" (token_body "access-1" "refresh-1")
              eq_refl eq_refl eq_refl ltac:(discriminate) eq_refl)
    as (r & s' & retry & E & _ & _ & _ & Hauth & _ & Hl & _ & Hs & _).
  destruct (Hs plain_body eq_refl) as (st & txt & ->).
  exists st, txt, retry, s'. split; [exact E|]. split; [exact Hauth|].
  rewrite Hl. reflexivity.
Defined.

(** ** [authService.logout] *)

Lemma service_logout_resolves refreshToken s :
  ∃ r s', authService.logout refreshToken s = (Resolved r, s').
Proof.
  pose proof (total_service_logout refreshToken s) as Htot.
  revert Htot. unfold authService.logout.
  apply try_catch_resolves. intros e s1. unfold_async. eauto.
Qed.

(** X5. [authService.logout] never rejects, whatever the backend answers:
    its [catch] clause turns every failure into a local result.  It leaves
    sessionStorage and the provider's user alone. *)
Theorem service_logout_never_rejects refreshToken s :
  ∃ r s', authService.logout refreshToken s = (Resolved r, s')
          ∧ sessionStorage s' = sessionStorage s ∧ user s' = user s.
Proof.
  destruct (service_logout_resolves refreshToken s) as (r & s' & E).
  pose proof (respects_service_logout client_step_invariant refreshToken s) as Hstep.
  rewrite E in Hstep. destruct Hstep as (_ & Hs & Hu & _). eauto.
Qed.

(** X6. After a successful fetch of the session list, [authService.logout]
    deletes the first session flagged current, and all sessions when none
    is flagged; when the answer carries no list, no DELETE is sent and the
    call still resolves. *)
Theorem service_logout_target refreshToken s b :
  answers_success (network s) = Some b →
  ∃ r s',
    authService.logout refreshToken s = (Resolved r, s')
    ∧ match sessions b with
      | Some l => ∃ more, sent s' = sent s ++ [(ApiInstance, sessions_request s);
                                               (ApiInstance, delete_request (logout_target l) s)]
                                            ++ more
      | None => r = None ∧ sent s' = sent s ++ [(ApiInstance, sessions_request s)]
      end.
Proof.
  intros Hb.
  destruct (service_logout_resolves refreshToken s) as (r & s' & E).
  exists r, s'. split; [exact E|]. revert E.
  unfold authService.logout, authService.getSessions, try_catch. unfold_async.
  cbn -[authService.api_request].
  destruct (api_request_success GET "/auth/sessions" authService.json NoPayload s b Hb)
    as (st & txt & s1 & -> & Hio & Hnet & Hsent).
  cbn -[authService.api_request].
  destruct Hio as (Hl & _).
  destruct (sessions b) as [l|]; cbn -[authService.api_request].
  - unfold logout_target, delete_request, sessions_request.
    destruct (List.find is_current l) as [c|].
    all: match goal with |- context [authService.api_request ?m ?u ?ct ?p ?st] =>
           destruct (api_request_sends m u ct p st) as [more Hmore];
           destruct (authService.api_request m u ct p st) as [[r1|e1|] s2] end.
    all: cbn in Hmore |- *; intros [= <- <-]; cbn; exists more.
    all: rewrite Hmore, Hsent, <- app_assoc; cbn.
    all: unfold transmitted; rewrite Hl; reflexivity.
  - intros [= <- <-]. cbn. auto.
Qed.

Lemma service_logout_target_witness :
  ∃ s' more,
    (authService.logout "refresh-1"
       (signed_in_browser alice [HttpReply 200 "OK" (sessions_body two_sessions)])).2 = s'
    ∧ sent s' = [(ApiInstance,
                  sessions_request (signed_in_browser alice []));
                 (ApiInstance,
                  delete_request "/auth/sessions/session-2" (signed_in_browser alice []))]
                ++ more.
Proof.
  destruct (service_logout_target "refresh-1"
              (signed_in_browser alice [HttpReply 200 "OK" (sessions_body two_sessions)])
              (sessions_body two_sessions) eq_refl)
    as (r & s' & E & more & Hsent).
  exists s', more. rewrite E. split; [reflexivity | exact Hsent].
Defined.

(** ** The provider's [logout] *)

Lemma respects_logout_body :
  respects client_step
    (try_catch
       (refreshToken ← localStorage_getItem "refreshToken";
        if truthy refreshToken then
          authService.logout (default "" refreshToken);;
          mret tt
        else mret tt)
       (λ error, console_error "Logout error:" [LErr error])).
Proof.
  repeat lazymatch goal with
         | |- respects _ (authService.logout _) =>
             apply (respects_service_logout client_step_invariant)
         | _ => service_step client_step_invariant
         end.
Qed.

(** X7. The provider's [logout] always completes, whatever the backend
    answers: afterwards neither token is stored, no user is set and the last
    navigation is to /login; sessionStorage is not touched.  With no refresh
    token stored it sends no request at all. *)
Theorem logout_always_signs_out s :
  ∃ s',
    AuthContext.logout s = (Resolved tt, s')
    ∧ localStorage s' !! "accessToken" = None
    ∧ localStorage s' !! "refreshToken" = None
    ∧ user s' = None
    ∧ sessionStorage s' = sessionStorage s
    ∧ (∃ before, location s' = before ++ ["/login"])
    ∧ (truthy (localStorage s !! "refreshToken") = false → sent s' = sent s).
Proof.
  unfold AuthContext.logout. unfold try_finally.
  pose proof (respects_logout_body s) as Hstep. revert Hstep.
  match goal with |- context [try_catch ?m ?h s] =>
    destruct (try_catch_resolves m h s) as (a & s1 & E) end.
  - intros e s1. unfold_async. eauto.
  - apply total_try_catch; [|intros ?; apply total_primitive; intros ?; by eauto].
    apply total_bind; [apply total_primitive; intros ?; by eauto | intros t].
    destruct (truthy t); [|apply total_ret].
    apply total_bind; [apply total_service_logout | intros ?; apply total_ret].
  - assert (Hquiet : truthy (localStorage s !! "refreshToken") = false → sent s1 = sent s).
    { intros Hno. revert E. unfold_async. cbn -[authService.logout]. rewrite Hno.
      by intros [= _ <-]. }
    rewrite E. cbn [snd]. intros (_ & Hs & _). unfold_async. cbn. destruct a.
    eexists. split; [reflexivity|]. cbn.
    rewrite lookup_delete_ne by done. rewrite !lookup_delete_eq.
    do 4 (split; [done|]). split; [by eexists | exact Hquiet].
Qed.

(** ** The provider's [refreshToken] and startup check *)

(** X8. The provider's [refreshToken] never rejects: it answers with a
    boolean that tells whether a user is set afterwards, and after [false]
    no token is stored.  With no refresh token stored it answers [false]
    without sending a request.  SessionStorage and the loading flag are not
    touched. *)
Theorem refreshToken_postcondition s :
  ∃ ok s',
    AuthContext.refreshToken s = (Resolved ok, s')
    ∧ ok = bool_decide (is_Some (user s'))
    ∧ (ok = false → localStorage s' !! "accessToken" = None
                    ∧ localStorage s' !! "refreshToken" = None)
    ∧ (truthy (localStorage s !! "refreshToken") = false → ok = false ∧ sent s' = sent s)
    ∧ sessionStorage s' = sessionStorage s ∧ isLoading s' = isLoading s.
Proof.
  destruct (refreshToken_run s) as (ok & s' & E & Hss & Hl & Hfalse & Htrue & Hq).
  exists ok, s'. split; [exact E|]. split.
  - destruct ok.
    + symmetry. apply bool_decide_eq_true. by apply Htrue.
    + destruct (Hfalse eq_refl) as (_ & _ & ->). reflexivity.
  - split; [intros Hok; destruct (Hfalse Hok) as (? & ? & _); by split|].
    split; [exact Hq|]. split; assumption.
Qed.

(** X9. The startup check always completes and leaves the provider no
    longer loading, whatever is stored and whatever the backend answers.
    SessionStorage is not touched, and with no access token stored the
    check sends nothing and changes neither localStorage nor the user,
    even when a refresh token is stored. *)
Theorem checkAuthStatus_finishes_loading jwtDecode s :
  ∃ s',
    AuthContext.checkAuthStatus jwtDecode s = (Resolved tt, s')
    ∧ isLoading s' = false
    ∧ sessionStorage s' = sessionStorage s
    ∧ (truthy (localStorage s !! "accessToken") = false →
       sent s' = sent s ∧ localStorage s' = localStorage s ∧ user s' = user s).
Proof.
  unfold AuthContext.checkAuthStatus. unfold_async.
  cbn -[AuthContext.refreshToken authService.getCurrentUser].
  destruct (truthy (localStorage s !! "accessToken")) eqn:Htok;
    cbn -[AuthContext.refreshToken authService.getCurrentUser].
  2: { eexists. split; [reflexivity|]. cbn. auto. }
  destruct (jwtDecode _) as [decoded|];
    cbn -[AuthContext.refreshToken authService.getCurrentUser].
  1: destruct (AuthContext.is_expired _ _);
    cbn -[AuthContext.refreshToken authService.getCurrentUser].
  2: run_getCurrentUser.
  all: try run_refreshToken.
  all: eexists; (split; [reflexivity|]); cbn.
  all: repeat split; try done; congruence.
Qed.



(** X11. When the backend cannot serve the startup check, a signed-in
    browser is signed out: with a stored token that is not expired, a
    failing request for the current user is followed by one refresh call,
    and when that fails too both tokens are removed and no user is set. *)
Theorem checkAuthStatus_outage_signs_out jwtDecode s token decoded t :
  localStorage s !! "accessToken" = Some token → token ≠ "" →
  jwtDecode token = Some decoded →
  AuthContext.is_expired (AuthContext.exp decoded) (now s) = false →
  localStorage s !! "refreshToken" = Some t → t ≠ "" →
  answers_failure (network s) = true → answers_failure (tail (network s)) = true →
  ∃ s',
    AuthContext.checkAuthStatus jwtDecode s = (Resolved tt, s')
    ∧ localStorage s' !! "accessToken" = None
    ∧ localStorage s' !! "refreshToken" = None
    ∧ user s' = None ∧ isLoading s' = false
    ∧ sent s' = sent s ++ [(ApiInstance, me_request s);
                           (ApiInstance, context_refresh_request t s)].
Proof.
  intros Htok Hne Hdec Hexp Hrt Hrne Hf1 Hf2.
  unfold AuthContext.checkAuthStatus. unfold_async.
  cbn -[AuthContext.refreshToken authService.getCurrentUser].
  rewrite Htok, (truthy_Some _ Hne).
  cbn -[AuthContext.refreshToken authService.getCurrentUser].
  rewrite Hdec. cbn -[AuthContext.refreshToken authService.getCurrentUser].
  rewrite Hexp. cbn -[AuthContext.refreshToken authService.getCurrentUser].
  match goal with |- context [authService.getCurrentUser ?st] =>
    destruct (getCurrentUser_failure st Hf1) as (e & s1 & -> & Hio & Hnet & Hsent) end.
  cbn -[AuthContext.refreshToken]. destruct Hio as (Hl & _).
  cbn in Hl, Hnet, Hsent.
  unfold AuthContext.refreshToken, authService.refreshToken. unfold_async.
  cbn -[authService.api_request].
  rewrite Hl, Hrt, (truthy_Some _ Hrne). cbn -[authService.api_request].
  match goal with |- context [authService.api_request ?m ?u ?ct ?p ?st] =>
    destruct (api_request_failure m u ct p st) as (r2 & s2 & -> & Hio2 & _ & Hsent2);
    [cbn; rewrite Hnet; exact Hf2|] end.
  cbn. eexists. split; [reflexivity|]. cbn.
  rewrite lookup_delete_ne by done. rewrite !lookup_delete_eq.
  do 4 (split; [reflexivity|]).
  cbn in Hsent2. rewrite Hsent2, Hsent, <- app_assoc. cbn.
  unfold me_request, context_refresh_request, transmitted. cbn. rewrite Hl. reflexivity.
Qed.

Lemma checkAuthStatus_outage_signs_out_witness :
  ∃ s',
    AuthContext.checkAuthStatus (λ _, Some {| AuthContext.exp := Some 1800000000 |})
      (returning_browser "access-0" "refresh-0" [server_error; NetworkFailure])
    = (Resolved tt, s')
    ∧ localStorage s' !! "refreshToken" = None
    ∧ length (sent s') = 2%nat.
Proof.
  destruct (checkAuthStatus_outage_signs_out
              (λ _, Some {| AuthContext.exp := Some 1800000000 |})
              (returning_browser "access-0" "refresh-0" [server_error; NetworkFailure])
              "access-0" {| AuthContext.exp := Some 1800000000 |} "refresh-0"
              eq_refl ltac:(discriminate) eq_refl eq_refl eq_refl ltac:(discriminate)
              eq_refl eq_refl)
    as (s' & E & _ & Hr & _ & _ & Hsent).
  exists s'. split; [exact E|]. split; [exact Hr|]. rewrite Hsent. reflexivity.
Defined.

(** ** Two-factor login *)

(** X12. A login answered with a two-factor challenge and the verification
    that follows it compose through sessionStorage: the verification's
    first request is POST /auth/2fa/login with the email of the login and
    the code.  Only for the empty email does the verification find nothing
    pending: it rejects and sends nothing. *)
Theorem two_factor_login_composes email password token s b :
  answers_success (network s) = Some b → requiresTwoFactor b = true →
  (email ≠ "" →
   ∃ more,
     sent (AuthContext.verifyTwoFactorLogin token (AuthContext.login email password s).2).2
     = sent s ++ [(ApiInstance, login_request email password s);
                  (ApiInstance, twoFactorLogin_request email token s)] ++ more)
  ∧ (email = "" →
     ∃ s',
       AuthContext.verifyTwoFactorLogin token (AuthContext.login email password s).2
       = (Rejected (Error "Email not found for 2FA verification"), s')
       ∧ sent s' = sent s ++ [(ApiInstance, login_request email password s)]).
Proof.
  intros Hb H2fa.
  unfold AuthContext.login, authService.login. unfold_async.
  cbn -[authService.api_request authService.getCurrentUser].
  destruct (api_request_success POST "/auth/login" authService.urlencoded
              (URLSearchParams [("username", email); ("password", password)])
              (with_console {| level := LevelLog; text := "Calling authService.login";
                               args := [] |}
                 (with_console {| level := LevelLog; text := "Login attempt for email:";
                                  args := [LStr email] |} s)) b Hb)
    as (st & txt & s1 & -> & Hio & Hnet & Hsent).
  cbn -[authService.api_request authService.getCurrentUser].
  rewrite H2fa. cbn -[authService.api_request authService.getCurrentUser].
  destruct Hio as (Hl & _). cbn in Hl, Hsent.
  unfold AuthContext.verifyTwoFactorLogin, authService.verifyTwoFactorLogin. unfold_async.
  cbn -[authService.api_request authService.getCurrentUser].
  rewrite lookup_insert_eq. split.
  - intros Hne. rewrite (truthy_Some _ Hne).
    cbn -[authService.api_request authService.getCurrentUser].
    match goal with |- context [authService.api_request ?m ?u ?ct ?p ?st] =>
      destruct (api_request_sends m u ct p st) as [more Hmore];
      destruct (authService.api_request m u ct p st) as [[r1|e1|] s2] end.
    all: cbn -[authService.getCurrentUser] in Hmore |- *.
    2,3: exists more; rewrite Hmore, Hsent, <- app_assoc; cbn;
         unfold twoFactorLogin_request, login_request, transmitted; cbn; rewrite Hl;
         reflexivity.
    match goal with |- context [authService.getCurrentUser ?st] =>
      destruct (respects_getCurrentUser (inv_client _ sent_grows_provider) st) as [more2 H2];
      destruct (authService.getCurrentUser st) as [[u|e|] s3] end.
    all: cbn in H2 |- *; exists (more ++ more2).
    all: rewrite H2, Hmore, Hsent, <- !app_assoc; cbn.
    all: unfold twoFactorLogin_request, login_request, transmitted; cbn; rewrite Hl;
      reflexivity.
  - intros ->. cbn. eexists. split; [reflexivity|]. cbn. rewrite Hsent. reflexivity.
Qed.

Lemma two_factor_login_composes_witness :
  ∃ more,
    sent (AuthContext.verifyTwoFactorLogin "123456"
            (AuthContext.login "alice@example.com" "hunter2"
               (fresh_browser
                  [HttpReply 200 "OK"
                     {| requiresTwoFactor := true; access_token := None;
                        refresh_token := None; message := None; sessions := None;
                        profile := alice; qrCodeUrl := ""; secret := "" |}])).2).2
    = [(ApiInstance, login_request "alice@example.com" "hunter2" (fresh_browser []));
       (ApiInstance, twoFactorLogin_request "alice@example.com" "123456" (fresh_browser []))]
      ++ more.
Proof.
  refine (proj1 (two_factor_login_composes "alice@example.com" "hunter2" "123456"
                   (fresh_browser
                      [HttpReply 200 "OK"
                         {| requiresTwoFactor := true; access_token := None;
                            refresh_token := None; message := None; sessions := None;
                            profile := alice; qrCodeUrl := ""; secret := "" |}])
                   _ eq_refl eq_refl) _).
  discriminate.
Defined.

(** ** Tokens missing from a response *)

(** X13. A login answered with success but without tokens writes the text
    "undefined" to both entries of localStorage, and the request for the
    current user that follows carries it as its bearer.  Unless that
    request is answered 401, both entries still hold "undefined" when
    [login] is over. *)
Theorem login_stores_undefined_tokens email password s b :
  answers_success (network s) = Some b → requiresTwoFactor b = false →
  access_token b = None → refresh_token b = None →
  ∃ writes more,
    storeLog (AuthContext.login email password s).2
    = storeLog s ++ SetItem "accessToken" "undefined"
                 :: SetItem "refreshToken" "undefined" :: writes
    ∧ sent (AuthContext.login email password s).2
      = sent s ++ (ApiInstance, login_request email password s)
               :: (ApiInstance,
                   authService.set_Authorization "Bearer undefined"
                     (transmitted GET "/auth/me" authService.json NoPayload s))
               :: more
    ∧ (is_Some (answers_success (tail (network s)))
       ∨ answers_failure (tail (network s)) = true →
       localStorage (AuthContext.login email password s).2
       = <["refreshToken" := "undefined"]> (<["accessToken" := "undefined"]> (localStorage s))).
Proof.
  intros Hb H2fa Ha Hr.
  unfold AuthContext.login, authService.login. unfold_async.
  cbn -[authService.api_request authService.getCurrentUser].
  destruct (api_request_success POST "/auth/login" authService.urlencoded
              (URLSearchParams [("username", email); ("password", password)])
              (with_console {| level := LevelLog; text := "Calling authService.login";
                               args := [] |}
                 (with_console {| level := LevelLog; text := "Login attempt for email:";
                                  args := [LStr email] |} s)) b Hb)
    as (st & txt & s1 & -> & Hio & Hnet & Hsent).
  cbn -[authService.api_request authService.getCurrentUser].
  rewrite H2fa, Ha, Hr. cbn -[authService.api_request authService.getCurrentUser].
  destruct Hio as (Hls & _ & Hlog & _). cbn in Hls, Hlog, Hnet, Hsent.
  match goal with |- context [authService.getCurrentUser ?st] => set (s2 := st) end.
  assert (Hnet2 : network s2 = tail (network s)) by (subst s2; cbn; exact Hnet).
  assert (Hquiet : is_Some (answers_success (tail (network s)))
                   ∨ answers_failure (tail (network s)) = true →
                   localStorage (authService.getCurrentUser s2).2 = localStorage s2).
  { rewrite <- Hnet2. intros [[b2 H2] | H2].
    - by destruct (getCurrentUser_success s2 b2 H2) as (s3 & -> & (L & _) & _).
    - by destruct (getCurrentUser_failure s2 H2) as (e & s3 & -> & (L & _) & _). }
  destruct (getCurrentUser_sends s2) as [more Hmore].
  destruct (respects_getCurrentUser (inv_client _ tracks_provider) s2)
    as (writes & Hwrites & _).
  destruct (authService.getCurrentUser s2) as [[u|e|] s3].
  all: cbn in Hmore, Hwrites, Hquiet |- *; exists writes, more.
  all: split; [rewrite Hwrites; subst s2; cbn; rewrite Hlog, <- !app_assoc; reflexivity|].
  all: split; [rewrite Hmore; subst s2; cbn; rewrite Hsent, <- app_assoc;
               unfold login_request, transmitted, authService.set_Authorization; cbn;
               rewrite lookup_insert_ne by done; rewrite lookup_insert_eq; reflexivity|].
  all: intros H; rewrite (Hquiet H); subst s2; cbn; rewrite Hls; reflexivity.
Qed.

Lemma login_stores_undefined_tokens_witness :
  localStorage (AuthContext.login "alice@example.com" "hunter2"
                  (fresh_browser [HttpReply 200 "OK" plain_body;
                                  HttpReply 200 "OK" plain_body])).2
  !! "accessToken" = Some "undefined"
  ∧ localStorage (AuthContext.login "alice@example.com" "hunter2"
                    (fresh_browser [HttpReply 200 "OK" plain_body;
                                    HttpReply 200 "OK" plain_body])).2
    !! "refreshToken" = Some "undefined".
Proof.
  destruct (login_stores_undefined_tokens "alice@example.com" "hunter2"
              (fresh_browser [HttpReply 200 "OK" plain_body; HttpReply 200 "OK" plain_body])
              plain_body eq_refl eq_refl eq_refl eq_refl)
    as (writes & more & _ & _ & H).
  rewrite H; [|left; by eexists]. split; reflexivity.
Defined.

(** ** The pages *)

Lemma message_or_nonempty e fallback :
  fallback ≠ "" → authService.message_or e fallback ≠ "".
Proof.
  intros Hf. unfold authService.message_or.
  destruct (authService.error_response e) as [r|]; [|exact Hf].
  destruct (message (data r)) as [m|]; cbn; [|exact Hf].
  destruct (String.eqb_spec m ""); cbn; [exact Hf | assumption].
Qed.

(** X14. The login form sends nothing while the email or the password is
    empty; with both filled in, the first request of a submit is
    POST /auth/login carrying the email as username and the password. *)
Theorem login_form_requires_both returnUrl values p s :
  (LoginPage.email values = "" ∨ LoginPage.password values = "" →
   LoginPage.submit returnUrl values p s = (Resolved p, s))
  ∧ (LoginPage.email values ≠ "" → LoginPage.password values ≠ "" →
     ∃ more,
       sent (LoginPage.submit returnUrl values p s).2
       = sent s ++ (ApiInstance,
                    login_request (LoginPage.email values) (LoginPage.password values) s)
                   :: more).
Proof.
  unfold LoginPage.submit, Formik_submit, LoginPage.LoginSchema, validate, required.
  cbn [omap list_omap].
  destruct (String.eqb_spec (LoginPage.email values) "") as [He|He],
           (String.eqb_spec (LoginPage.password values) "") as [Hp|Hp]; cbn [app].
  1-3: split; [reflexivity | congruence].
  split; [intros [?|?]; congruence | intros _ _].
  unfold LoginPage.handleSubmit, AuthContext.login, authService.login. unfold_async.
  cbn -[authService.api_request authService.getCurrentUser].
  match goal with |- context [authService.api_request ?m ?u ?ct ?pl ?st] =>
    destruct (api_request_sends m u ct pl st) as [more Hmore];
    destruct (authService.api_request m u ct pl st) as [[r1|e1|] s1] end.
  all: cbn -[authService.getCurrentUser] in Hmore |- *.
  2,3: exists more; rewrite Hmore; reflexivity.
  destruct (requiresTwoFactor (data r1)); cbn -[authService.getCurrentUser].
  { exists more. rewrite Hmore. reflexivity. }
  match goal with |- context [authService.getCurrentUser ?st] =>
    destruct (respects_getCurrentUser (inv_client _ sent_grows_provider) st) as [more2 H2];
    destruct (authService.getCurrentUser st) as [[u|e|] s2] end.
  all: cbn in H2 |- *; exists (more ++ more2); rewrite H2, Hmore, <- app_assoc; reflexivity.
Qed.

(** X15. A submit of the login page always completes with the page no longer
    loading.  Either it shows no error and its last navigation is to the
    return URL or to /verify-2fa, or it shows a non-empty error, the
    message of the error it logged last. *)
Theorem login_page_settles returnUrl values p s :
  ∃ p' s',
    LoginPage.handleSubmit returnUrl values p s = (Resolved p', s')
    ∧ LoginPage.isLoading p' = false
    ∧ ((LoginPage.error p' = ""
        ∧ ∃ before target, location s' = before ++ [target]
                           ∧ (target = returnUrl ∨ target = "/verify-2fa"))
       ∨ (LoginPage.error p' ≠ ""
          ∧ ∃ before err,
              console s' = before ++ [error_entry "LoginPage - Login error:" err]
              ∧ LoginPage.error p'
                = authService.message_or err
                    "Failed to login. Please check your credentials.")).
Proof.
  unfold LoginPage.handleSubmit. unfold_async. cbn -[AuthContext.login].
  match goal with |- context [AuthContext.login ?e ?pw ?st] =>
    pose proof (total_login e pw st) as Htot;
    destruct (AuthContext.login e pw st) as [[[[]]|e1|] s1]; [| | |done] end.
  all: cbn; do 2 eexists; (split; [reflexivity|]); (split; [reflexivity|]); cbn.
  1,2: left; split; [reflexivity|]; do 2 eexists; split; [reflexivity|]; auto.
  right. split; [by apply message_or_nonempty|].
  do 2 eexists. split; reflexivity.
Qed.

(** X17. With no pending two-factor email in sessionStorage, a submit of
    the verification page changes nothing outside the page: no request, no
    navigation, no log.  The page shows the message for a wrong code. *)
Theorem verify_page_without_pending_email values p s :
  truthy (sessionStorage s !! "twoFactorEmail") = false →
  VerifyTwoFactorPage.handleSubmit values p s
  = (Resolved {| VerifyTwoFactorPage.error := "Invalid verification code. Please try again.";
                 VerifyTwoFactorPage.isLoading := false |}, s).
Proof.
  intros Hno. unfold VerifyTwoFactorPage.handleSubmit, AuthContext.verifyTwoFactorLogin.
  unfold_async. cbn -[authService.verifyTwoFactorLogin authService.getCurrentUser].
  rewrite Hno. reflexivity.
Qed.

Lemma verify_page_without_pending_email_witness :
  VerifyTwoFactorPage.handleSubmit {| VerifyTwoFactorPage.token := "123456" |}
    {| VerifyTwoFactorPage.error := ""; VerifyTwoFactorPage.isLoading := false |}
    (fresh_browser [HttpReply 200 "OK" (token_body "access-1" "refresh-1")])
  = (Resolved {| VerifyTwoFactorPage.error := "Invalid verification code. Please try again.";
                 VerifyTwoFactorPage.isLoading := false |},
     fresh_browser [HttpReply 200 "OK" (token_body "access-1" "refresh-1")]).
Proof.
  exact (verify_page_without_pending_email {| VerifyTwoFactorPage.token := "123456" |}
           {| VerifyTwoFactorPage.error := ""; VerifyTwoFactorPage.isLoading := false |}
           (fresh_browser [HttpReply 200 "OK" (token_body "access-1" "refresh-1")]) eq_refl).
Defined.

(** X18. Enabling two-factor does not reach the provider's user: after the
    backend accepts the code the page navigates to /profile, but the user in
    the context still has two-factor disabled, so the effect of the setup
    page, run again, requests a new setup instead of leaving for the
    profile. *)
Theorem two_factor_setup_not_remembered values p s u b :
  user s = Some u → isTwoFactorEnabled u = false →
  answers_success (network s) = Some b →
  ∃ p' s',
    SetupTwoFactorPage.handleSubmit values p s = (Resolved p', s')
    ∧ SetupTwoFactorPage.verificationError p' = ""
    ∧ location s' = location s ++ ["/profile"]
    ∧ user s' = Some u
    ∧ ∀ q, ∃ more, sent (SetupTwoFactorPage.effect q s').2
                   = sent s' ++ (ApiInstance, setup_request s') :: more.
Proof.
  intros Hu H2fa Hb.
  unfold SetupTwoFactorPage.handleSubmit, AuthContext.verifyTwoFactor,
    authService.verifyTwoFactor. unfold_async. cbn -[authService.api_request].
  match goal with |- context [authService.api_request ?m ?u ?ct ?pl ?st] =>
    destruct (api_request_success m u ct pl st b Hb)
      as (st' & txt & s1 & -> & Hio & Hnet & Hsent) end.
  cbn. do 2 eexists. split; [reflexivity|]. cbn.
  destruct Hio as (Hl & _ & _ & Hloc & _ & Husr & _).
  split; [reflexivity|]. split; [by rewrite Hloc|]. split; [by rewrite Husr|].
  intros q. unfold SetupTwoFactorPage.effect. cbn. rewrite Husr, Hu, H2fa.
  unfold SetupTwoFactorPage.generateTwoFactorSetup, AuthContext.setupTwoFactor,
    authService.setupTwoFactor. unfold_async. cbn -[authService.api_request].
  match goal with |- context [authService.api_request ?m ?u ?ct ?pl ?st] =>
    destruct (api_request_sends m u ct pl st) as [more Hmore];
    destruct (authService.api_request m u ct pl st) as [[r1|e1|] s2] end.
  all: cbn in Hmore |- *; exists more; rewrite Hmore; reflexivity.
Qed.

Lemma two_factor_setup_not_remembered_witness :
  ∃ p' s',
    SetupTwoFactorPage.handleSubmit
      {| SetupTwoFactorPage.token := "123456"; SetupTwoFactorPage.rememberDevice := false |}
      setup_page (signed_in_browser alice [HttpReply 200 "OK" plain_body])
    = (Resolved p', s')
    ∧ location s' = ["/profile"]
    ∧ user s' = Some alice.
Proof.
  destruct (two_factor_setup_not_remembered
              {| SetupTwoFactorPage.token := "123456";
                 SetupTwoFactorPage.rememberDevice := false |}
              setup_page (signed_in_browser alice [HttpReply 200 "OK" plain_body])
              alice plain_body eq_refl eq_refl eq_refl)
    as (p' & s' & E & _ & Hloc & Hu & _).
  exists p', s'. auto.
Defined.

(** ** The password pattern *)

Lemma lookahead_spec cls v : lookahead cls v = true ↔ visible cls v.
Proof.
  unfold visible. induction v as [|c v IH]; cbn [lookahead].
  - split; [discriminate|]. intros (pre & c & post & E & _). by destruct pre.
  - rewrite orb_true_iff, andb_true_iff, negb_true_iff, IH. split.
    + intros [Hc | [Hlt (pre & c' & post & E & Hc' & Hpre)]].
      * exists "", c, v. repeat split; [exact Hc|]. intros a x b Ha. by destruct a.
      * exists (String c pre), c', post. split; [cbn; by rewrite E|].
        split; [exact Hc'|]. intros a x b Ha. destruct a as [|y a]; cbn in Ha.
        -- injection Ha as -> ->.
           change (at_line_terminator (String x (b +:+ String c' post)) = false).
           by rewrite <- E.
        -- injection Ha as _ Ha. by apply (Hpre a).
    + intros (pre & c' & post & E & Hc' & Hpre). destruct pre as [|y pre]; cbn in E.
      * injection E as -> _. by left.
      * injection E as <- E. right. split.
        -- rewrite E. exact (Hpre "" c pre eq_refl).
        -- exists pre, c', post. split; [exact E|]. split; [exact Hc'|].
           intros a x b Ha. apply (Hpre (String c a)). cbn. by rewrite Ha.
Qed.

Lemma all_of_spec cls v : all_of cls v = true ↔ Forall (λ c, cls c = true) (chars v).
Proof.
  unfold chars. induction v as [|c v IH]; cbn.
  - split; [constructor | reflexivity].
  - rewrite andb_true_iff, IH. split; [intros [? ?]; by constructor | by inversion 1].
Qed.

Lemma underscore_code c : (nat_of_ascii c =? 95)%nat = true ↔ c = underscore.
Proof.
  rewrite Nat.eqb_eq. split; [|by intros ->].
  intros H. rewrite <- (ascii_nat_embedding c), H. reflexivity.
Qed.

Lemma register_class_spec c : register_class c = true ↔ c ≠ underscore.
Proof.
  rewrite <- underscore_code. unfold register_class, is_word, is_lower, is_upper, is_digit.
  destruct (nat_of_ascii c =? 95)%nat eqn:E.
  - apply Nat.eqb_eq in E. rewrite E. cbn. split; [discriminate | by intros []].
  - rewrite orb_false_r. split; [discriminate | intros _].
    apply orb_negb_r.
Qed.

Lemma profile_class_all c : profile_class c = true.
Proof. unfold profile_class. destruct (is_word c); by rewrite ?orb_true_r. Qed.

(** X19. The pattern of the register and reset forms accepts exactly the
    strings of at least eight UTF-16 code units, with no underscore, in
    which a lower-case letter, an upper-case letter and a digit each occur
    with no line terminator (LF, CR, U+2028, U+2029) before them. *)
Theorem register_password_pattern_spec v :
  password_pattern register_class v = true
  ↔ (8 ≤ js_length v)%nat
    ∧ (underscore ∉ chars v)
    ∧ visible is_lower v ∧ visible is_upper v ∧ visible is_digit v.
Proof.
  unfold password_pattern, at_least.
  rewrite !andb_true_iff, !lookahead_spec, all_of_spec, Nat.leb_le, Forall_forall.
  split.
  - intros [[[Hl Hu] Hd] [Hn Hall]]. repeat split; try assumption.
    intros Hin. by apply (proj1 (register_class_spec underscore) (Hall _ Hin)).
  - intros (Hn & Hno & Hl & Hu & Hd). repeat split; try assumption.
    intros c Hc. apply register_class_spec. by intros ->.
Qed.

(** X20. The profile form accepts every new password the register form
    accepts, and the passwords it accepts beyond those are exactly the ones
    with an underscore: its pattern adds [\w] to the character class. *)
Theorem profile_pattern_allows_underscore v :
  password_pattern register_class v = true
  ↔ password_pattern profile_class v = true ∧ (underscore ∉ chars v).
Proof.
  unfold password_pattern, at_least.
  rewrite !andb_true_iff, !all_of_spec, !Forall_forall. split.
  - intros [Hla [Hn Hall]]. split.
    + repeat split; try tauto. intros c _. apply profile_class_all.
    + intros Hin. by apply (proj1 (register_class_spec underscore) (Hall _ Hin)).
  - intros [[Hla [Hn _]] Hno]. repeat split; try tauto.
    intros c Hc. apply register_class_spec. by intros ->.
Qed.

(** ** The register page *)

(** Run the next call of the instance, keeping its first request. *)
Ltac first_request :=
  match goal with
  | |- context [authService.api_request ?m ?u ?ct ?pl ?st] =>
      let more := fresh "more" in
      let Hmore := fresh "Hmore" in
      destruct (api_request_sends m u ct pl st) as [more Hmore];
      destruct (authService.api_request m u ct pl st) as [[?r|?e|] ?s];
      cbn -[authService.api_request] in Hmore |- *
  end.

(** X21. A submit of the register form either does nothing at all, or the
    values are valid (a username whose length is 3 to 50, an email the email
    test accepts, a password matching the pattern, and the same password
    as confirmation) and its first request is POST /auth/register with the
    email, the username and the password; the confirmation is not sent. *)
Theorem register_form_guard is_email values p s :
  RegisterPage.submit is_email values p s = (Resolved p, s)
  ∨ (valid_registration is_email values
     ∧ ∃ more,
         sent (RegisterPage.submit is_email values p s).2
         = sent s ++ (ApiInstance,
                      register_request (RegisterPage.email values)
                        (RegisterPage.username values) (RegisterPage.password values) s)
                     :: more).
Proof.
  unfold RegisterPage.submit, Formik_submit, RegisterPage.RegisterSchema, validate,
    Yup.min, Yup.max, required, RegisterPage.email_test, matches_password, oneOf_ref,
    valid_registration.
  cbn [omap list_omap].
  destruct (Nat.leb_spec 3 (js_length (RegisterPage.username values)));
    [|by left].
  destruct (Nat.leb_spec (js_length (RegisterPage.username values)) 50);
    [|by left].
  destruct (String.eqb_spec (RegisterPage.username values) ""); [by left|].
  destruct (is_email (RegisterPage.email values)) eqn:Hemail; [|by left].
  destruct (String.eqb_spec (RegisterPage.email values) ""); [by left|].
  destruct (Nat.leb_spec 8 (js_length (RegisterPage.password values))); [|by left].
  destruct (password_pattern register_class (RegisterPage.password values)) eqn:Hpat;
    [|by left].
  destruct (String.eqb_spec (RegisterPage.password values) ""); [by left|].
  destruct (String.eqb_spec (RegisterPage.confirmPassword values)
              (RegisterPage.password values)); [|by left].
  destruct (String.eqb_spec (RegisterPage.confirmPassword values) ""); [by left|].
  cbn [app]. right. split; [done|].
  unfold RegisterPage.handleSubmit, AuthContext.register, authService.register.
  unfold_async. cbn -[authService.api_request].
  first_request; exists more; rewrite Hmore; reflexivity.
Qed.

(** X22. A registration the backend accepts does not sign the user in: the
    page shows its success state, and localStorage, sessionStorage and the
    provider's user are as before, whatever the response carries. *)
Theorem registration_does_not_sign_in values p s b :
  answers_success (network s) = Some b →
  ∃ s',
    RegisterPage.handleSubmit values p s
    = (Resolved {| RegisterPage.error := ""; RegisterPage.success := true;
                   RegisterPage.isLoading := false |}, s')
    ∧ io_only s s'
    ∧ sent s' = sent s ++ [(ApiInstance,
                            register_request (RegisterPage.email values)
                              (RegisterPage.username values)
                              (RegisterPage.password values) s)].
Proof.
  intros Hb.
  unfold RegisterPage.handleSubmit, AuthContext.register, authService.register.
  unfold_async. cbn -[authService.api_request].
  destruct (api_request_success POST "/auth/register" authService.json
              (JsonObject [("email", JStr (RegisterPage.email values));
                           ("username", JStr (RegisterPage.username values));
                           ("password", JStr (RegisterPage.password values))]) s b Hb)
    as (st & txt & s1 & -> & Hio & Hnet & Hsent).
  cbn. eexists. split; [reflexivity|]. split; [exact Hio | exact Hsent].
Qed.

Lemma registration_does_not_sign_in_witness :
  ∃ s',
    (RegisterPage.handleSubmit
       {| RegisterPage.username := "alice"; RegisterPage.email := "alice@example.com";
          RegisterPage.password := "Hunter2hunter";
          RegisterPage.confirmPassword := "Hunter2hunter" |}
       {| RegisterPage.error := ""; RegisterPage.success := false;
          RegisterPage.isLoading := false |}
       (fresh_browser [HttpReply 201 "Created" (token_body "access-1" "refresh-1")])).2 = s'
    ∧ localStorage s' = ∅ ∧ user s' = None.
Proof.
  destruct (registration_does_not_sign_in
              {| RegisterPage.username := "alice"; RegisterPage.email := "alice@example.com";
                 RegisterPage.password := "Hunter2hunter";
                 RegisterPage.confirmPassword := "Hunter2hunter" |}
              {| RegisterPage.error := ""; RegisterPage.success := false;
                 RegisterPage.isLoading := false |}
              (fresh_browser [HttpReply 201 "Created" (token_body "access-1" "refresh-1")])
              (token_body "access-1" "refresh-1") eq_refl)
    as (s' & E & (Hl & _ & _ & _ & _ & Hu & _) & _).
  exists s'. rewrite E. auto.
Defined.

(** ** The reset password page *)

(** X23. The reset page sends nothing without a token: when the URL of a
    freshly mounted page has no token parameter, or an empty one, the
    effect leaves the reset-token message and a submit changes nothing.
    With a token in the URL, the first request of a submit is
    POST /auth/reset-password with that token and the new password. *)
Theorem reset_page_token_guard tokenParam values p s :
  (ResetPasswordPage.token p = "" → truthy tokenParam = false →
   ResetPasswordPage.error (ResetPasswordPage.effect tokenParam p)
   = ResetPasswordPage.missing_token
   ∧ ResetPasswordPage.handleSubmit values (ResetPasswordPage.effect tokenParam p) s
     = (Resolved (ResetPasswordPage.effect tokenParam p), s))
  ∧ (∀ t, tokenParam = Some t → t ≠ "" →
     ∃ more,
       sent (ResetPasswordPage.handleSubmit values
               (ResetPasswordPage.effect tokenParam p) s).2
       = sent s ++ (ApiInstance,
                    resetPassword_request t (ResetPasswordPage.password values) s) :: more).
Proof.
  unfold ResetPasswordPage.handleSubmit, ResetPasswordPage.effect. split.
  - intros Htok ->. cbn. rewrite Htok. cbn. split; reflexivity.
  - intros t -> Ht. rewrite (truthy_Some t Ht). cbn -[authService.api_request].
    destruct (String.eqb_spec t ""); [done|].
    unfold AuthContext.resetPassword, authService.resetPassword.
    unfold_async. cbn -[authService.api_request].
    first_request; exists more; rewrite Hmore; reflexivity.
Qed.

(** ** The email verification page *)

(** What the context's [verifyEmail] does on the wire. *)
Lemma verifyEmail_run t s :
  (AuthContext.verifyEmail t s).1 ≠ OutOfFuel
  ∧ (∃ more, sent (AuthContext.verifyEmail t s).2
             = sent s ++ (ApiInstance, verifyEmail_request t s) :: more)
  ∧ (∀ b, answers_success (network s) = Some b →
       ∃ s1, AuthContext.verifyEmail t s = (Resolved tt, s1))
  ∧ (answers_failure (network s) = true →
       ∃ e s1, AuthContext.verifyEmail t s = (Rejected e, s1)).
Proof.
  unfold AuthContext.verifyEmail, authService.verifyEmail. unfold_async.
  cbn -[authService.api_request].
  pose proof (total_api_request POST "/auth/verify-email" authService.json
                (JsonObject [("token", JStr t)]) s) as Htot.
  pose proof (api_request_success POST "/auth/verify-email" authService.json
                (JsonObject [("token", JStr t)]) s) as Hsucc.
  pose proof (api_request_failure POST "/auth/verify-email" authService.json
                (JsonObject [("token", JStr t)]) s) as Hfail.
  destruct (api_request_sends POST "/auth/verify-email" authService.json
              (JsonObject [("token", JStr t)]) s) as [more Hmore].
  revert Htot Hsucc Hfail Hmore.
  destruct (authService.api_request POST "/auth/verify-email" authService.json
              (JsonObject [("token", JStr t)]) s) as [[r|e|] s1];
    intros Htot Hsucc Hfail Hmore; [| |done].
  all: cbn in Hmore |- *; split; [discriminate|]; split; [by exists more|].
  - split; [by eauto|]. intros Hf. destruct (Hfail Hf) as (? & ? & [=] & _).
  - split; [|by eauto]. intros b Hb. destruct (Hsucc b Hb) as (? & ? & ? & [=] & _).
Qed.

(** X24. The email verification page never stays on its spinner.  Without
    a token in the URL it reports the missing token and nothing else
    happens; with one, its first request is POST /auth/verify-email with
    that token, and it shows the confirmation exactly when the context's
    [verifyEmail] resolved, and the message of its error when it rejected;
    so it confirms after an accepted request and reports a failure after
    a request that failed. *)
Theorem verify_email_page_view tokenParam s :
  ∃ p' s',
    VerifyEmailPage.effect tokenParam VerifyEmailPage.initial s = (Resolved p', s')
    ∧ VerifyEmailPage.render p' ≠ VerifyEmailPage.Verifying
    ∧ (truthy tokenParam = false →
       s' = s
       ∧ VerifyEmailPage.render p'
         = VerifyEmailPage.VerificationFailed "Invalid or missing verification token.")
    ∧ (∀ t, tokenParam = Some t → t ≠ "" →
       (∃ more, sent s' = sent s ++ (ApiInstance, verifyEmail_request t s) :: more)
       ∧ (VerifyEmailPage.render p' = VerifyEmailPage.EmailVerified
          ↔ ∃ s1, AuthContext.verifyEmail t s = (Resolved tt, s1))
       ∧ (∀ e s1, AuthContext.verifyEmail t s = (Rejected e, s1) →
            VerifyEmailPage.render p'
            = VerifyEmailPage.VerificationFailed
                (authService.message_or e "Email verification failed. Please try again."))
       ∧ (∀ b, answers_success (network s) = Some b →
            VerifyEmailPage.render p' = VerifyEmailPage.EmailVerified)
       ∧ (answers_failure (network s) = true →
            ∃ msg, VerifyEmailPage.render p' = VerifyEmailPage.VerificationFailed msg)).
Proof.
  unfold VerifyEmailPage.effect.
  destruct (truthy tokenParam) eqn:Htok; cbn -[VerifyEmailPage.verifyEmailToken].
  2: { do 2 eexists. split; [reflexivity|]. split; [discriminate|].
       split; [done|]. intros t -> Ht. by rewrite (truthy_Some t Ht) in Htok. }
  destruct tokenParam as [t0|]; [|discriminate]. cbn [default].
  unfold VerifyEmailPage.verifyEmailToken. unfold_async. cbn -[AuthContext.verifyEmail].
  destruct (verifyEmail_run t0 s) as (Htot & [more Hmore] & Hsucc & Hfail).
  destruct (AuthContext.verifyEmail t0 s) as [[[]|e|] s1] eqn:E; [| |done].
  all: cbn in Hmore |- *; do 2 eexists; (split; [reflexivity|]).
  - split; [discriminate|]. split; [discriminate|].
    intros t [= <-] Ht. rewrite E. cbn. split; [by exists more|].
    split; [split; [by eauto | done]|].
    split; [by intros e s2 [=]|]. split; [done|].
    intros Hf. destruct (Hfail Hf) as (? & ? & [=]).
  - unfold VerifyEmailPage.render. cbn.
    pose proof (message_or_nonempty e "Email verification failed. Please try again."
                  ltac:(discriminate)) as Hne.
    destruct (String.eqb_spec
                (authService.message_or e "Email verification failed. Please try again.")
                ""); [done|]. cbn.
    split; [discriminate|]. split; [discriminate|].
    intros t [= <-] Ht. rewrite E. cbn. split; [by exists more|].
    split; [split; [discriminate | by intros (? & [=])]|].
    split; [by intros e' s2 [= <- <-]|].
    split; [|by eauto].
    intros b Hb. destruct (Hsucc b Hb) as (? & [=]).
Qed.

(** ** The profile page *)

(** X25. A submit of the profile form sends only what changed.  With the
    name and email of the context's user and no new password it sends
    nothing and only clears the four messages; with no new name or email
    but a new password its first request is the password update.  When the
    user has no name, the profile update is always the first request. *)
Theorem profile_page_sends_only_changes user_name user_email values p s :
  (user_name = Some (ProfilePage.name values) → ProfilePage.email values = user_email →
   (ProfilePage.newPassword values = "" →
    ProfilePage.handleSubmit user_name user_email values p s = (Resolved (cleared p), s))
   ∧ (ProfilePage.newPassword values ≠ "" →
      ∃ more,
        sent (ProfilePage.handleSubmit user_name user_email values p s).2
        = sent s ++ (ApiInstance,
                     updatePassword_request (ProfilePage.currentPassword values)
                       (ProfilePage.newPassword values) s) :: more))
  ∧ (user_name = None →
     ∃ more,
       sent (ProfilePage.handleSubmit user_name user_email values p s).2
       = sent s ++ (ApiInstance,
                    updateProfile_request (ProfilePage.name values)
                      (ProfilePage.email values) s) :: more).
Proof.
  unfold ProfilePage.handleSubmit, ProfilePage.differs. split.
  - intros -> <-. rewrite !String.eqb_refl. cbn -[AuthContext.updatePassword]. split.
    + intros ->. reflexivity.
    + intros Hne. destruct (String.eqb_spec (ProfilePage.newPassword values) ""); [done|].
      unfold AuthContext.updatePassword, authService.updatePassword.
      unfold_async. cbn -[authService.api_request].
      first_request; exists more; rewrite Hmore; reflexivity.
  - intros ->. cbn -[AuthContext.updateProfile AuthContext.updatePassword].
    unfold AuthContext.updateProfile, authService.updateProfile,
      AuthContext.updatePassword, authService.updatePassword.
    unfold_async. cbn -[authService.api_request].
    first_request.
    all: destruct (String.eqb (ProfilePage.newPassword values) "");
      cbn -[authService.api_request].
    all: try (exists more; rewrite Hmore; reflexivity).
    all: match goal with |- context [authService.api_request ?m ?u ?ct ?pl ?st] =>
           destruct (respects_api_request (inv_client _ sent_grows_provider) m u ct pl st)
             as [more2 H2];
           destruct (authService.api_request m u ct pl st) as [[r2|e2|] s2] end.
    all: cbn in H2 |- *; exists (more ++ more2); rewrite H2, Hmore, <- app_assoc;
      reflexivity.
Qed.

(** X26. The two updates of the profile form are independent: when the
    profile update fails, the page reports it and still sends the password
    update that was asked for. *)
Theorem profile_page_updates_independent user_name user_email values p s :
  ProfilePage.differs (ProfilePage.name values) user_name
  || ProfilePage.differs (ProfilePage.email values) (Some user_email) = true →
  ProfilePage.newPassword values ≠ "" →
  answers_failure (network s) = true →
  ∃ p' s' more,
    ProfilePage.handleSubmit user_name user_email values p s = (Resolved p', s')
    ∧ ProfilePage.profileSuccess p' = "" ∧ ProfilePage.profileError p' ≠ ""
    ∧ sent s' = sent s ++ [(ApiInstance,
                            updateProfile_request (ProfilePage.name values)
                              (ProfilePage.email values) s);
                           (ApiInstance,
                            updatePassword_request (ProfilePage.currentPassword values)
                              (ProfilePage.newPassword values) s)] ++ more.
Proof.
  intros Hchanged Hnew Hfail. unfold ProfilePage.handleSubmit. rewrite Hchanged.
  destruct (String.eqb_spec (ProfilePage.newPassword values) ""); [done|].
  unfold AuthContext.updateProfile, authService.updateProfile,
    AuthContext.updatePassword, authService.updatePassword.
  unfold_async. cbn -[authService.api_request].
  destruct (api_request_failure PUT "/profile/update" authService.json
              (JsonObject [("email", JStr (ProfilePage.email values));
                           ("full_name", JStr (ProfilePage.name values))]) s Hfail)
    as (response & s1 & -> & Hio & Hnet & Hsent).
  cbn -[authService.api_request]. destruct Hio as (Hl & _).
  match goal with |- context [authService.api_request ?m ?u ?ct ?pl ?st] =>
    pose proof (total_api_request m u ct pl st) as Htot;
    destruct (api_request_sends m u ct pl st) as [more Hmore];
    destruct (authService.api_request m u ct pl st) as [[r2|e2|] s2]; [| |done] end.
  all: cbn in Hmore |- *; do 2 eexists; exists more; (split; [reflexivity|]); cbn.
  all: split; [reflexivity|].
  all: split; [by apply message_or_nonempty|].
  all: rewrite Hmore, Hsent, <- app_assoc; cbn.
  all: unfold updatePassword_request, updateProfile_request, transmitted; rewrite Hl;
    reflexivity.
Qed.

Lemma profile_page_updates_independent_witness :
  ∃ p' s',
    ProfilePage.handleSubmit (Some "Alice") "alice@example.com"
      {| ProfilePage.name := "Alice B"; ProfilePage.email := "alice@example.com";
         ProfilePage.currentPassword := "hunter2"; ProfilePage.newPassword := "Hunter2hunter";
         ProfilePage.confirmPassword := "Hunter2hunter" |}
      {| ProfilePage.profileSuccess := ""; ProfilePage.profileError := "";
         ProfilePage.passwordSuccess := ""; ProfilePage.passwordError := "";
         ProfilePage.form :=
           {| ProfilePage.name := "Alice"; ProfilePage.email := "alice@example.com";
              ProfilePage.currentPassword := ""; ProfilePage.newPassword := "";
              ProfilePage.confirmPassword := "" |} |}
      (signed_in_browser alice [server_error; HttpReply 200 "OK" plain_body])
    = (Resolved p', s')
    ∧ ProfilePage.profileError p' ≠ ""
    ∧ length (sent s') = 2%nat.
Proof.
  destruct (profile_page_updates_independent (Some "Alice") "alice@example.com"
              {| ProfilePage.name := "Alice B"; ProfilePage.email := "alice@example.com";
                 ProfilePage.currentPassword := "hunter2";
                 ProfilePage.newPassword := "Hunter2hunter";
                 ProfilePage.confirmPassword := "Hunter2hunter" |}
              {| ProfilePage.profileSuccess := ""; ProfilePage.profileError := "";
                 ProfilePage.passwordSuccess := ""; ProfilePage.passwordError := "";
                 ProfilePage.form :=
                   {| ProfilePage.name := "Alice"; ProfilePage.email := "alice@example.com";
                      ProfilePage.currentPassword := ""; ProfilePage.newPassword := "";
                      ProfilePage.confirmPassword := "" |} |}
              (signed_in_browser alice [server_error; HttpReply 200 "OK" plain_body])
              eq_refl ltac:(discriminate) eq_refl)
    as (p' & s' & more & E & _ & Herr & Hsent).
  exists p', s'. split; [exact E|]. split; [exact Herr|].
  pose proof (f_equal snd E) as Es. cbn [snd] in Es. rewrite <- Es. reflexivity.
Defined.

(** ** The route guards *)

(** X27. The role guard is at least as strict as the plain guard: whenever
    [RoleProtectedRoute] renders its children, so does [ProtectedRoute]; the
    two show the spinner in the same states; and a visitor the plain guard
    sends to the login with a return URL is sent by the role guard to
    /login without one. *)
Theorem role_guard_stricter encodeURIComponent pathname requiredRole s :
  (RoleProtectedRoute.RoleProtectedRoute requiredRole s = RoleProtectedRoute.Children →
   ProtectedRoute.ProtectedRoute encodeURIComponent pathname s
   = RoleProtectedRoute.Children)
  ∧ (RoleProtectedRoute.RoleProtectedRoute requiredRole s = RoleProtectedRoute.LoadingSpinner
     ↔ ProtectedRoute.ProtectedRoute encodeURIComponent pathname s
       = RoleProtectedRoute.LoadingSpinner)
  ∧ (ProtectedRoute.ProtectedRoute encodeURIComponent pathname s
     = RoleProtectedRoute.Navigate ("/login?returnUrl=" +:+ encodeURIComponent pathname)
     ↔ RoleProtectedRoute.RoleProtectedRoute requiredRole s
       = RoleProtectedRoute.Navigate "/login").
Proof.
  unfold RoleProtectedRoute.RoleProtectedRoute, ProtectedRoute.ProtectedRoute.
  destruct (isLoading s); [by repeat split|].
  destruct (bool_decide (is_Some (user s))); cbn; [|by repeat split].
  destruct (_ <? _); repeat split; done.
Qed.

Lemma accepted_login_console_independent_witness :
  console (LoginPage.handleSubmit "/dashboard" (login_values "hunter2") login_page
             (fresh_browser [HttpReply 200 "OK" (token_body "access-1" "refresh-1");
                             HttpReply 200 "OK" plain_body])).2
  = console (LoginPage.handleSubmit "/dashboard" (login_values "letmein") login_page
               (fresh_browser [HttpReply 200 "OK" (token_body "access-1" "refresh-1");
                               HttpReply 200 "OK" plain_body])).2.
Proof.
  exact (accepted_login_console_independent "/dashboard" "alice@example.com"
           "hunter2" "letmein" false login_page
           (fresh_browser [HttpReply 200 "OK" (token_body "access-1" "refresh-1");
                           HttpReply 200 "OK" plain_body])
           (token_body "access-1" "refresh-1") eq_refl).
Defined.
